(** * HealthChain backend: consent-gated encrypted records

    A shallow embedding of [backend/index.js].  The Express handlers become
    state-passing functions over an explicit [State] that gathers the
    module-level variables ([consents], [records], [audit]), the two pieces
    of durable storage (the ledger file and the uploads directory) and the
    two sources of non-determinism the handlers consult
    ([crypto.randomBytes] and [new Date()]).

    Conventions.
    - Every handler is synchronous, so requests are served one after the
      other; a run is a list of requests.
    - Random bytes and timestamps come from two oracles held in the state;
      a statement that quantifies over states quantifies over them.
    - The file system does not fail and nobody else writes to it.  The
      ledger file holds an array or is unreadable; [JSON.parse] of what
      [JSON.stringify] wrote gives the value back.
    - The handlers take Node's AES as a parameter (see [Section Backend]),
      so that what does not depend on the cipher is proved for any cipher;
      [aes_256_cbc_encrypt] and [aes_256_cbc_decrypt] further down are the
      cipher the program calls. *)

From Stdlib Require Import List String Ascii Bool Arith Lia NArith Btauto.
From stdpp Require Import gmap strings list fin_maps.
Import ListNotations.

Local Open Scope string_scope.
Local Open Scope list_scope.

(** ** JavaScript values carried by request bodies and query strings

    Identifiers arrive as JSON primitives.  Arrays and objects, which [===]
    compares by reference, are outside the model; numbers are the
    integer-valued ones. *)

Inductive jsval : Type :=
| JUndefined
| JNull
| JBool (b : bool)
| JNum (n : Z)
| JStr (s : string).

(** [!v] is [negb (truthy v)]. *)
Definition truthy (v : jsval) : bool :=
  match v with
  | JUndefined | JNull => false
  | JBool b => b
  | JNum n => negb (Z.eqb n 0)
  | JStr s => negb (String.eqb s "")
  end.

(** [a === b] on primitives. *)
Definition strict_eq (a b : jsval) : bool :=
  match a, b with
  | JUndefined, JUndefined => true
  | JNull, JNull => true
  | JBool x, JBool y => Bool.eqb x y
  | JNum x, JNum y => Z.eqb x y
  | JStr x, JStr y => String.eqb x y
  | _, _ => false
  end.

(** ** Hexadecimal encoding: [buf.toString("hex")] and [Buffer.from(s, "hex")] *)

Definition hex_digit (n : N) : ascii :=
  match n with
  | 0 => "0" | 1 => "1" | 2 => "2" | 3 => "3" | 4 => "4" | 5 => "5"
  | 6 => "6" | 7 => "7" | 8 => "8" | 9 => "9" | 10 => "a" | 11 => "b"
  | 12 => "c" | 13 => "d" | 14 => "e" | _ => "f"
  end%N%char.

Definition hex_value (c : ascii) : option N :=
  let n := N_of_ascii c in
  if ((48 <=? n) && (n <=? 57))%N then Some (n - 48)%N
  else if ((97 <=? n) && (n <=? 102))%N then Some (n - 87)%N
  else if ((65 <=? n) && (n <=? 70))%N then Some (n - 55)%N
  else None.

Fixpoint to_hex (bs : list Byte.byte) : string :=
  match bs with
  | [] => EmptyString
  | b :: rest =>
      let n := Byte.to_N b in
      String (hex_digit (n / 16)) (String (hex_digit (n mod 16)) (to_hex rest))
  end.

(** Node decodes pairs of hex digits and stops at the first pair that is not
    valid; a trailing single character is dropped. *)
Fixpoint from_hex (s : string) : list Byte.byte :=
  match s with
  | String c1 (String c2 rest) =>
      match hex_value c1, hex_value c2 with
      | Some h, Some l =>
          match Byte.of_N (16 * h + l) with
          | Some b => b :: from_hex rest
          | None => []
          end
      | _, _ => []
      end
  | _ => []
  end.

(** ** Data model (lines 60-64 of the source) *)

(** An entry of [consents]: [{ patientId, providerId, granted, timestamp }]. *)
Record Consent : Type := mkConsent {
  c_patientId : jsval;
  c_providerId : jsval;
  c_granted : bool;
  c_timestamp : string
}.

(** An entry of [records]:
    [{ recordId, patientId, providerId, filename, date, iv }]. *)
Record Rec : Type := mkRec {
  r_recordId : string;
  r_patientId : jsval;
  r_providerId : jsval;
  r_filename : string;
  r_date : string;
  r_iv : string
}.

(** The projection the listing route sends back: no [iv]. *)
Record RecView : Type := mkRecView {
  v_recordId : string;
  v_patientId : jsval;
  v_providerId : jsval;
  v_filename : string;
  v_date : string
}.

(** An entry of [audit]: [{ txId, action, actor, target, timestamp }]. *)
Record AuditEntry : Type := mkAudit {
  a_txId : string;
  a_action : string;
  a_actor : jsval;
  a_target : jsval;
  a_timestamp : string
}.

(** What a handler passes to [addToLedger], by [type]; every one carries
    [tx]. *)
Inductive LedgerEvent : Type :=
| CONSENT_GRANTED (patientId providerId : jsval) (tx : string)
| CONSENT_REVOKED (patientId providerId : jsval) (tx : string)
| RECORD_ADDED (recordId : string) (tx : string)
| READ_RECORDS (patientId providerId : jsval) (tx : string)
| DOWNLOAD_DECRYPT (recordId : string) (tx : string) (actor : jsval).

(** A stored ledger entry: [{ ...entry, timestamp }]. *)
Record LedgerEntry : Type := mkLedger {
  l_event : LedgerEvent;
  l_timestamp : string
}.

Definition event_tx (e : LedgerEvent) : string :=
  match e with
  | CONSENT_GRANTED _ _ tx | CONSENT_REVOKED _ _ tx | RECORD_ADDED _ tx
  | READ_RECORDS _ _ tx | DOWNLOAD_DECRYPT _ tx _ => tx
  end.

Definition l_tx (l : LedgerEntry) : string := event_tx (l_event l).

(** The result of [encryptBuffer]: [{ iv, data }], both hex strings. *)
Record Encrypted : Type := mkEncrypted {
  e_iv : string;
  e_data : string
}.

(** A file of the uploads directory: the raw bytes multer stored, or the
    JSON text of an [{ iv, data }] object written by the upload handler.
    Reading raw bytes with [JSON.parse] and using the result as such an
    object throws. *)
Inductive FileContent : Type :=
| FRaw (bytes : list Byte.byte)
| FJson (enc : Encrypted).

(** [req.file] as multer's disk storage leaves it: the file is already
    written to [UPLOADS/filename]. *)
Record UploadedFile : Type := mkUpload {
  f_filename : string;
  f_bytes : list Byte.byte
}.

(** ** Program state *)

Record State : Type := mkState {
  (** [ENC_KEY], drawn once when the process starts. *)
  ENC_KEY : list Byte.byte;
  consents : list Consent;
  records : list Rec;
  audit : list AuditEntry;
  (** [LEDGER_FILE]: [None] when the file cannot be read or parsed;
      otherwise the array it holds.  The program only ever writes arrays. *)
  LEDGER_FILE : option (list LedgerEntry);
  (** The [UPLOADS] directory, by file name. *)
  UPLOADS : gmap string FileContent;
  (** The bytes [crypto.randomBytes] will deliver, and how many were
      consumed. *)
  entropy : nat -> Byte.byte;
  drawn : nat;
  (** The values [new Date().toISOString()] will deliver, and how many
      were consumed. *)
  clock : nat -> string;
  ticks : nat
}.

(** ** A state monad for the handlers *)

Definition M (A : Type) : Type := State -> A * State.

Definition ret {A} (a : A) : M A := fun s => (a, s).

Definition bind {A B} (m : M A) (k : A -> M B) : M B :=
  fun s => let (a, s') := m s in k a s'.

Declare Scope hc_scope.
Delimit Scope hc_scope with hc.
Notation "x <- m ;; k" := (bind m (fun x => k))
  (at level 100, m at next level, right associativity) : hc_scope.
Notation "m ;;; k" := (bind m (fun _ => k))
  (at level 100, right associativity) : hc_scope.
Local Open Scope hc_scope.

Definition IV_LENGTH : nat := 16.

Definition get {A} (f : State -> A) : M A := fun s => (f s, s).

Definition set_consents (cs : list Consent) : M unit := fun s =>
  (tt, mkState (ENC_KEY s) cs (records s) (audit s) (LEDGER_FILE s)
               (UPLOADS s) (entropy s) (drawn s) (clock s) (ticks s)).

Definition set_records (rs : list Rec) : M unit := fun s =>
  (tt, mkState (ENC_KEY s) (consents s) rs (audit s) (LEDGER_FILE s)
               (UPLOADS s) (entropy s) (drawn s) (clock s) (ticks s)).

Definition set_audit (a : list AuditEntry) : M unit := fun s =>
  (tt, mkState (ENC_KEY s) (consents s) (records s) a (LEDGER_FILE s)
               (UPLOADS s) (entropy s) (drawn s) (clock s) (ticks s)).

Definition set_ledger_file (l : option (list LedgerEntry)) : M unit := fun s =>
  (tt, mkState (ENC_KEY s) (consents s) (records s) (audit s) l
               (UPLOADS s) (entropy s) (drawn s) (clock s) (ticks s)).

Definition set_uploads (u : gmap string FileContent) : M unit := fun s =>
  (tt, mkState (ENC_KEY s) (consents s) (records s) (audit s) (LEDGER_FILE s)
               u (entropy s) (drawn s) (clock s) (ticks s)).

(** [crypto.randomBytes(n)] *)
Definition randomBytes (n : nat) : M (list Byte.byte) := fun s =>
  (List.map (entropy s) (seq (drawn s) n),
   mkState (ENC_KEY s) (consents s) (records s) (audit s) (LEDGER_FILE s)
           (UPLOADS s) (entropy s) (drawn s + n) (clock s) (ticks s)).

(** ** Helpers (lines 27-57) *)

Definition nowIso : M string := fun s =>
  (clock s (ticks s),
   mkState (ENC_KEY s) (consents s) (records s) (audit s) (LEDGER_FILE s)
           (UPLOADS s) (entropy s) (drawn s) (clock s) (S (ticks s))).

Definition newTxId : M string :=
  bs <- randomBytes 12 ;; ret ("0x" +:+ to_hex bs).

(** [try { JSON.parse(readFileSync(LEDGER_FILE)) } catch { return [] }] *)
Definition readLedger : M (list LedgerEntry) :=
  f <- get LEDGER_FILE ;;
  match f with
  | Some ledger => ret ledger
  | None => ret []
  end.

Definition addToLedger (entry : LedgerEvent) : M unit :=
  ledger <- readLedger ;;
  t <- nowIso ;;
  set_ledger_file (Some (ledger ++ [mkLedger entry t])).

(** [audit.push({ txId, action, actor, target, timestamp: nowIso() })] *)
Definition audit_push (txId action : string) (actor target : jsval) : M unit :=
  t <- nowIso ;;
  a <- get audit ;;
  set_audit (a ++ [mkAudit txId action actor target t]).

(** ** The cipher

    [crypto.createCipheriv("aes-256-cbc", key, iv)] followed by [update] and
    [final], and its inverse, belong to Node's crypto module.  They are
    parameters of the handlers; decryption answers [None] where Node
    throws (bad key or iv length, bad padding). *)

Section Backend.

Variable aes_256_cbc_encrypt :
  list Byte.byte -> list Byte.byte -> list Byte.byte -> list Byte.byte.
Variable aes_256_cbc_decrypt :
  list Byte.byte -> list Byte.byte -> list Byte.byte -> option (list Byte.byte).

Definition encryptBuffer (buffer : list Byte.byte) : M Encrypted :=
  iv <- randomBytes IV_LENGTH ;;
  key <- get ENC_KEY ;;
  let encrypted := aes_256_cbc_encrypt key iv buffer in
  ret (mkEncrypted (to_hex iv) (to_hex encrypted)).

Definition decryptBuffer (hexData hexIv : string) : M (option (list Byte.byte)) :=
  let iv := from_hex hexIv in
  let encryptedText := from_hex hexData in
  key <- get ENC_KEY ;;
  ret (aes_256_cbc_decrypt key iv encryptedText).

(** ** Responses *)

Record Patient : Type := mkPatient { p_patientId : string; p_name : string }.
Record Provider : Type := mkProvider { q_providerId : string; q_name : string }.

Definition patients : list Patient := [mkPatient "pat-1" "John Doe"].
Definition providers : list Provider := [mkProvider "doc-1" "Dr. Smith"].

Inductive Response : Type :=
(** [res.status(n).json({ ok: false, error })] *)
| RError (status : nat) (error : string)
| RStatus (now : string)
| RPatients (ps : list Patient)
| RProviders (ps : list Provider)
(** [{ ok: true, tx, timestamp }] *)
| RTx (tx timestamp : string)
(** [{ ok: true, record, tx }] *)
| RRecord (rec : Rec) (tx : string)
(** [{ ok: true, records, tx }] *)
| RRecords (recs : list RecView) (tx : string)
(** the decrypted bytes, sent as an attachment with the given file name *)
| RFile (attachment : string) (bytes : list Byte.byte)
| RAudit (a : list AuditEntry)
| RLedger (l : list LedgerEntry).

(** ** Consent check

    The expression
    [consents.some(c => c.patientId === p && c.providerId === q && c.granted === true)]
    of lines 123, 167 and 198. *)
Definition hasConsent (cs : list Consent) (patientId providerId : jsval) : bool :=
  existsb (fun c => strict_eq (c_patientId c) patientId
                    && strict_eq (c_providerId c) providerId
                    && Bool.eqb (c_granted c) true) cs.

(** [c => !(c.patientId === p && c.providerId === q)] *)
Definition other_pair (patientId providerId : jsval) (c : Consent) : bool :=
  negb (strict_eq (c_patientId c) patientId && strict_eq (c_providerId c) providerId).

(** ** Routes *)

Definition get_status : M Response :=
  t <- nowIso ;; ret (RStatus t).

Definition get_patients : M Response := ret (RPatients patients).
Definition get_providers : M Response := ret (RProviders providers).

(** [POST /api/consent/grant] *)
Definition consent_grant (patientId providerId : jsval) : M Response :=
  if negb (truthy patientId) || negb (truthy providerId)
  then ret (RError 400 "patientId & providerId required")
  else
    cs <- get consents ;;
    set_consents (List.filter (other_pair patientId providerId) cs) ;;;
    t <- nowIso ;;
    cs <- get consents ;;
    set_consents (cs ++ [mkConsent patientId providerId true t]) ;;;
    tx <- newTxId ;;
    audit_push tx "GRANT_CONSENT" patientId providerId ;;;
    addToLedger (CONSENT_GRANTED patientId providerId tx) ;;;
    t <- nowIso ;;
    ret (RTx tx t).

(** [POST /api/consent/revoke] *)
Definition consent_revoke (patientId providerId : jsval) : M Response :=
  if negb (truthy patientId) || negb (truthy providerId)
  then ret (RError 400 "patientId & providerId required")
  else
    cs <- get consents ;;
    set_consents (List.filter (other_pair patientId providerId) cs) ;;;
    t <- nowIso ;;
    cs <- get consents ;;
    set_consents (cs ++ [mkConsent patientId providerId false t]) ;;;
    tx <- newTxId ;;
    audit_push tx "REVOKE_CONSENT" patientId providerId ;;;
    addToLedger (CONSENT_REVOKED patientId providerId tx) ;;;
    t <- nowIso ;;
    ret (RTx tx t).

(** [upload.single("file")]: multer stores the upload in [UPLOADS] before
    the handler runs. *)
Definition multer_single (file : option UploadedFile) : M unit :=
  match file with
  | Some f =>
      u <- get UPLOADS ;;
      set_uploads (<[f_filename f := FRaw (f_bytes f)]> u)
  | None => ret tt
  end.

(** [if (fs.existsSync(p)) fs.unlinkSync(p)] *)
Definition unlink_if_exists (path : string) : M unit :=
  u <- get UPLOADS ;;
  match u !! path with
  | Some _ => set_uploads (delete path u)
  | None => ret tt
  end.

(** The handler of [POST /api/add-record]; an exception inside the [try]
    answers 500. *)
Definition add_record_handler (patientId providerId : jsval)
    (file : option UploadedFile) : M Response :=
  if negb (truthy patientId) || negb (truthy providerId)
  then
    match file with
    | Some f => unlink_if_exists (f_filename f)
    | None => ret tt
    end ;;;
    ret (RError 400 "patientId & providerId required")
  else
    match file with
    | None => ret (RError 400 "file required")
    | Some f =>
        cs <- get consents ;;
        let allowed := hasConsent cs patientId providerId in
        if negb allowed
        then
          unlink_if_exists (f_filename f) ;;;
          ret (RError 403 "access denied: no active consent")
        else
          let tmpPath := f_filename f in
          u <- get UPLOADS ;;
          match u !! tmpPath with
          | Some (FRaw buf) =>
              encrypted <- encryptBuffer buf ;;
              let encFilename := f_filename f +:+ ".enc" in
              u <- get UPLOADS ;;
              set_uploads (<[encFilename := FJson encrypted]> u) ;;;
              u <- get UPLOADS ;;
              set_uploads (delete tmpPath u) ;;;
              idBytes <- randomBytes 8 ;;
              date <- nowIso ;;
              let rec := mkRec ("0x" +:+ to_hex idBytes) patientId providerId
                               encFilename date (e_iv encrypted) in
              rs <- get records ;;
              set_records (rs ++ [rec]) ;;;
              tx <- newTxId ;;
              audit_push tx "ADD_RECORD" providerId (JStr (r_recordId rec)) ;;;
              addToLedger (RECORD_ADDED (r_recordId rec) tx) ;;;
              ret (RRecord rec tx)
          | _ => ret (RError 500 "server error")
          end
    end.

Definition add_record (patientId providerId : jsval)
    (file : option UploadedFile) : M Response :=
  multer_single file ;;;
  add_record_handler patientId providerId file.

Definition view (r : Rec) : RecView :=
  mkRecView (r_recordId r) (r_patientId r) (r_providerId r) (r_filename r)
            (r_date r).

(** [GET /api/records/:patientId/:providerId]; route parameters are
    strings. *)
Definition get_records (patientId providerId : string) : M Response :=
  cs <- get consents ;;
  let allowed := hasConsent cs (JStr patientId) (JStr providerId) in
  if negb allowed then ret (RError 403 "no consent")
  else
    rs <- get records ;;
    let recs :=
      List.map view
        (List.filter (fun r => strict_eq (r_patientId r) (JStr patientId)) rs) in
    tx <- newTxId ;;
    audit_push tx "READ_RECORDS" (JStr providerId) (JStr patientId) ;;;
    addToLedger (READ_RECORDS (JStr patientId) (JStr providerId) tx) ;;;
    ret (RRecords recs tx).

(** [s.replace(pat, rep)] with a string pattern: the first occurrence only. *)
Fixpoint replace_first (pat rep s : string) : string :=
  if String.prefix pat s
  then rep +:+ String.substring (String.length pat)
                 (String.length s - String.length pat) s
  else match s with
       | EmptyString => EmptyString
       | String c rest => String c (replace_first pat rep rest)
       end.

(** [GET /api/decrypt/:recordId?providerId=...] *)
Definition get_decrypt (recordId : string) (providerId : jsval) : M Response :=
  if negb (truthy providerId)
  then ret (RError 400 "providerId query param required")
  else
    rs <- get records ;;
    match List.find (fun r => String.eqb (r_recordId r) recordId) rs with
    | None => ret (RError 404 "record not found")
    | Some rec =>
        cs <- get consents ;;
        let allowed := hasConsent cs (r_patientId rec) providerId in
        if negb allowed
        then ret (RError 403 "access denied: no active consent")
        else
          u <- get UPLOADS ;;
          match u !! r_filename rec with
          | None => ret (RError 404 "encrypted file missing")
          | Some (FJson encrypted) =>
              d <- decryptBuffer (e_data encrypted) (e_iv encrypted) ;;
              match d with
              | Some decrypted =>
                  tx <- newTxId ;;
                  audit_push tx "DOWNLOAD_DECRYPT" providerId (JStr recordId) ;;;
                  addToLedger (DOWNLOAD_DECRYPT recordId tx providerId) ;;;
                  ret (RFile (replace_first ".enc" "" (r_filename rec)) decrypted)
              | None => ret (RError 500 "decryption failed")
              end
          | Some (FRaw _) => ret (RError 500 "decryption failed")
          end
    end.

Definition get_audit : M Response :=
  a <- get audit ;; ret (RAudit a).

Definition get_ledger : M Response :=
  l <- readLedger ;; ret (RLedger l).

(** ** Requests and runs *)

Inductive Request : Type :=
| GetStatus
| GetPatients
| GetProviders
| PostGrant (patientId providerId : jsval)
| PostRevoke (patientId providerId : jsval)
| PostAddRecord (patientId providerId : jsval) (file : option UploadedFile)
| GetRecords (patientId providerId : string)
| GetDecrypt (recordId : string) (providerId : jsval)
| GetAudit
| GetLedger.

Definition handle (r : Request) : M Response :=
  match r with
  | GetStatus => get_status
  | GetPatients => get_patients
  | GetProviders => get_providers
  | PostGrant p q => consent_grant p q
  | PostRevoke p q => consent_revoke p q
  | PostAddRecord p q f => add_record p q f
  | GetRecords p q => get_records p q
  | GetDecrypt id q => get_decrypt id q
  | GetAudit => get_audit
  | GetLedger => get_ledger
  end.

(** The state after serving the requests one after the other. *)
Fixpoint run (rs : list Request) (s : State) : State :=
  match rs with
  | [] => s
  | r :: rest => run rest (snd (handle r s))
  end.

(** The responses, in order. *)
Fixpoint responses (rs : list Request) (s : State) : list Response :=
  match rs with
  | [] => []
  | r :: rest => fst (handle r s) :: responses rest (snd (handle r s))
  end.

End Backend.

Arguments run _ _ !rs s /.
Arguments responses _ _ !rs s /.

(** Start of the process (lines 15-24 and 60-64): the ledger file is created
    holding [[]] unless it exists ([Some f] gives what is on disk, readable
    or not), and the key is drawn. *)
Definition boot (ledger_on_disk : option (option (list LedgerEntry)))
    (uploads_on_disk : gmap string FileContent)
    (entropy : nat -> Byte.byte) (clock : nat -> string) : State :=
  mkState (List.map entropy (seq 0 32)) [] [] []
          (match ledger_on_disk with
           | None => Some []
           | Some f => f
           end)
          uploads_on_disk entropy 32 clock 0.

(** ** Views used in the statements *)

(** The spec's [isActive]: the consent check on the live registry. *)
Definition isActive (s : State) (patientId providerId : jsval) : bool :=
  hasConsent (consents s) patientId providerId.

(** What [readLedger()] returns in state [s]. *)
Definition ledger_view (s : State) : list LedgerEntry :=
  fst (readLedger s).

(** The [n] random bytes delivered from position [pos] on. *)
Definition random_at (s : State) (pos n : nat) : list Byte.byte :=
  List.map (entropy s) (seq pos n).

(** The transaction id [newTxId()] produces at position [pos]. *)
Definition tx_at (s : State) (pos : nat) : string :=
  "0x" +:+ to_hex (random_at s pos 12).

(** The record id the upload handler produces at position [pos]. *)
Definition record_id_at (s : State) (pos : nat) : string :=
  "0x" +:+ to_hex (random_at s pos 8).

(** The spec's error names, as the handlers answer them. *)
Definition InvalidArgument (r : Response) : Prop :=
  exists msg, r = RError 400 msg.
Definition AccessDenied (r : Response) : Prop :=
  exists msg, r = RError 403 msg.
Definition NotFound (r : Response) : Prop :=
  r = RError 404 "record not found".
Definition StorageMissing (r : Response) : Prop :=
  r = RError 404 "encrypted file missing".
Definition DecryptionFailed (r : Response) : Prop :=
  r = RError 500 "decryption failed".

Definition is_error (r : Response) : bool :=
  match r with
  | RError _ _ => true
  | _ => false
  end.

(** ** States after a successful call *)

(** After a successful grant ([g = true]) or revoke ([g = false]). *)
Definition after_mutator (g : bool) (action : string)
    (ev : jsval -> jsval -> string -> LedgerEvent) (p q : jsval) (s : State)
    : State :=
  let tx := tx_at s (drawn s) in
  mkState (ENC_KEY s)
    (List.filter (other_pair p q) (consents s)
       ++ [mkConsent p q g (clock s (ticks s))])
    (records s)
    (audit s ++ [mkAudit tx action p q (clock s (S (ticks s)))])
    (Some (ledger_view s
             ++ [mkLedger (ev p q tx) (clock s (S (S (ticks s))))]))
    (UPLOADS s) (entropy s) (drawn s + 12) (clock s)
    (S (S (S (S (ticks s))))).

Section After.

Variable enc : list Byte.byte -> list Byte.byte -> list Byte.byte -> list Byte.byte.

(** What [encryptBuffer] returns in state [s]. *)
Definition encrypted_at (s : State) (buf : list Byte.byte) : Encrypted :=
  let iv := random_at s (drawn s) IV_LENGTH in
  mkEncrypted (to_hex iv) (to_hex (enc (ENC_KEY s) iv buf)).

(** The metadata a successful upload creates. *)
Definition new_record (p q : jsval) (f : UploadedFile) (s : State) : Rec :=
  mkRec (record_id_at s (drawn s + IV_LENGTH)) p q (f_filename f +:+ ".enc")
        (clock s (ticks s)) (e_iv (encrypted_at s (f_bytes f))).

Definition after_add_record (p q : jsval) (f : UploadedFile) (s : State)
    : State :=
  let rec := new_record p q f s in
  let tx := tx_at s (drawn s + IV_LENGTH + 8) in
  mkState (ENC_KEY s) (consents s)
    (records s ++ [rec])
    (audit s ++ [mkAudit tx "ADD_RECORD" q (JStr (r_recordId rec))
                         (clock s (S (ticks s)))])
    (Some (ledger_view s
             ++ [mkLedger (RECORD_ADDED (r_recordId rec) tx)
                          (clock s (S (S (ticks s))))]))
    (delete (f_filename f)
       (<[f_filename f +:+ ".enc" := FJson (encrypted_at s (f_bytes f))]>
          (<[f_filename f := FRaw (f_bytes f)]> (UPLOADS s))))
    (entropy s) (drawn s + IV_LENGTH + 8 + 12) (clock s)
    (S (S (S (ticks s)))).

End After.

(** After a successful listing. *)
Definition after_read (p q : string) (s : State) : State :=
  let tx := tx_at s (drawn s) in
  mkState (ENC_KEY s) (consents s) (records s)
    (audit s ++ [mkAudit tx "READ_RECORDS" (JStr q) (JStr p)
                         (clock s (ticks s))])
    (Some (ledger_view s
             ++ [mkLedger (READ_RECORDS (JStr p) (JStr q) tx)
                          (clock s (S (ticks s)))]))
    (UPLOADS s) (entropy s) (drawn s + 12) (clock s) (S (S (ticks s))).

(** After a successful download. *)
Definition after_decrypt (recordId : string) (q : jsval) (s : State) : State :=
  let tx := tx_at s (drawn s) in
  mkState (ENC_KEY s) (consents s) (records s)
    (audit s ++ [mkAudit tx "DOWNLOAD_DECRYPT" q (JStr recordId)
                         (clock s (ticks s))])
    (Some (ledger_view s
             ++ [mkLedger (DOWNLOAD_DECRYPT recordId tx q)
                          (clock s (S (ticks s)))]))
    (UPLOADS s) (entropy s) (drawn s + 12) (clock s) (S (S (ticks s))).

(** The records a listing for patient [p] returns. *)
Definition listing (p : string) (s : State) : list RecView :=
  List.map view
    (List.filter (fun r => strict_eq (r_patientId r) (JStr p)) (records s)).

(** The record [records.find(r => r.recordId === id)] yields. *)
Definition find_record (id : string) (s : State) : option Rec :=
  List.find (fun r => String.eqb (r_recordId r) id) (records s).

(** ** Steps

    [silent s s'] holds when nothing but the uploads directory and the clock
    position differs between the two states; [effect s resp s'] lists what a
    request can do to the state. *)

Definition silent (s s' : State) : Prop :=
  ENC_KEY s' = ENC_KEY s /\ consents s' = consents s /\
  records s' = records s /\ audit s' = audit s /\
  LEDGER_FILE s' = LEDGER_FILE s /\ entropy s' = entropy s /\
  drawn s' = drawn s /\ clock s' = clock s.

Inductive effect
    (enc : list Byte.byte -> list Byte.byte -> list Byte.byte -> list Byte.byte)
    (s : State) : State -> Prop :=
| eff_silent s' : silent s s' -> effect enc s s'
| eff_grant p q :
    truthy p = true -> truthy q = true ->
    effect enc s (after_mutator true "GRANT_CONSENT" CONSENT_GRANTED p q s)
| eff_revoke p q :
    truthy p = true -> truthy q = true ->
    effect enc s (after_mutator false "REVOKE_CONSENT" CONSENT_REVOKED p q s)
| eff_add p q f :
    truthy p = true -> truthy q = true -> isActive s p q = true ->
    effect enc s (after_add_record enc p q f s)
| eff_read p q :
    isActive s (JStr p) (JStr q) = true ->
    effect enc s (after_read p q s)
| eff_decrypt id q rec :
    truthy q = true -> find_record id s = Some rec ->
    isActive s (r_patientId rec) q = true ->
    effect enc s (after_decrypt id q s).

(** The requests that change state or disclose records. *)
Definition privileged (r : Request) : bool :=
  match r with
  | PostGrant _ _ | PostRevoke _ _ | PostAddRecord _ _ _ | GetRecords _ _
  | GetDecrypt _ _ => true
  | _ => false
  end.

(** ** The live registry, pair by pair *)

(** [c.patientId === p && c.providerId === q] *)
Definition same_pair (p q : jsval) (c : Consent) : bool :=
  strict_eq (c_patientId c) p && strict_eq (c_providerId c) q.

(** The entries the registry holds for a pair. *)
Definition entries_for (p q : jsval) (cs : list Consent) : list Consent :=
  List.filter (same_pair p q) cs.

(** A grant or revoke call naming the pair. *)
Definition targets (p q : jsval) (r : Request) : bool :=
  match r with
  | PostGrant p' q' | PostRevoke p' q' => strict_eq p' p && strict_eq q' q
  | _ => false
  end.

(** ** Logging *)

(** One audit entry and one ledger entry were appended between [s] and
    [s'], both carrying [tx]. *)
Definition logged_once (s s' : State) (tx : string) : Prop :=
  exists a l,
    audit s' = audit s ++ [a] /\ ledger_view s' = ledger_view s ++ [l]
    /\ a_txId a = tx /\ l_tx l = tx.

(** [tx] was made by [newTxId] from random bytes consumed between [s] and
    [s']. *)
Definition fresh_tx (s s' : State) (tx : string) : Prop :=
  exists pos,
    drawn s <= pos /\ pos + 12 <= drawn s' /\ tx = tx_at s pos.

(** The transaction id a response carries, if it carries one. *)
Definition response_tx (r : Response) : option string :=
  match r with
  | RTx tx _ | RRecord _ tx | RRecords _ tx => Some tx
  | _ => None
  end.

Definition at_most_one (cs : list Consent) : Prop :=
  forall p q, length (entries_for p q cs) <= 1.

(** ** The scenario of the specification *)

Definition hello : list Byte.byte := list_byte_of_string "hello".

(** The calls of the scenario; [id] is the id of the record the second
    upload creates. *)
Definition scenario (f0 : UploadedFile) (name id : string) : list Request :=
  [ PostAddRecord (JStr "pat-1") (JStr "doc-1") (Some f0);
    PostGrant (JStr "pat-1") (JStr "doc-1");
    PostAddRecord (JStr "pat-1") (JStr "doc-1") (Some (mkUpload name hello));
    GetDecrypt id (JStr "doc-1");
    PostRevoke (JStr "pat-1") (JStr "doc-1");
    GetDecrypt id (JStr "doc-1");
    GetLedger ].

(** ** A reference cipher

    A CBC mode with PKCS#7 padding over sixteen-byte blocks, the block
    transformation being a keyed exclusive-or followed by a reversal.  It
    stands in for [aes-256-cbc] where a statement made for any cipher is
    run on concrete data, and shows that the law asked of the cipher can
    be met. *)

Definition BLOCK : nat := 16.

Definition xor_byte (a b : Byte.byte) : Byte.byte :=
  match Byte.of_N (N.lxor (Byte.to_N a) (Byte.to_N b)) with
  | Some c => c
  | None => a
  end.

(** Exclusive-or of [a] with the leading bytes of [b]; where [b] runs out
    the rest of [a] is kept. *)
Fixpoint xor_bytes (a b : list Byte.byte) : list Byte.byte :=
  match a with
  | [] => []
  | x :: a' =>
      match b with
      | [] => a
      | y :: b' => xor_byte x y :: xor_bytes a' b'
      end
  end.

Definition block_encrypt (key block : list Byte.byte) : list Byte.byte :=
  rev (xor_bytes block key).

Definition block_decrypt (key block : list Byte.byte) : list Byte.byte :=
  xor_bytes (rev block) key.

Fixpoint cbc_encrypt_blocks (n : nat) (key prev data : list Byte.byte)
    : list Byte.byte :=
  match n with
  | 0 => []
  | S n' =>
      let c := block_encrypt key (xor_bytes (firstn BLOCK data) prev) in
      c ++ cbc_encrypt_blocks n' key c (skipn BLOCK data)
  end.

Fixpoint cbc_decrypt_blocks (n : nat) (key prev data : list Byte.byte)
    : list Byte.byte :=
  match n with
  | 0 => []
  | S n' =>
      let c := firstn BLOCK data in
      xor_bytes (block_decrypt key c) prev
        ++ cbc_decrypt_blocks n' key c (skipn BLOCK data)
  end.

Definition byte_of_nat (k : nat) : Byte.byte :=
  match Byte.of_N (N.of_nat k) with
  | Some b => b
  | None => Byte.x00
  end.

Definition pkcs7_pad (x : list Byte.byte) : list Byte.byte :=
  let k := BLOCK - length x mod BLOCK in
  x ++ repeat (byte_of_nat k) k.

Definition pkcs7_unpad (p : list Byte.byte) : option (list Byte.byte) :=
  match rev p with
  | [] => None
  | b :: _ =>
      let k := N.to_nat (Byte.to_N b) in
      if ((1 <=? k) && (k <=? BLOCK) && (k <=? length p))%nat
         && forallb (Byte.eqb b) (skipn (length p - k) p)
      then Some (firstn (length p - k) p)
      else None
  end.

Definition ref_encrypt (key iv x : list Byte.byte) : list Byte.byte :=
  let p := pkcs7_pad x in
  cbc_encrypt_blocks (length p / BLOCK) key iv p.

Definition ref_decrypt (key iv c : list Byte.byte) : option (list Byte.byte) :=
  if ((length key =? 32) && (length iv =? BLOCK)
      && negb (length c =? 0) && (length c mod BLOCK =? 0))%nat
  then pkcs7_unpad (cbc_decrypt_blocks (length c / BLOCK) key iv c)
  else None.

(** ** AES-256 in CBC mode

    What [crypto.createCipheriv("aes-256-cbc", key, iv)] computes with
    [update] and [final], and its inverse: the block cipher of FIPS 197
    with a 256-bit key (fourteen rounds), chained as in SP 800-38A, the
    last block padded as PKCS#7 prescribes.  A block is a list of sixteen
    bytes in input order, so the state's column [c] is bytes [4c .. 4c+3]. *)

Definition byte_of_N (n : N) : Byte.byte :=
  match Byte.of_N n with
  | Some b => b
  | None => Byte.x00
  end.

Definition all_bytes : list Byte.byte := List.map byte_of_nat (seq 0 256).

(** Multiplication by [x] in GF(2^8), modulo [x^8 + x^4 + x^3 + x + 1]. *)
Definition xtime (b : Byte.byte) : Byte.byte :=
  let n := Byte.to_N b in
  byte_of_N (N.lxor ((2 * n) mod 256) (if (128 <=? n)%N then 0x1b else 0)).

(** The product of the field element with bits [c] and [b], over the [k]
    low bits of [c]. *)
Fixpoint gmul_bits (k : nat) (c : N) (b : Byte.byte) : Byte.byte :=
  match k with
  | 0 => Byte.x00
  | S k' =>
      xor_byte (if N.odd c then b else Byte.x00)
               (gmul_bits k' (N.div2 c) (xtime b))
  end.

Definition gmul (c : N) (b : Byte.byte) : Byte.byte := gmul_bits 8 c b.

(** The multiplicative inverse, zero mapped to itself: [b^254]. *)
Definition ginv (b : Byte.byte) : Byte.byte :=
  Nat.iter 253 (gmul (Byte.to_N b)) b.

Definition rotl8 (n k : N) : N :=
  N.lor ((n * 2 ^ k) mod 256) (n / 2 ^ (8 - k)).

(** The S-box as FIPS 197 defines it: the inverse followed by the affine
    transformation. *)
Definition sub_byte_spec (b : Byte.byte) : Byte.byte :=
  let n := Byte.to_N (ginv b) in
  byte_of_N
    (N.lxor n (N.lxor (rotl8 n 1) (N.lxor (rotl8 n 2)
       (N.lxor (rotl8 n 3) (N.lxor (rotl8 n 4) 0x63))))).

(** The S-box and its inverse as tables. *)
Definition SBOX : list Byte.byte :=
  Eval vm_compute in List.map sub_byte_spec all_bytes.

Definition sub_byte (b : Byte.byte) : Byte.byte :=
  nth (N.to_nat (Byte.to_N b)) SBOX Byte.x00.

Definition INV_SBOX : list Byte.byte :=
  Eval vm_compute in
    List.map (fun y => match List.find (fun x => Byte.eqb (sub_byte x) y)
                                       all_bytes with
                       | Some x => x
                       | None => Byte.x00
                       end) all_bytes.

Definition inv_sub_byte (b : Byte.byte) : Byte.byte :=
  nth (N.to_nat (Byte.to_N b)) INV_SBOX Byte.x00.

Definition sub_bytes (st : list Byte.byte) : list Byte.byte :=
  List.map sub_byte st.

Definition inv_sub_bytes (st : list Byte.byte) : list Byte.byte :=
  List.map inv_sub_byte st.

(** Byte [i] of the result is byte [nth i idx] of the block. *)
Definition permute (idx : list nat) (st : list Byte.byte) : list Byte.byte :=
  List.map (fun i => nth i st Byte.x00) idx.

(** Row [r] of the state moves [r] columns to the left. *)
Definition shift_rows : list Byte.byte -> list Byte.byte :=
  permute [0; 5; 10; 15; 4; 9; 14; 3; 8; 13; 2; 7; 12; 1; 6; 11].

Definition inv_shift_rows : list Byte.byte -> list Byte.byte :=
  permute [0; 13; 10; 7; 4; 1; 14; 11; 8; 5; 2; 15; 12; 9; 6; 3].

(** [k] pieces of [n] elements each. *)
Fixpoint chunks {A} (n k : nat) (l : list A) : list (list A) :=
  match k with
  | 0 => []
  | S k' => firstn n l :: chunks n k' (skipn n l)
  end.

Definition mix_column (c : list Byte.byte) : list Byte.byte :=
  match c with
  | [s0; s1; s2; s3] =>
      [ xor_byte (xor_byte (xor_byte (gmul 2 s0) (gmul 3 s1)) s2) s3;
        xor_byte (xor_byte (xor_byte s0 (gmul 2 s1)) (gmul 3 s2)) s3;
        xor_byte (xor_byte (xor_byte s0 s1) (gmul 2 s2)) (gmul 3 s3);
        xor_byte (xor_byte (xor_byte (gmul 3 s0) s1) s2) (gmul 2 s3) ]
  | _ => c
  end.

Definition inv_mix_column (c : list Byte.byte) : list Byte.byte :=
  match c with
  | [s0; s1; s2; s3] =>
      [ xor_byte (xor_byte (xor_byte (gmul 0x0e s0) (gmul 0x0b s1))
                           (gmul 0x0d s2)) (gmul 0x09 s3);
        xor_byte (xor_byte (xor_byte (gmul 0x09 s0) (gmul 0x0e s1))
                           (gmul 0x0b s2)) (gmul 0x0d s3);
        xor_byte (xor_byte (xor_byte (gmul 0x0d s0) (gmul 0x09 s1))
                           (gmul 0x0e s2)) (gmul 0x0b s3);
        xor_byte (xor_byte (xor_byte (gmul 0x0b s0) (gmul 0x0d s1))
                           (gmul 0x09 s2)) (gmul 0x0e s3) ]
  | _ => c
  end.

Definition mix_columns (st : list Byte.byte) : list Byte.byte :=
  List.concat (List.map mix_column (chunks 4 4 st)).

Definition inv_mix_columns (st : list Byte.byte) : list Byte.byte :=
  List.concat (List.map inv_mix_column (chunks 4 4 st)).

Definition add_round_key (rk st : list Byte.byte) : list Byte.byte :=
  xor_bytes st rk.

(** *** Key expansion for a 256-bit key: sixty words, fifteen round keys *)

Definition rot_word (w : list Byte.byte) : list Byte.byte :=
  match w with
  | [] => []
  | a :: rest => rest ++ [a]
  end.

Definition sub_word (w : list Byte.byte) : list Byte.byte :=
  List.map sub_byte w.

Definition rcon (i : nat) : list Byte.byte :=
  [Nat.iter (i - 1) xtime Byte.x01; Byte.x00; Byte.x00; Byte.x00].

(** Words [i], [i+1], ... [i+n-1], appended to the words [w] before them. *)
Fixpoint expand (n i : nat) (w : list (list Byte.byte))
    : list (list Byte.byte) :=
  match n with
  | 0 => w
  | S n' =>
      let temp := nth (i - 1) w [] in
      let temp :=
        if (i mod 8 =? 0)%nat
        then xor_bytes (sub_word (rot_word temp)) (rcon (i / 8))
        else if (i mod 8 =? 4)%nat then sub_word temp
        else temp in
      expand n' (S i) (w ++ [xor_bytes (nth (i - 8) w []) temp])
  end.

Definition key_expansion (key : list Byte.byte) : list (list Byte.byte) :=
  List.map (@List.concat Byte.byte)
           (chunks 4 15 (expand 52 8 (chunks 4 8 key))).

(** *** The cipher and its inverse *)

(** The rounds that follow the first [AddRoundKey], one per round key; the
    last has no [MixColumns]. *)
Fixpoint rounds (rks : list (list Byte.byte)) (st : list Byte.byte)
    : list Byte.byte :=
  match rks with
  | [] => st
  | rk :: rest =>
      match rest with
      | [] => add_round_key rk (shift_rows (sub_bytes st))
      | _ :: _ =>
          rounds rest
            (add_round_key rk (mix_columns (shift_rows (sub_bytes st))))
      end
  end.

Definition cipher (w : list (list Byte.byte)) (input : list Byte.byte)
    : list Byte.byte :=
  match w with
  | [] => input
  | rk0 :: rest => rounds rest (add_round_key rk0 input)
  end.

(** The rounds undone, the last one first: [AddRoundKey], then
    [InvMixColumns] (but for the last round), [InvShiftRows],
    [InvSubBytes]. *)
Fixpoint inv_rounds (rks : list (list Byte.byte)) (st : list Byte.byte)
    : list Byte.byte :=
  match rks with
  | [] => st
  | rk :: rest =>
      match rest with
      | [] => inv_sub_bytes (inv_shift_rows (add_round_key rk st))
      | _ :: _ =>
          inv_sub_bytes
            (inv_shift_rows
               (inv_mix_columns (add_round_key rk (inv_rounds rest st))))
      end
  end.

Definition inv_cipher (w : list (list Byte.byte)) (input : list Byte.byte)
    : list Byte.byte :=
  match w with
  | [] => input
  | rk0 :: rest => add_round_key rk0 (inv_rounds rest input)
  end.

(** *** Chaining and padding *)

Fixpoint cbc_encrypt (n : nat) (E : list Byte.byte -> list Byte.byte)
    (prev data : list Byte.byte) : list Byte.byte :=
  match n with
  | 0 => []
  | S n' =>
      let c := E (xor_bytes (firstn BLOCK data) prev) in
      c ++ cbc_encrypt n' E c (skipn BLOCK data)
  end.

Fixpoint cbc_decrypt (n : nat) (D : list Byte.byte -> list Byte.byte)
    (prev data : list Byte.byte) : list Byte.byte :=
  match n with
  | 0 => []
  | S n' =>
      let c := firstn BLOCK data in
      xor_bytes (D c) prev ++ cbc_decrypt n' D c (skipn BLOCK data)
  end.

(** [Buffer.concat([cipher.update(x), cipher.final()])].  Node throws
    unless the key has 32 bytes and the iv 16, which is what the process
    passes. *)
Definition aes_256_cbc_encrypt (key iv x : list Byte.byte) : list Byte.byte :=
  let p := pkcs7_pad x in
  cbc_encrypt (length p / BLOCK) (cipher (key_expansion key)) iv p.

(** [Buffer.concat([decipher.update(c), decipher.final()])]; [None] where
    Node throws: a key or iv of the wrong length, data that is empty or not
    a whole number of blocks, a padding that is not PKCS#7. *)
Definition aes_256_cbc_decrypt (key iv c : list Byte.byte)
    : option (list Byte.byte) :=
  if ((length key =? 32) && (length iv =? BLOCK)
      && negb (length c =? 0) && (length c mod BLOCK =? 0))%nat
  then pkcs7_unpad
         (cbc_decrypt (length c / BLOCK) (inv_cipher (key_expansion key)) iv c)
  else None.

(** ** Concrete processes

    A process started on an empty disk with a fixed random source and
    clock, run with the reference cipher. *)

Definition demo_entropy (n : nat) : Byte.byte := byte_of_nat ((7 * n + 3) mod 256).

Definition demo_clock (n : nat) : string :=
  "2025-01-01T00:00:"
  +:+ String (ascii_of_nat (48 + (n / 10) mod 6))
        (String (ascii_of_nat (48 + n mod 10)) ".000Z").

Definition fresh_process : State := boot None ∅ demo_entropy demo_clock.

Definition pat1 : jsval := JStr "pat-1".
Definition doc1 : jsval := JStr "doc-1".
Definition doc2 : jsval := JStr "doc-2".

Definition demo_upload : UploadedFile := mkUpload "a1b2c3" hello.

Definition granted_process : State :=
  run ref_encrypt ref_decrypt [PostGrant pat1 doc1] fresh_process.

Definition uploaded_process : State :=
  run ref_encrypt ref_decrypt
      [PostGrant pat1 doc1; PostAddRecord pat1 doc1 (Some demo_upload)]
      fresh_process.

Definition demo_record : Rec :=
  new_record ref_encrypt pat1 doc1 demo_upload granted_process.

(** The same process after the blob was removed from the uploads
    directory, and after it was overwritten with bytes that are not JSON. *)
Definition blob_lost_process : State :=
  snd (set_uploads ∅ uploaded_process).

Definition blob_garbled_process : State :=
  snd (set_uploads {[ "a1b2c3.enc" := FRaw hello ]} uploaded_process).

(** A process whose random source always delivers the same byte. *)
Definition stuck_entropy_process : State :=
  run ref_encrypt ref_decrypt [PostGrant pat1 doc1]
      (boot None ∅ (fun _ => Byte.x00) demo_clock).

Definition demo_id : string := r_recordId demo_record.

(** The blob replaced by one whose initialization vector is one byte long. *)
Definition blob_tampered_process : State :=
  snd (set_uploads {[ "a1b2c3.enc" := FJson (mkEncrypted "00" "00") ]}
                   uploaded_process).

(** Two providers hold a grant from pat-1. *)
Definition two_providers_process : State :=
  run ref_encrypt ref_decrypt [PostGrant pat1 doc1; PostGrant pat1 doc2]
      fresh_process.

(** A registry holding two entries for one pair, as no run produces. *)
Definition doubled_registry : State :=
  snd (set_consents [ mkConsent pat1 doc1 true "t0"; mkConsent pat1 doc1 false "t1";
                      mkConsent pat1 doc2 true "t2" ] fresh_process).

Definition pat2 : jsval := JStr "pat-2".

Definition other : list Byte.byte := list_byte_of_string "other".

(** A process whose random source always delivers the same byte, in which
    doc-1 holds a grant from pat-2 and one from pat-1 and has uploaded a
    file for pat-2.  Every record id drawn is that of eight zero bytes, so
    the next upload gets the id the stored record bears. *)
Definition colliding_process : State :=
  run aes_256_cbc_encrypt aes_256_cbc_decrypt
      [ PostGrant pat2 doc1; PostGrant pat1 doc1;
        PostAddRecord pat2 doc1 (Some (mkUpload "f0" other)) ]
      (boot None ∅ (fun _ => Byte.x00) demo_clock).

(** ** Further views *)

(** The requests that write the consent registry, and the one that writes
    the record store and the uploads directory. *)
Definition is_mutator (r : Request) : bool :=
  match r with
  | PostGrant _ _ | PostRevoke _ _ => true
  | _ => false
  end.

Definition is_upload (r : Request) : bool :=
  match r with
  | PostAddRecord _ _ _ => true
  | _ => false
  end.

(** The [action] a handler writes to the audit trail beside the ledger
    event of each [type] (lines 89-90, 104-105, 153-154, 180-181, 210-211). *)
Definition event_action (e : LedgerEvent) : string :=
  match e with
  | CONSENT_GRANTED _ _ _ => "GRANT_CONSENT"
  | CONSENT_REVOKED _ _ _ => "REVOKE_CONSENT"
  | RECORD_ADDED _ _ => "ADD_RECORD"
  | READ_RECORDS _ _ _ => "READ_RECORDS"
  | DOWNLOAD_DECRYPT _ _ _ => "DOWNLOAD_DECRYPT"
  end.

Definition audit_key (a : AuditEntry) : string * string :=
  (a_txId a, a_action a).

Definition ledger_key (l : LedgerEntry) : string * string :=
  (l_tx l, event_action (l_event l)).

(** Lower-case hexadecimal digits. *)
Definition is_hex_digit (c : ascii) : bool :=
  let n := N_of_ascii c in
  (((48 <=? n) && (n <=? 57)) || ((97 <=? n) && (n <=? 102)))%N.

Fixpoint all_hex (s : string) : bool :=
  match s with
  | EmptyString => true
  | String c rest => is_hex_digit c && all_hex rest
  end.

Fixpoint has_dot (s : string) : bool :=
  match s with
  | EmptyString => false
  | String c rest => Ascii.eqb c "."%char || has_dot rest
  end.

(** What an upload leaves in a record. *)
Definition well_formed_record (r : Rec) : Prop :=
  truthy (r_patientId r) = true /\ truthy (r_providerId r) = true
  /\ (exists name, r_filename r = name +:+ ".enc")
  /\ (exists id, length id = 8 /\ r_recordId r = "0x" +:+ to_hex id)
  /\ (exists iv, length iv = IV_LENGTH /\ r_iv r = to_hex iv).

(** The process started again on the disk that state [s] leaves: the
    ledger file and the uploads directory are what they were, everything
    else is initialised anew (lines 15-24 and 60-64). *)
Definition restart (s : State) (entropy : nat -> Byte.byte)
    (clock : nat -> string) : State :=
  boot (Some (LEDGER_FILE s)) (UPLOADS s) entropy clock.

(** The upload of record [r] is in the ledger and in the audit trail. *)
Definition upload_logged (s : State) (r : Rec) : Prop :=
  (exists l tx, In l (ledger_view s)
                /\ l_event l = RECORD_ADDED (r_recordId r) tx)
  /\ (exists a, In a (audit s) /\ a_action a = "ADD_RECORD"
                /\ a_actor a = r_providerId r
                /\ a_target a = JStr (r_recordId r)).

Definition records_accounted (s : State) : Prop :=
  forall r, In r (records s) -> well_formed_record r /\ upload_logged s r.

(** Every entry of the registry names a present patient and provider. *)
Definition consents_named (cs : list Consent) : Prop :=
  Forall (fun c => truthy (c_patientId c) = true
                   /\ truthy (c_providerId c) = true) cs.

(** ** Listings against uploads *)

#[global] Instance jsval_eq_dec : EqDecision jsval.
Proof. solve_decision. Defined.

(** The records the successful uploads among the responses returned, in
    order. *)
Definition uploaded (resps : list Response) : list Rec :=
  flat_map (fun resp => match resp with
                        | RRecord rec _ => [rec]
                        | _ => []
                        end) resps.

(** The records of patient [p] among [rs], in order. *)
Definition records_of (p : jsval) (rs : list Rec) : list Rec :=
  List.filter (fun r => bool_decide (r_patientId r = p)) rs.

(** Entry [v] of a listing shows record [r]: its id, its patient, who
    uploaded it, the name of its blob and its date. *)
Definition shows (v : RecView) (r : Rec) : Prop :=
  v_recordId v = r_recordId r /\ v_patientId v = r_patientId r
  /\ v_providerId v = r_providerId r /\ v_filename v = r_filename r
  /\ v_date v = r_date r.

(** ** Replaying the ledger *)

(** The consent of the pair (p, q) after ledger entry [l], given the
    consent [acc] before it. *)
Definition replay_step (p q : jsval) (acc : bool) (l : LedgerEntry) : bool :=
  match l_event l with
  | CONSENT_GRANTED p' q' _ =>
      if strict_eq p' p && strict_eq q' q then true else acc
  | CONSENT_REVOKED p' q' _ =>
      if strict_eq p' p && strict_eq q' q then false else acc
  | _ => acc
  end.

Definition replay_consent (p q : jsval) (ledger : list LedgerEntry) : bool :=
  fold_left (replay_step p q) ledger false.

(** The ids of the RECORD_ADDED entries, in ledger order. *)
Definition added_ids (ledger : list LedgerEntry) : list string :=
  flat_map (fun l => match l_event l with
                     | RECORD_ADDED id _ => [id]
                     | _ => []
                     end) ledger.

(** The ledger tells the consent of every pair and the ids of the stored
    records. *)
Definition ledger_replays (s : State) : Prop :=
  (forall p q, isActive s p q = replay_consent p q (ledger_view s))
  /\ List.map r_recordId (records s) = added_ids (ledger_view s).

(** ** Who did what

    The [action], [actor] and [target] a successful request writes to the
    audit trail; the target of an upload is the id of the record the
    response carries. *)
Definition audit_action (r : Request) : string :=
  match r with
  | PostGrant _ _ => "GRANT_CONSENT"
  | PostRevoke _ _ => "REVOKE_CONSENT"
  | PostAddRecord _ _ _ => "ADD_RECORD"
  | GetRecords _ _ => "READ_RECORDS"
  | GetDecrypt _ _ => "DOWNLOAD_DECRYPT"
  | _ => ""
  end.

Definition audit_actor (r : Request) : jsval :=
  match r with
  | PostGrant p _ | PostRevoke p _ => p
  | PostAddRecord _ q _ | GetDecrypt _ q => q
  | GetRecords _ q => JStr q
  | _ => JUndefined
  end.

Definition audit_target (r : Request) (resp : Response) : jsval :=
  match r, resp with
  | PostGrant _ q, _ | PostRevoke _ q, _ => q
  | PostAddRecord _ _ _, RRecord rec _ => JStr (r_recordId rec)
  | GetRecords p _, _ => JStr p
  | GetDecrypt id _, _ => JStr id
  | _, _ => JUndefined
  end.

(** * Basic facts *)

Lemma strict_eq_spec a b : strict_eq a b = true <-> a = b.
Proof.
  destruct a, b; simpl; split; intros H; try discriminate; try reflexivity;
    try (inversion H; subst).
  - apply Bool.eqb_prop in H. now subst.
  - apply Bool.eqb_reflx.
  - apply Z.eqb_eq in H. now subst.
  - apply Z.eqb_refl.
  - apply String.eqb_eq in H. now subst.
  - apply String.eqb_refl.
Qed.

Lemma strict_eq_refl a : strict_eq a a = true.
Proof. now apply strict_eq_spec. Qed.

Lemma readLedger_eq s : readLedger s = (ledger_view s, s).
Proof.
  unfold ledger_view, readLedger, bind, get, ret.
  destruct (LEDGER_FILE s); reflexivity.
Qed.

(** * Execution equations

    One equation per handler and outcome: the response and the whole
    resulting state. *)

Ltac run_monad :=
  cbv [bind get ret set_consents set_records set_audit set_ledger_file
       set_uploads nowIso newTxId randomBytes audit_push addToLedger
       readLedger encryptBuffer decryptBuffer unlink_if_exists multer_single
       ledger_view tx_at record_id_at random_at encrypted_at new_record
       listing find_record isActive negb fst snd
       ENC_KEY consents records audit LEDGER_FILE UPLOADS entropy drawn
       clock ticks] in *.

Ltac open_state s :=
  destruct s as [key cs rs au [ledger|] up en dr cl ti].

Lemma ids_missing p q :
  truthy p = false \/ truthy q = false ->
  negb (truthy p) || negb (truthy q) = true.
Proof. intros [H|H]; rewrite H; simpl; auto using orb_true_r. Qed.

Lemma ids_present p q :
  truthy p = true -> truthy q = true ->
  negb (truthy p) || negb (truthy q) = false.
Proof. intros -> ->. reflexivity. Qed.

Lemma consent_grant_missing p q s :
  truthy p = false \/ truthy q = false ->
  consent_grant p q s = (RError 400 "patientId & providerId required", s).
Proof. intros H. unfold consent_grant. now rewrite ids_missing. Qed.

Lemma consent_revoke_missing p q s :
  truthy p = false \/ truthy q = false ->
  consent_revoke p q s = (RError 400 "patientId & providerId required", s).
Proof. intros H. unfold consent_revoke. now rewrite ids_missing. Qed.

Lemma consent_grant_ok p q s :
  truthy p = true -> truthy q = true ->
  consent_grant p q s =
    (RTx (tx_at s (drawn s)) (clock s (S (S (S (ticks s))))),
     after_mutator true "GRANT_CONSENT" CONSENT_GRANTED p q s).
Proof.
  intros Hp Hq. unfold consent_grant, after_mutator.
  rewrite ids_present by assumption.
  open_state s; run_monad; reflexivity.
Qed.

Lemma consent_revoke_ok p q s :
  truthy p = true -> truthy q = true ->
  consent_revoke p q s =
    (RTx (tx_at s (drawn s)) (clock s (S (S (S (ticks s))))),
     after_mutator false "REVOKE_CONSENT" CONSENT_REVOKED p q s).
Proof.
  intros Hp Hq. unfold consent_revoke, after_mutator.
  rewrite ids_present by assumption.
  open_state s; run_monad; reflexivity.
Qed.

Section Equations.

Variable enc : list Byte.byte -> list Byte.byte -> list Byte.byte -> list Byte.byte.
Variable dec :
  list Byte.byte -> list Byte.byte -> list Byte.byte -> option (list Byte.byte).

Lemma add_record_missing p q f s :
  truthy p = false \/ truthy q = false ->
  add_record enc p q f s =
    (RError 400 "patientId & providerId required",
     match f with
     | Some f =>
         mkState (ENC_KEY s) (consents s) (records s) (audit s)
           (LEDGER_FILE s)
           (delete (f_filename f)
              (<[f_filename f := FRaw (f_bytes f)]> (UPLOADS s)))
           (entropy s) (drawn s) (clock s) (ticks s)
     | None => s
     end).
Proof.
  intros H. unfold add_record, add_record_handler.
  rewrite ids_missing by assumption.
  destruct f as [f|]; open_state s; run_monad;
    rewrite ?lookup_insert_eq; reflexivity.
Qed.

Lemma add_record_no_file p q s :
  truthy p = true -> truthy q = true ->
  add_record enc p q None s = (RError 400 "file required", s).
Proof.
  intros Hp Hq. unfold add_record, add_record_handler.
  rewrite ids_present by assumption. reflexivity.
Qed.

Lemma add_record_denied p q f s :
  truthy p = true -> truthy q = true ->
  isActive s p q = false ->
  add_record enc p q (Some f) s =
    (RError 403 "access denied: no active consent",
     mkState (ENC_KEY s) (consents s) (records s) (audit s) (LEDGER_FILE s)
       (delete (f_filename f)
          (<[f_filename f := FRaw (f_bytes f)]> (UPLOADS s)))
       (entropy s) (drawn s) (clock s) (ticks s)).
Proof.
  intros Hp Hq Hc. unfold add_record, add_record_handler.
  rewrite ids_present by assumption.
  open_state s; run_monad; rewrite Hc, lookup_insert_eq; reflexivity.
Qed.

Lemma add_record_ok p q f s :
  truthy p = true -> truthy q = true ->
  isActive s p q = true ->
  add_record enc p q (Some f) s =
    (RRecord (new_record enc p q f s) (tx_at s (drawn s + IV_LENGTH + 8)),
     after_add_record enc p q f s).
Proof.
  intros Hp Hq Hc. unfold add_record, add_record_handler, after_add_record.
  rewrite ids_present by assumption.
  open_state s; run_monad; rewrite Hc, lookup_insert_eq; reflexivity.
Qed.

Lemma get_records_denied p q s :
  isActive s (JStr p) (JStr q) = false ->
  get_records p q s = (RError 403 "no consent", s).
Proof.
  intros Hc. unfold get_records.
  open_state s; run_monad; now rewrite Hc.
Qed.

Lemma get_records_ok p q s :
  isActive s (JStr p) (JStr q) = true ->
  get_records p q s =
    (RRecords (listing p s) (tx_at s (drawn s)), after_read p q s).
Proof.
  intros Hc. unfold get_records, after_read.
  open_state s; run_monad; now rewrite Hc.
Qed.

Lemma get_decrypt_missing id q s :
  truthy q = false ->
  get_decrypt dec id q s =
    (RError 400 "providerId query param required", s).
Proof. intros H. unfold get_decrypt. now rewrite H. Qed.

Lemma get_decrypt_not_found id q s :
  truthy q = true ->
  find_record id s = None ->
  get_decrypt dec id q s = (RError 404 "record not found", s).
Proof.
  intros Hq Hf. unfold get_decrypt. rewrite Hq.
  open_state s; run_monad; now rewrite Hf.
Qed.

Lemma get_decrypt_denied id q s rec :
  truthy q = true ->
  find_record id s = Some rec ->
  isActive s (r_patientId rec) q = false ->
  get_decrypt dec id q s = (RError 403 "access denied: no active consent", s).
Proof.
  intros Hq Hf Hc. unfold get_decrypt. rewrite Hq.
  open_state s; run_monad; now rewrite Hf, Hc.
Qed.

Lemma get_decrypt_storage_missing id q s rec :
  truthy q = true ->
  find_record id s = Some rec ->
  isActive s (r_patientId rec) q = true ->
  UPLOADS s !! r_filename rec = None ->
  get_decrypt dec id q s = (RError 404 "encrypted file missing", s).
Proof.
  intros Hq Hf Hc Hu. unfold get_decrypt. rewrite Hq.
  open_state s; run_monad; now rewrite Hf, Hc, Hu.
Qed.

Lemma get_decrypt_not_json id q s rec bytes :
  truthy q = true ->
  find_record id s = Some rec ->
  isActive s (r_patientId rec) q = true ->
  UPLOADS s !! r_filename rec = Some (FRaw bytes) ->
  get_decrypt dec id q s = (RError 500 "decryption failed", s).
Proof.
  intros Hq Hf Hc Hu. unfold get_decrypt. rewrite Hq.
  open_state s; run_monad; now rewrite Hf, Hc, Hu.
Qed.

Lemma get_decrypt_cipher_error id q s rec e :
  truthy q = true ->
  find_record id s = Some rec ->
  isActive s (r_patientId rec) q = true ->
  UPLOADS s !! r_filename rec = Some (FJson e) ->
  dec (ENC_KEY s) (from_hex (e_iv e)) (from_hex (e_data e)) = None ->
  get_decrypt dec id q s = (RError 500 "decryption failed", s).
Proof.
  intros Hq Hf Hc Hu Hd. unfold get_decrypt. rewrite Hq.
  open_state s; run_monad; now rewrite Hf, Hc, Hu, Hd.
Qed.

Lemma get_decrypt_ok id q s rec e plain :
  truthy q = true ->
  find_record id s = Some rec ->
  isActive s (r_patientId rec) q = true ->
  UPLOADS s !! r_filename rec = Some (FJson e) ->
  dec (ENC_KEY s) (from_hex (e_iv e)) (from_hex (e_data e)) = Some plain ->
  get_decrypt dec id q s =
    (RFile (replace_first ".enc" "" (r_filename rec)) plain,
     after_decrypt id q s).
Proof.
  intros Hq Hf Hc Hu Hd. unfold get_decrypt, after_decrypt. rewrite Hq.
  open_state s; run_monad; now rewrite Hf, Hc, Hu, Hd.
Qed.

(** Every failure of the download route leaves the state as it was. *)
Lemma get_decrypt_cases id q s :
  (is_error (fst (get_decrypt dec id q s)) = true
   /\ snd (get_decrypt dec id q s) = s)
  \/ (exists rec e plain,
        truthy q = true /\ find_record id s = Some rec
        /\ isActive s (r_patientId rec) q = true
        /\ UPLOADS s !! r_filename rec = Some (FJson e)
        /\ dec (ENC_KEY s) (from_hex (e_iv e)) (from_hex (e_data e)) = Some plain
        /\ get_decrypt dec id q s =
             (RFile (replace_first ".enc" "" (r_filename rec)) plain,
              after_decrypt id q s)).
Proof.
  destruct (truthy q) eqn:Hq.
  2:{ left. now rewrite get_decrypt_missing. }
  destruct (find_record id s) as [rec|] eqn:Hf.
  2:{ left. now rewrite get_decrypt_not_found. }
  destruct (isActive s (r_patientId rec) q) eqn:Hc.
  2:{ left. now rewrite (get_decrypt_denied id q s rec). }
  destruct (UPLOADS s !! r_filename rec) as [[bytes|e]|] eqn:Hu.
  - left. now rewrite (get_decrypt_not_json id q s rec bytes).
  - destruct (dec (ENC_KEY s) (from_hex (e_iv e)) (from_hex (e_data e)))
      as [plain|] eqn:Hd.
    + right. exists rec, e, plain. repeat split; try assumption.
      now apply get_decrypt_ok with (e := e).
    + left. now rewrite (get_decrypt_cipher_error id q s rec e).
  - left. now rewrite (get_decrypt_storage_missing id q s rec).
Qed.

Lemma silent_refl s : silent s s.
Proof. repeat split. Qed.

Lemma handle_effect r s : effect enc s (snd (handle enc dec r s)).
Proof.
  destruct r as [| | |p q|p q|p q f|p q|id q| |]; simpl.
  - apply eff_silent. repeat split.
  - apply eff_silent, silent_refl.
  - apply eff_silent, silent_refl.
  - destruct (truthy p) eqn:Hp; [destruct (truthy q) eqn:Hq|].
    + rewrite consent_grant_ok by assumption. now apply eff_grant.
    + rewrite consent_grant_missing by auto. apply eff_silent, silent_refl.
    + rewrite consent_grant_missing by auto. apply eff_silent, silent_refl.
  - destruct (truthy p) eqn:Hp; [destruct (truthy q) eqn:Hq|].
    + rewrite consent_revoke_ok by assumption. now apply eff_revoke.
    + rewrite consent_revoke_missing by auto. apply eff_silent, silent_refl.
    + rewrite consent_revoke_missing by auto. apply eff_silent, silent_refl.
  - destruct (truthy p) eqn:Hp; [destruct (truthy q) eqn:Hq|].
    + destruct f as [f|].
      * destruct (isActive s p q) eqn:Hc.
        -- rewrite add_record_ok by assumption. now apply eff_add.
        -- rewrite add_record_denied by assumption.
           apply eff_silent. repeat split.
      * rewrite add_record_no_file by assumption.
        apply eff_silent, silent_refl.
    + rewrite add_record_missing by auto.
      apply eff_silent. destruct f; repeat split.
    + rewrite add_record_missing by auto.
      apply eff_silent. destruct f; repeat split.
  - destruct (isActive s (JStr p) (JStr q)) eqn:Hc.
    + rewrite get_records_ok by assumption. now apply eff_read.
    + rewrite get_records_denied by assumption.
      apply eff_silent, silent_refl.
  - destruct (get_decrypt_cases id q s)
      as [[_ E]|(rec & e & plain & Hq & Hf & Hc & _ & _ & E)]; rewrite E.
    + apply eff_silent, silent_refl.
    + now apply eff_decrypt with (rec := rec).
  - apply eff_silent, silent_refl.
  - unfold get_ledger, bind. rewrite readLedger_eq.
    apply eff_silent, silent_refl.
Qed.

End Equations.

(** Case analysis of one handler call, each outcome rewritten with its
    equation. *)

Ltac split_grant p q s :=
  let Hp := fresh "Hp" in
  let Hq := fresh "Hq" in
  destruct (truthy p) eqn:Hp; [destruct (truthy q) eqn:Hq|];
  [ rewrite (consent_grant_ok p q s) in * by assumption
  | rewrite (consent_grant_missing p q s) in * by auto
  | rewrite (consent_grant_missing p q s) in * by auto ].

Ltac split_revoke p q s :=
  let Hp := fresh "Hp" in
  let Hq := fresh "Hq" in
  destruct (truthy p) eqn:Hp; [destruct (truthy q) eqn:Hq|];
  [ rewrite (consent_revoke_ok p q s) in * by assumption
  | rewrite (consent_revoke_missing p q s) in * by auto
  | rewrite (consent_revoke_missing p q s) in * by auto ].

Ltac split_add_record enc p q f s :=
  let Hp := fresh "Hp" in
  let Hq := fresh "Hq" in
  let Hc := fresh "Hc" in
  destruct (truthy p) eqn:Hp; [destruct (truthy q) eqn:Hq|];
  [ destruct f as [f|];
    [ destruct (isActive s p q) eqn:Hc;
      [ rewrite (add_record_ok enc p q f s) in * by assumption
      | rewrite (add_record_denied enc p q f s) in * by assumption ]
    | rewrite (add_record_no_file enc p q s) in * by assumption ]
  | rewrite (add_record_missing enc p q f s) in * by auto
  | rewrite (add_record_missing enc p q f s) in * by auto ].

Ltac split_records p q s :=
  let Hc := fresh "Hc" in
  destruct (isActive s (JStr p) (JStr q)) eqn:Hc;
  [ rewrite (get_records_ok p q s) in * by assumption
  | rewrite (get_records_denied p q s) in * by assumption ].

Ltac split_decrypt dec id q s :=
  let E := fresh "E" in
  let r0 := fresh "rec" in
  let e := fresh "e" in
  let plain := fresh "plain" in
  let Hq := fresh "Hq" in
  let Hf := fresh "Hf" in
  let Hc := fresh "Hc" in
  let Hu := fresh "Hu" in
  let Hd := fresh "Hd" in
  let Hs := fresh "Hs" in
  destruct (get_decrypt_cases dec id q s)
    as [[E Hs]|(r0 & e & plain & Hq & Hf & Hc & Hu & Hd & E)];
  [ rewrite ?Hs in * | rewrite E in * ].

(** * The consent registry *)

Lemma other_pair_same p q c : other_pair p q c = negb (same_pair p q c).
Proof. reflexivity. Qed.

Lemma same_pair_eq p q p' q' c :
  same_pair p q c = true -> same_pair p' q' c = true -> p' = p /\ q' = q.
Proof.
  unfold same_pair. intros H H'.
  apply andb_prop in H as [H1 H2]. apply andb_prop in H' as [H1' H2'].
  apply strict_eq_spec in H1, H2, H1', H2'. split; congruence.
Qed.

Lemma hasConsent_app cs cs' p q :
  hasConsent (cs ++ cs') p q = hasConsent cs p q || hasConsent cs' p q.
Proof. apply existsb_app. Qed.

Lemma hasConsent_removed cs p q :
  hasConsent (List.filter (other_pair p q) cs) p q = false.
Proof.
  induction cs as [|c cs IH]; simpl; [reflexivity|].
  unfold other_pair at 1.
  destruct (strict_eq (c_patientId c) p && strict_eq (c_providerId c) q) eqn:E;
    simpl; [exact IH|].
  rewrite IH, E. reflexivity.
Qed.

Lemma hasConsent_kept cs p q p' q' :
  strict_eq p p' && strict_eq q q' = false ->
  hasConsent (List.filter (other_pair p q) cs) p' q' = hasConsent cs p' q'.
Proof.
  intros Hne. induction cs as [|c cs IH]; simpl; [reflexivity|].
  destruct (other_pair p q c) eqn:E; simpl.
  - now rewrite IH.
  - rewrite IH. unfold other_pair in E. apply negb_false_iff in E.
    apply andb_prop in E as [E1 E2]. apply strict_eq_spec in E1, E2.
    rewrite E1, E2, Hne. reflexivity.
Qed.

Lemma hasConsent_single p q g t p' q' :
  hasConsent [mkConsent p q g t] p' q' = strict_eq p p' && strict_eq q q' && g.
Proof.
  unfold hasConsent. simpl. rewrite orb_false_r. now destruct g.
Qed.

(** The consent check after a successful grant or revoke. *)
Lemma isActive_after_mutator g action ev p q s p' q' :
  isActive (after_mutator g action ev p q s) p' q' =
    if strict_eq p p' && strict_eq q q' then g else isActive s p' q'.
Proof.
  unfold isActive, after_mutator. cbn [consents].
  rewrite hasConsent_app, hasConsent_single.
  destruct (strict_eq p p' && strict_eq q q') eqn:E.
  - apply andb_prop in E as [E1 E2]. apply strict_eq_spec in E1, E2. subst.
    now rewrite hasConsent_removed.
  - rewrite hasConsent_kept by assumption. simpl. apply orb_false_r.
Qed.

Section Registry.

Variable enc : list Byte.byte -> list Byte.byte -> list Byte.byte -> list Byte.byte.
Variable dec :
  list Byte.byte -> list Byte.byte -> list Byte.byte -> option (list Byte.byte).

(** Only grant and revoke write the registry. *)
Lemma consents_handle r s :
  consents (snd (handle enc dec r s)) =
    match r with
    | PostGrant p q =>
        if truthy p && truthy q
        then consents (after_mutator true "GRANT_CONSENT" CONSENT_GRANTED p q s)
        else consents s
    | PostRevoke p q =>
        if truthy p && truthy q
        then consents (after_mutator false "REVOKE_CONSENT" CONSENT_REVOKED p q s)
        else consents s
    | _ => consents s
    end.
Proof.
  destruct r as [| | |p q|p q|p q f|p q|id q| |]; simpl.
  - reflexivity.
  - reflexivity.
  - reflexivity.
  - split_grant p q s; reflexivity.
  - split_revoke p q s; reflexivity.
  - split_add_record enc p q f s; try reflexivity; destruct f; reflexivity.
  - split_records p q s; reflexivity.
  - split_decrypt dec id q s; reflexivity.
  - reflexivity.
  - unfold get_ledger, bind. now rewrite readLedger_eq.
Qed.

Lemma isActive_handle_other r s p q :
  targets p q r = false ->
  isActive (snd (handle enc dec r s)) p q = isActive s p q.
Proof.
  intros Ht. unfold isActive at 1. rewrite consents_handle.
  destruct r as [| | |p' q'|p' q'| | | | |]; try reflexivity; simpl in Ht.
  - destruct (truthy p' && truthy q'); [|reflexivity].
    fold (isActive (after_mutator true "GRANT_CONSENT" CONSENT_GRANTED p' q' s) p q).
    now rewrite isActive_after_mutator, Ht.
  - destruct (truthy p' && truthy q'); [|reflexivity].
    fold (isActive (after_mutator false "REVOKE_CONSENT" CONSENT_REVOKED p' q' s) p q).
    now rewrite isActive_after_mutator, Ht.
Qed.

Lemma isActive_run_other rs s p q :
  forallb (fun r => negb (targets p q r)) rs = true ->
  isActive (run enc dec rs s) p q = isActive s p q.
Proof.
  revert s. induction rs as [|r rs IH]; intros s H; simpl in *; [reflexivity|].
  apply andb_prop in H as [Hr Hrs]. apply negb_true_iff in Hr.
  rewrite IH by assumption. now apply isActive_handle_other.
Qed.

Lemma run_app rs rs' s :
  run enc dec (rs ++ rs') s = run enc dec rs' (run enc dec rs s).
Proof.
  revert s. induction rs as [|r rs IH]; intros s; simpl; [reflexivity|].
  apply IH.
Qed.

Lemma isActive_grant p q s :
  truthy p = true -> truthy q = true ->
  isActive (snd (consent_grant p q s)) p q = true.
Proof.
  intros Hp Hq. rewrite consent_grant_ok by assumption. simpl.
  now rewrite isActive_after_mutator, !strict_eq_refl.
Qed.

Lemma isActive_revoke p q s :
  truthy p = true -> truthy q = true ->
  isActive (snd (consent_revoke p q s)) p q = false.
Proof.
  intros Hp Hq. rewrite consent_revoke_ok by assumption. simpl.
  now rewrite isActive_after_mutator, !strict_eq_refl.
Qed.

(** C1. For present identifiers [p] and [q]: the consent check is true after
    [grantConsent(p, q)] and false after a following [revokeConsent(p, q)];
    after any sequence of requests it is the boolean of the most recent
    grant or revoke call on the pair, whatever came before and whatever
    other requests came after; and from the start of the process it is
    false as long as no grant or revoke names the pair. *)
Theorem C1_consent_reflects_last_call (p q : jsval) :
  truthy p = true -> truthy q = true ->
  (forall s, isActive (snd (consent_grant p q s)) p q = true)
  /\ (forall s,
        isActive (snd (consent_revoke p q (snd (consent_grant p q s)))) p q
        = false)
  /\ (forall s before after,
        forallb (fun r => negb (targets p q r)) after = true ->
        isActive (run enc dec (before ++ PostGrant p q :: after) s) p q = true
        /\ isActive (run enc dec (before ++ PostRevoke p q :: after) s) p q
           = false)
  /\ (forall disk up entropy clock rs,
        forallb (fun r => negb (targets p q r)) rs = true ->
        isActive (run enc dec rs (boot disk up entropy clock)) p q = false).
Proof.
  intros Hp Hq. repeat split.
  - intros s. now apply isActive_grant.
  - intros s. now apply isActive_revoke.
  - rewrite run_app. simpl. rewrite isActive_run_other by assumption.
    now apply isActive_grant.
  - rewrite run_app. simpl. rewrite isActive_run_other by assumption.
    now apply isActive_revoke.
  - intros disk up entropy clock rs H.
    now rewrite isActive_run_other by assumption.
Qed.

End Registry.

Lemma entries_for_removed cs p q :
  entries_for p q (List.filter (other_pair p q) cs) = [].
Proof.
  unfold entries_for. induction cs as [|c cs IH]; simpl; [reflexivity|].
  rewrite other_pair_same. destruct (same_pair p q c) eqn:E; simpl.
  - exact IH.
  - now rewrite E.
Qed.

Lemma entries_for_kept cs p q p' q' :
  strict_eq p p' && strict_eq q q' = false ->
  entries_for p' q' (List.filter (other_pair p q) cs) = entries_for p' q' cs.
Proof.
  intros Hne. unfold entries_for.
  induction cs as [|c cs IH]; simpl; [reflexivity|].
  rewrite other_pair_same. destruct (same_pair p q c) eqn:E; simpl.
  - destruct (same_pair p' q' c) eqn:E'; [|exact IH].
    destruct (same_pair_eq _ _ _ _ _ E E') as [-> ->].
    now rewrite !strict_eq_refl in Hne.
  - now rewrite IH.
Qed.

Lemma entries_for_after_mutator g action ev p q s p' q' :
  entries_for p' q' (consents (after_mutator g action ev p q s)) =
    if strict_eq p p' && strict_eq q q'
    then [mkConsent p q g (clock s (ticks s))]
    else entries_for p' q' (consents s).
Proof.
  unfold after_mutator. cbn [consents].
  unfold entries_for at 1. rewrite List.filter_app.
  fold (entries_for p' q' (List.filter (other_pair p q) (consents s))).
  cbn [List.filter]. unfold same_pair at 1. cbn [c_patientId c_providerId].
  destruct (strict_eq p p' && strict_eq q q') eqn:E.
  - apply andb_prop in E as [E1 E2]. apply strict_eq_spec in E1, E2. subst.
    now rewrite entries_for_removed.
  - rewrite entries_for_kept by assumption. apply app_nil_r.
Qed.

(** ** Missing identifiers *)

(** C9. [grantConsent] and [revokeConsent] called with a missing or empty
    [patientId] or [providerId] (one the guard [!id] rejects: undefined,
    null, the empty string) answer 400 and leave the whole state as it was,
    so no consent entry, audit entry or ledger entry is written.  With both
    identifiers present they succeed: they answer a transaction id and a
    timestamp, whether or not the identifiers occur in [patients] and
    [providers]. *)
Theorem C9_mutators_validate_ids (p q : jsval) (s : State) :
  (truthy p = false \/ truthy q = false ->
     InvalidArgument (fst (consent_grant p q s))
     /\ snd (consent_grant p q s) = s
     /\ InvalidArgument (fst (consent_revoke p q s))
     /\ snd (consent_revoke p q s) = s)
  /\ (truthy p = true -> truthy q = true ->
      (exists tx t, fst (consent_grant p q s) = RTx tx t)
      /\ (exists tx t, fst (consent_revoke p q s) = RTx tx t)).
Proof.
  split.
  - intros H. rewrite consent_grant_missing, consent_revoke_missing by assumption.
    simpl. repeat split; eexists; reflexivity.
  - intros Hp Hq. rewrite consent_grant_ok, consent_revoke_ok by assumption.
    simpl. split; do 2 eexists; reflexivity.
Qed.

Section Invariant.

Variable enc : list Byte.byte -> list Byte.byte -> list Byte.byte -> list Byte.byte.
Variable dec :
  list Byte.byte -> list Byte.byte -> list Byte.byte -> option (list Byte.byte).

(** ** At most one entry per pair *)

Lemma at_most_one_effect s s' :
  effect enc s s' -> at_most_one (consents s) -> at_most_one (consents s').
Proof.
  intros [s1 Hs|p q Hp Hq|p q Hp Hq|p q f Hp Hq Hc|p q Hc|id q rec Hq Hf Hc] H;
    try exact H.
  - destruct Hs as (_ & -> & _). exact H.
  - intros p' q'. rewrite entries_for_after_mutator.
    destruct (strict_eq p p' && strict_eq q q'); [simpl; lia|apply H].
  - intros p' q'. rewrite entries_for_after_mutator.
    destruct (strict_eq p p' && strict_eq q q'); [simpl; lia|apply H].
Qed.

Lemma at_most_one_run rs s :
  at_most_one (consents s) -> at_most_one (consents (run enc dec rs s)).
Proof.
  revert s. induction rs as [|r rs IH]; intros s H; simpl; [exact H|].
  apply IH. eapply at_most_one_effect; [apply handle_effect|exact H].
Qed.

(** C10. From the start of the process, after any sequence of requests the
    live registry holds at most one entry per (patientId, providerId) pair;
    and in any state a successful grant or revoke leaves exactly the entry
    it wrote for the pair, every earlier entry for the pair being removed,
    while the ledger keeps what it held and gains the event. *)
Theorem C10_one_entry_per_pair :
  (forall disk up entropy clock rs p q,
     length (entries_for p q
               (consents (run enc dec rs (boot disk up entropy clock)))) <= 1)
  /\ (forall s p q,
        truthy p = true -> truthy q = true ->
        entries_for p q (consents (snd (consent_grant p q s)))
          = [mkConsent p q true (clock s (ticks s))]
        /\ entries_for p q (consents (snd (consent_revoke p q s)))
          = [mkConsent p q false (clock s (ticks s))]
        /\ (exists tx t,
              ledger_view (snd (consent_grant p q s))
              = ledger_view s ++ [mkLedger (CONSENT_GRANTED p q tx) t])
        /\ (exists tx t,
              ledger_view (snd (consent_revoke p q s))
              = ledger_view s ++ [mkLedger (CONSENT_REVOKED p q tx) t])).
Proof.
  split.
  - intros disk up entropy clock rs. apply at_most_one_run.
    intros p q. simpl. lia.
  - intros s p q Hp Hq.
    rewrite consent_grant_ok, consent_revoke_ok by assumption. cbn [snd].
    rewrite !entries_for_after_mutator, !strict_eq_refl.
    repeat split; do 2 eexists; reflexivity.
Qed.

End Invariant.

(** * The ledger and the audit trail *)

Lemma ledger_view_eq s :
  ledger_view s = match LEDGER_FILE s with Some l => l | None => [] end.
Proof.
  unfold ledger_view, readLedger, bind, get, ret.
  destruct (LEDGER_FILE s); reflexivity.
Qed.

Lemma ledger_view_silent s s' : silent s s' -> ledger_view s' = ledger_view s.
Proof.
  intros (_ & _ & _ & _ & H & _). now rewrite !ledger_view_eq, H.
Qed.

Section Logs.

Variable enc : list Byte.byte -> list Byte.byte -> list Byte.byte -> list Byte.byte.
Variable dec :
  list Byte.byte -> list Byte.byte -> list Byte.byte -> option (list Byte.byte).

(** A request appends at most one entry to the ledger and touches nothing
    before it. *)
Lemma ledger_effect s s' :
  effect enc s s' ->
  exists added, ledger_view s' = ledger_view s ++ added /\ length added <= 1.
Proof.
  intros [s1 Hs|p q Hp Hq|p q Hp Hq|p q f Hp Hq Hc|p q Hc|id q rec Hq Hf Hc].
  - exists []. rewrite app_nil_r. split; [now apply ledger_view_silent|simpl; lia].
  - eexists [_]. split; [reflexivity|simpl; lia].
  - eexists [_]. split; [reflexivity|simpl; lia].
  - eexists [_]. split; [reflexivity|simpl; lia].
  - eexists [_]. split; [reflexivity|simpl; lia].
  - eexists [_]. split; [reflexivity|simpl; lia].
Qed.

Lemma ledger_run rs s :
  exists added, ledger_view (run enc dec rs s) = ledger_view s ++ added.
Proof.
  revert s. induction rs as [|r rs IH]; intros s; simpl.
  - exists []. now rewrite app_nil_r.
  - destruct (IH (snd (handle enc dec r s))) as [l2 E2].
    destruct (ledger_effect _ _ (handle_effect enc dec r s)) as [l1 [E1 _]].
    exists (l1 ++ l2). now rewrite E2, E1, app_assoc.
Qed.

(** C8. The ledger is append-only.  Whatever requests are served, what
    [readLedger] returned before is a prefix of what it returns after: the
    number of entries never decreases, every entry stays readable at its
    position, unchanged, and new entries appear only at the end.  The route
    [GET /api/ledger] answers exactly that list, which is read from the
    ledger file alone. *)
Theorem C8_ledger_append_only (rs : list Request) (s : State) :
  (exists added, ledger_view (run enc dec rs s) = ledger_view s ++ added)
  /\ length (ledger_view s) <= length (ledger_view (run enc dec rs s))
  /\ (forall i e, nth_error (ledger_view s) i = Some e ->
                  nth_error (ledger_view (run enc dec rs s)) i = Some e)
  /\ fst (get_ledger (run enc dec rs s))
       = RLedger (ledger_view (run enc dec rs s))
  /\ ledger_view (run enc dec rs s)
       = match LEDGER_FILE (run enc dec rs s) with
         | Some l => l
         | None => []
         end.
Proof.
  destruct (ledger_run rs s) as [added E]. repeat split.
  - now exists added.
  - rewrite E, length_app. lia.
  - intros i e H. rewrite E, nth_error_app1; [exact H|].
    apply nth_error_Some. congruence.
  - unfold get_ledger, bind. now rewrite readLedger_eq.
  - apply ledger_view_eq.
Qed.

Lemma logged_mutator g action ev p q s :
  (forall p q tx, event_tx (ev p q tx) = tx) ->
  logged_once s (after_mutator g action ev p q s) (tx_at s (drawn s))
  /\ fresh_tx s (after_mutator g action ev p q s) (tx_at s (drawn s)).
Proof.
  intros Hev. split.
  - do 2 eexists. repeat split. unfold l_tx. simpl. apply Hev.
  - exists (drawn s). simpl. repeat split; lia.
Qed.

(** C4. Every successful grant, revoke, upload, listing or download appends
    exactly one entry to the audit trail and exactly one entry to the
    ledger; both carry the same transaction id, which was made by
    [newTxId] during the call and is the one the response carries when it
    carries one.  The entries are in place in the state the call returns
    with. *)
Theorem C4_one_audit_one_ledger (r : Request) (s : State) :
  privileged r = true ->
  is_error (fst (handle enc dec r s)) = false ->
  exists tx,
    logged_once s (snd (handle enc dec r s)) tx
    /\ fresh_tx s (snd (handle enc dec r s)) tx
    /\ (forall tx', response_tx (fst (handle enc dec r s)) = Some tx' ->
                    tx' = tx).
Proof.
  intros Hpriv Hok.
  destruct r as [| | |p q|p q|p q f|p q|id q| |]; try discriminate Hpriv;
    simpl in *.
  - destruct (truthy p) eqn:Hp; [destruct (truthy q) eqn:Hq|];
      try (rewrite consent_grant_missing in Hok by auto; discriminate Hok).
    rewrite consent_grant_ok by assumption. simpl.
    exists (tx_at s (drawn s)).
    destruct (logged_mutator true "GRANT_CONSENT" CONSENT_GRANTED p q s)
      as [H1 H2]; [reflexivity|].
    repeat split; try assumption. congruence.
  - destruct (truthy p) eqn:Hp; [destruct (truthy q) eqn:Hq|];
      try (rewrite consent_revoke_missing in Hok by auto; discriminate Hok).
    rewrite consent_revoke_ok by assumption. simpl.
    exists (tx_at s (drawn s)).
    destruct (logged_mutator false "REVOKE_CONSENT" CONSENT_REVOKED p q s)
      as [H1 H2]; [reflexivity|].
    repeat split; try assumption. congruence.
  - destruct (truthy p) eqn:Hp; [destruct (truthy q) eqn:Hq|];
      try (rewrite add_record_missing in Hok by auto; discriminate Hok).
    destruct f as [f|];
      [|rewrite add_record_no_file in Hok by assumption; discriminate Hok].
    destruct (isActive s p q) eqn:Hc;
      [|rewrite add_record_denied in Hok by assumption; discriminate Hok].
    rewrite add_record_ok by assumption. simpl.
    exists (tx_at s (drawn s + IV_LENGTH + 8)). repeat split.
    + do 2 eexists. repeat split.
    + exists (drawn s + IV_LENGTH + 8). simpl. repeat split; lia.
    + congruence.
  - destruct (isActive s (JStr p) (JStr q)) eqn:Hc;
      [|rewrite get_records_denied in Hok by assumption; discriminate Hok].
    rewrite get_records_ok by assumption. simpl.
    exists (tx_at s (drawn s)). repeat split.
    + do 2 eexists. repeat split.
    + exists (drawn s). simpl. repeat split; lia.
    + congruence.
  - destruct (get_decrypt_cases dec id q s)
      as [[E _]|(rec & e & plain & Hq & Hf & Hc & _ & _ & E)];
      [congruence|].
    rewrite E. simpl.
    exists (tx_at s (drawn s)). repeat split.
    + do 2 eexists. repeat split.
    + exists (drawn s). simpl. repeat split; lia.
    + discriminate.
Qed.

End Logs.

(** * Hexadecimal round trip *)

Lemma from_hex_cons b rest :
  from_hex (String (hex_digit (Byte.to_N b / 16))
              (String (hex_digit (Byte.to_N b mod 16)) rest))
  = b :: from_hex rest.
Proof. destruct b; reflexivity. Qed.

Lemma from_hex_to_hex bs : from_hex (to_hex bs) = bs.
Proof.
  induction bs as [|b bs IH]; [reflexivity|].
  cbn [to_hex]. cbv zeta. rewrite from_hex_cons. now rewrite IH.
Qed.

Lemma to_hex_inj bs bs' : to_hex bs = to_hex bs' -> bs = bs'.
Proof.
  intros H. apply (f_equal from_hex) in H. now rewrite !from_hex_to_hex in H.
Qed.

Lemma record_id_at_inj s pos s' pos' :
  record_id_at s pos = record_id_at s' pos' ->
  random_at s pos 8 = random_at s' pos' 8.
Proof.
  unfold record_id_at.
  generalize (random_at s pos 8), (random_at s' pos' 8). intros a b H.
  apply to_hex_inj. simpl in H. now injection H.
Qed.

Lemma random_at_length s pos n : length (random_at s pos n) = n.
Proof. unfold random_at. now rewrite length_map, length_seq. Qed.

Lemma append_length a b :
  String.length (a +:+ b) = String.length a + String.length b.
Proof. induction a as [|c a IH]; simpl; [reflexivity|now rewrite IH]. Qed.

Lemma enc_name_fresh name : name +:+ ".enc" <> name.
Proof.
  intros H. apply (f_equal String.length) in H.
  rewrite append_length in H. simpl in H. lia.
Qed.

(** * Records *)

Lemma find_record_app id s more rec :
  find_record id s = Some rec ->
  List.find (fun r => String.eqb (r_recordId r) id) (records s ++ more)
  = Some rec.
Proof.
  unfold find_record. induction (records s) as [|r rs IH]; simpl;
    [discriminate|].
  destruct (String.eqb (r_recordId r) id); [trivial|exact IH].
Qed.

Lemma find_record_new id rs rec :
  List.find (fun r => String.eqb (r_recordId r) id) rs = None ->
  r_recordId rec = id ->
  List.find (fun r => String.eqb (r_recordId r) id) (rs ++ [rec]) = Some rec.
Proof.
  intros Hnone Hid. induction rs as [|r rs IH]; simpl in *.
  - now rewrite Hid, String.eqb_refl.
  - destruct (String.eqb (r_recordId r) id); [discriminate|now apply IH].
Qed.

Section RecordStore.

Variable enc : list Byte.byte -> list Byte.byte -> list Byte.byte -> list Byte.byte.
Variable dec :
  list Byte.byte -> list Byte.byte -> list Byte.byte -> option (list Byte.byte).

(** Metadata is only ever appended. *)
Lemma records_effect s s' :
  effect enc s s' -> exists more, records s' = records s ++ more.
Proof.
  intros [s1 Hs|p q Hp Hq|p q Hp Hq|p q f Hp Hq Hc|p q Hc|id q rec Hq Hf Hc];
    try (exists []; now rewrite app_nil_r).
  - exists []. rewrite app_nil_r. apply Hs.
  - eexists [_]. reflexivity.
Qed.

Lemma records_run rs s :
  exists more, records (run enc dec rs s) = records s ++ more.
Proof.
  revert s. induction rs as [|r rs IH]; intros s; simpl.
  - exists []. now rewrite app_nil_r.
  - destruct (IH (snd (handle enc dec r s))) as [m2 E2].
    destruct (records_effect _ _ (handle_effect enc dec r s)) as [m1 E1].
    exists (m1 ++ m2). now rewrite E2, E1, app_assoc.
Qed.

Lemma find_record_run rs s id rec :
  find_record id s = Some rec ->
  find_record id (run enc dec rs s) = Some rec.
Proof.
  intros H. destruct (records_run rs s) as [more E].
  unfold find_record at 1. rewrite E. now apply find_record_app.
Qed.

Lemma find_record_added p q f s :
  find_record (r_recordId (new_record enc p q f s)) s = None ->
  find_record (r_recordId (new_record enc p q f s))
              (after_add_record enc p q f s)
  = Some (new_record enc p q f s).
Proof.
  intros H. unfold find_record, after_add_record. cbn [records].
  now apply find_record_new.
Qed.

(** ** Failures of the download route *)

(** C5. [decryptRecord] answers InvalidArgument when [providerId] is
    missing; otherwise NotFound when no record bears the id; otherwise
    AccessDenied when the record's patient has no active consent for the
    requesting provider; otherwise StorageMissing when the blob is absent
    from the uploads directory; otherwise DecryptionFailed when the blob
    cannot be parsed or the cipher errors.  Each condition is only examined
    when the ones before it passed.  Whenever the answer is an error the
    state is exactly what it was: no audit entry and no ledger entry is
    appended. *)
Theorem C5_decrypt_failures (id : string) (q : jsval) (s : State) :
  let resp := fst (get_decrypt dec id q s) in
  let s' := snd (get_decrypt dec id q s) in
  (truthy q = false -> InvalidArgument resp)
  /\ (truthy q = true -> find_record id s = None -> NotFound resp)
  /\ (forall rec,
        truthy q = true -> find_record id s = Some rec ->
        (isActive s (r_patientId rec) q = false -> AccessDenied resp)
        /\ (isActive s (r_patientId rec) q = true ->
            UPLOADS s !! r_filename rec = None -> StorageMissing resp)
        /\ (isActive s (r_patientId rec) q = true ->
            forall bytes,
              UPLOADS s !! r_filename rec = Some (FRaw bytes) ->
              DecryptionFailed resp)
        /\ (isActive s (r_patientId rec) q = true ->
            forall e,
              UPLOADS s !! r_filename rec = Some (FJson e) ->
              dec (ENC_KEY s) (from_hex (e_iv e)) (from_hex (e_data e)) = None ->
              DecryptionFailed resp))
  /\ (is_error resp = true ->
      s' = s /\ audit s' = audit s /\ ledger_view s' = ledger_view s).
Proof.
  cbv zeta. split; [|split; [|split]].
  - intros Hq. rewrite get_decrypt_missing by assumption.
    eexists; reflexivity.
  - intros Hq Hf. now rewrite get_decrypt_not_found.
  - intros rec Hq Hf. repeat split.
    + intros Hc. rewrite (get_decrypt_denied dec id q s rec) by assumption.
      eexists; reflexivity.
    + intros Hc Hu. now rewrite (get_decrypt_storage_missing dec id q s rec).
    + intros Hc bytes Hu.
      now rewrite (get_decrypt_not_json dec id q s rec bytes).
    + intros Hc e Hu Hd.
      now rewrite (get_decrypt_cipher_error dec id q s rec e).
  - intros Herr. split_decrypt dec id q s.
    + repeat split.
    + discriminate Herr.
Qed.

(** ** Uploads *)

Lemma add_record_success_inv p q f s rec tx :
  fst (add_record enc p q (Some f) s) = RRecord rec tx ->
  rec = new_record enc p q f s.
Proof.
  intros H.
  destruct (truthy p) eqn:Hp; [destruct (truthy q) eqn:Hq|];
    try (rewrite add_record_missing in H by auto; discriminate H).
  destruct (isActive s p q) eqn:Hc.
  - rewrite add_record_ok in H by assumption. now injection H as <- _.
  - rewrite add_record_denied in H by assumption. discriminate H.
Qed.

(** C6, as the code has it.  [addRecord] first answers InvalidArgument when
    an identifier or the file is missing.  Otherwise it answers
    AccessDenied when the pair has no active grant, and succeeds, appending
    the metadata it returns, when the pair has one.  No failure touches
    the metadata, the audit trail or the ledger.  The record id is "0x"
    followed by the hex of eight random bytes, so two successful calls
    return distinct ids exactly when their random bytes differ. *)
Theorem C6_add_record_gate
    (p q : jsval) (file : option UploadedFile) (s : State) :
  let resp := fst (add_record enc p q file s) in
  let s' := snd (add_record enc p q file s) in
  (truthy p = false \/ truthy q = false \/ file = None ->
     InvalidArgument resp)
  /\ (truthy p = true -> truthy q = true -> file <> None ->
      isActive s p q = false -> AccessDenied resp)
  /\ (is_error resp = true ->
      records s' = records s /\ audit s' = audit s
      /\ ledger_view s' = ledger_view s)
  /\ (truthy p = true -> truthy q = true -> file <> None ->
      isActive s p q = true ->
      exists rec tx,
        resp = RRecord rec tx /\ records s' = records s ++ [rec]
        /\ r_recordId rec = record_id_at s (drawn s + IV_LENGTH)
        /\ forall p2 q2 f2 s2 rec2 tx2,
             fst (add_record enc p2 q2 (Some f2) s2) = RRecord rec2 tx2 ->
             (r_recordId rec <> r_recordId rec2 <->
              random_at s (drawn s + IV_LENGTH) 8
              <> random_at s2 (drawn s2 + IV_LENGTH) 8)).
Proof.
  cbv zeta. split; [|split; [|split]].
  - intros [H|[H|H]].
    + rewrite add_record_missing by auto. eexists; reflexivity.
    + rewrite add_record_missing by auto. eexists; reflexivity.
    + subst file.
      destruct (truthy p) eqn:Hp; [destruct (truthy q) eqn:Hq|].
      * rewrite add_record_no_file by assumption. eexists; reflexivity.
      * rewrite add_record_missing by auto. eexists; reflexivity.
      * rewrite add_record_missing by auto. eexists; reflexivity.
  - intros Hp Hq Hf Hc. destruct file as [f|]; [|contradiction].
    rewrite add_record_denied by assumption. eexists; reflexivity.
  - intros Herr.
    split_add_record enc p q file s; cbn [fst snd] in *;
      try discriminate Herr;
      try (destruct file; cbn [records audit]; rewrite !ledger_view_eq;
           repeat split; reflexivity);
      repeat split; try reflexivity; now rewrite !ledger_view_eq.
  - intros Hp Hq Hf Hc. destruct file as [f|]; [|contradiction].
    rewrite add_record_ok by assumption. cbn [fst snd].
    exists (new_record enc p q f s), (tx_at s (drawn s + IV_LENGTH + 8)).
    split; [reflexivity|]. split; [reflexivity|]. split; [reflexivity|].
    intros p2 q2 f2 s2 rec2 tx2 H2.
    apply add_record_success_inv in H2 as ->.
    cbn [new_record r_recordId]. split.
    + intros Hne Heq. apply Hne. unfold record_id_at. now rewrite Heq.
    + intros Hne Heq. apply Hne. now apply record_id_at_inj.
Qed.

(** ** Revocation after upload *)

(** A download for which the consent check passes is not answered
    AccessDenied, whatever becomes of the blob. *)
Lemma get_decrypt_allowed id q s rec :
  truthy q = true -> find_record id s = Some rec ->
  isActive s (r_patientId rec) q = true ->
  ~ AccessDenied (fst (get_decrypt dec id q s)).
Proof.
  intros Hq Hf Hc [msg H].
  destruct (UPLOADS s !! r_filename rec) as [[bytes|e]|] eqn:Hu.
  - rewrite (get_decrypt_not_json dec id q s rec bytes) in H by assumption.
    discriminate H.
  - destruct (dec (ENC_KEY s) (from_hex (e_iv e)) (from_hex (e_data e)))
      as [plain|] eqn:Hd.
    + rewrite (get_decrypt_ok dec id q s rec e plain) in H by assumption.
      discriminate H.
    + rewrite (get_decrypt_cipher_error dec id q s rec e) in H by assumption.
      discriminate H.
  - rewrite (get_decrypt_storage_missing dec id q s rec) in H by assumption.
    discriminate H.
Qed.

Lemma shows_view r : shows (view r) r.
Proof. repeat split. Qed.

(** C2, as the code has it.  A record is uploaded for patient [p] by
    provider [q] under an active grant.  After any further requests, a
    revocation of the pair, and any requests that do not name the pair: the
    consent check for the pair is false; the record the upload returned is
    still stored; and a listing of [p]'s records for any provider whose
    consent is active succeeds and has an entry showing that record's id,
    patient, uploader, file name and date.  [decryptRecord] by [q] with the
    record's id answers AccessDenied when no record stored before the upload
    bears that id.  When one does, the download resolves the id to the
    earliest such record: it answers AccessDenied exactly when that
    record's patient has no active consent for [q].  A revocation, in
    whatever state, leaves the metadata and the uploads directory as they
    were. *)
Theorem C2_revocation_gates_reads
    (p : string) (q : jsval) (f : UploadedFile) (s : State)
    (mid after : list Request) :
  truthy (JStr p) = true -> truthy q = true ->
  isActive s (JStr p) q = true ->
  forallb (fun r => negb (targets (JStr p) q r)) after = true ->
  let up := add_record enc (JStr p) q (Some f) s in
  let s2 := run enc dec (mid ++ PostRevoke (JStr p) q :: after) (snd up) in
  exists rec tx,
    fst up = RRecord rec tx
    /\ r_patientId rec = JStr p /\ r_providerId rec = q
    /\ isActive s2 (JStr p) q = false
    /\ In rec (records s2)
    /\ (forall q2,
          isActive s2 (JStr p) (JStr q2) = true ->
          exists recs tx2,
            fst (get_records p q2 s2) = RRecords recs tx2
            /\ exists v, In v recs /\ shows v rec)
    /\ (find_record (r_recordId rec) s = None ->
        AccessDenied (fst (get_decrypt dec (r_recordId rec) q s2)))
    /\ (forall rec0,
          find_record (r_recordId rec) s = Some rec0 ->
          find_record (r_recordId rec) s2 = Some rec0
          /\ (isActive s2 (r_patientId rec0) q = false <->
              AccessDenied (fst (get_decrypt dec (r_recordId rec) q s2))))
    /\ (forall s',
          records (snd (consent_revoke (JStr p) q s')) = records s'
          /\ UPLOADS (snd (consent_revoke (JStr p) q s')) = UPLOADS s').
Proof.
  intros Hp Hq Hc Hafter. cbv zeta.
  rewrite add_record_ok by assumption. cbn [fst snd].
  set (rec := new_record enc (JStr p) q f s).
  set (s1 := after_add_record enc (JStr p) q f s).
  set (s2 := run enc dec (mid ++ PostRevoke (JStr p) q :: after) s1).
  assert (Hin : In rec (records s2)).
  { destruct (records_run (mid ++ PostRevoke (JStr p) q :: after) s1)
      as [more E].
    fold s2 in E. rewrite E. unfold s1. cbn [after_add_record records].
    apply in_or_app. left. apply in_or_app. right. now left. }
  assert (Hoff : isActive s2 (JStr p) q = false).
  { unfold s2. rewrite run_app. cbn [run handle].
    rewrite isActive_run_other by assumption. now apply isActive_revoke. }
  exists rec, (tx_at s (drawn s + IV_LENGTH + 8)).
  split; [reflexivity|]. split; [reflexivity|]. split; [reflexivity|].
  split; [exact Hoff|]. split; [exact Hin|].
  split.
  { intros q2 Hc2. rewrite get_records_ok by assumption. cbn [fst].
    do 2 eexists. split; [reflexivity|].
    exists (view rec). split; [|apply shows_view].
    unfold listing. apply in_map, filter_In. split; [exact Hin|].
    apply strict_eq_refl. }
  split.
  { intros Hfresh.
    assert (Hfind : find_record (r_recordId rec) s2 = Some rec).
    { apply find_record_run. now apply find_record_added. }
    rewrite (get_decrypt_denied dec _ q s2 rec) by assumption.
    eexists; reflexivity. }
  split.
  { intros rec0 Hold.
    assert (Hfind : find_record (r_recordId rec) s2 = Some rec0).
    { apply find_record_run. unfold find_record, s1.
      cbn [after_add_record records]. now apply find_record_app. }
    split; [exact Hfind|]. split.
    - intros Hc0.
      rewrite (get_decrypt_denied dec _ q s2 rec0) by assumption.
      eexists; reflexivity.
    - intros Hden.
      destruct (isActive s2 (r_patientId rec0) q) eqn:Hc0; [|reflexivity].
      exfalso. exact (get_decrypt_allowed _ q s2 rec0 Hq Hfind Hc0 Hden). }
  intros s'. rewrite consent_revoke_ok by assumption. split; reflexivity.
Qed.

End RecordStore.

(** * The process key *)

Lemma boot_key_length disk up entropy clock :
  length (ENC_KEY (boot disk up entropy clock)) = 32.
Proof. unfold boot. cbn [ENC_KEY]. now rewrite length_map, length_seq. Qed.

Section Key.

Variable enc : list Byte.byte -> list Byte.byte -> list Byte.byte -> list Byte.byte.
Variable dec :
  list Byte.byte -> list Byte.byte -> list Byte.byte -> option (list Byte.byte).

Lemma ENC_KEY_effect s s' : effect enc s s' -> ENC_KEY s' = ENC_KEY s.
Proof.
  intros [s1 Hs|p q Hp Hq|p q Hp Hq|p q f Hp Hq Hc|p q Hc|id q rec Hq Hf Hc];
    try reflexivity.
  apply Hs.
Qed.

(** No request changes the key. *)
Lemma ENC_KEY_run rs s : ENC_KEY (run enc dec rs s) = ENC_KEY s.
Proof.
  revert s. induction rs as [|r rs IH]; intros s; simpl; [reflexivity|].
  rewrite IH. apply ENC_KEY_effect, handle_effect.
Qed.

(** Throughout the life of a process the key has 32 bytes. *)
Lemma process_key_length disk up entropy clock rs :
  length (ENC_KEY (run enc dec rs (boot disk up entropy clock))) = 32.
Proof. rewrite ENC_KEY_run. apply boot_key_length. Qed.

End Key.

(** * The cipher round trip *)

Section Cipher.

Variable enc : list Byte.byte -> list Byte.byte -> list Byte.byte -> list Byte.byte.
Variable dec :
  list Byte.byte -> list Byte.byte -> list Byte.byte -> option (list Byte.byte).

(** What the development asks of [aes-256-cbc]: under a 256-bit key and a
    16-byte initialization vector, deciphering undoes enciphering. *)
Hypothesis cbc_roundtrip :
  forall key iv x,
    length key = 32 -> length iv = IV_LENGTH ->
    dec key iv (enc key iv x) = Some x.

Lemma encryptBuffer_eq x s :
  encryptBuffer enc x s =
    (encrypted_at enc s x,
     mkState (ENC_KEY s) (consents s) (records s) (audit s) (LEDGER_FILE s)
             (UPLOADS s) (entropy s) (drawn s + IV_LENGTH) (clock s)
             (ticks s)).
Proof. open_state s; reflexivity. Qed.

Lemma decrypt_encrypted_at x s s' :
  length (ENC_KEY s) = 32 -> ENC_KEY s' = ENC_KEY s ->
  decryptBuffer dec (e_data (encrypted_at enc s x))
                (e_iv (encrypted_at enc s x)) s'
  = (Some x, s').
Proof.
  intros Hlen Hkey. unfold decryptBuffer, bind, get, ret, encrypted_at.
  cbn [e_data e_iv]. rewrite !from_hex_to_hex, Hkey.
  rewrite cbc_roundtrip; [reflexivity|assumption|apply random_at_length].
Qed.

(** Downloading a record right after its upload. *)
Lemma decrypt_fresh_upload p q f s :
  length (ENC_KEY s) = 32 ->
  truthy q = true -> isActive s p q = true ->
  find_record (r_recordId (new_record enc p q f s)) s = None ->
  get_decrypt dec (r_recordId (new_record enc p q f s)) q
              (after_add_record enc p q f s)
  = (RFile (replace_first ".enc" "" (f_filename f +:+ ".enc")) (f_bytes f),
     after_decrypt (r_recordId (new_record enc p q f s)) q
                   (after_add_record enc p q f s)).
Proof.
  intros Hlen Hq Hc Hfresh.
  apply (get_decrypt_ok dec _ q _ (new_record enc p q f s)
           (encrypted_at enc s (f_bytes f))).
  - assumption.
  - now apply find_record_added.
  - exact Hc.
  - cbn [after_add_record UPLOADS new_record r_filename].
    rewrite lookup_delete_ne by (intros E; now apply (enc_name_fresh (f_filename f))).
    apply lookup_insert_eq.
  - cbn [after_add_record ENC_KEY].
    pose proof (decrypt_encrypted_at (f_bytes f) s s Hlen eq_refl) as H.
    unfold decryptBuffer, bind, get, ret in H. now injection H.
Qed.

(** C7. In a state where patient pat-1 has no grants, the ledger is empty,
    the key is a 256-bit key and no record bears the id the upload is about
    to draw, the calls of the scenario answer in turn: AccessDenied; a
    transaction id, after which the consent check is true; the metadata of
    record R1; the bytes "hello"; a transaction id; AccessDenied; and a
    ledger of exactly four entries, in call order: the grant, the upload,
    the download and the revocation. *)
Theorem C7_scenario (s0 : State) (f0 : UploadedFile) (name : string) :
  let pat := JStr "pat-1" in
  let doc := JStr "doc-1" in
  let id := record_id_at s0 (drawn s0 + 12 + IV_LENGTH) in
  length (ENC_KEY s0) = 32 ->
  (forall q, isActive s0 pat q = false) ->
  ledger_view s0 = [] ->
  find_record id s0 = None ->
  exists tx1 ts1 R1 txa att txd tx2 ts2 t1 t2 t3 t4,
    r_recordId R1 = id
    /\ responses enc dec (scenario f0 name id) s0 =
       [ RError 403 "access denied: no active consent";
         RTx tx1 ts1;
         RRecord R1 txa;
         RFile att hello;
         RTx tx2 ts2;
         RError 403 "access denied: no active consent";
         RLedger [ mkLedger (CONSENT_GRANTED pat doc tx1) t1;
                   mkLedger (RECORD_ADDED id txa) t2;
                   mkLedger (DOWNLOAD_DECRYPT id txd doc) t3;
                   mkLedger (CONSENT_REVOKED pat doc tx2) t4 ] ]
    /\ isActive (run enc dec (firstn 2 (scenario f0 name id)) s0) pat doc
       = true.
Proof.
  intros pat doc id Hlen Hnone Hledger Hfresh.
  set (f1 := mkUpload name hello).
  set (s1 := mkState (ENC_KEY s0) (consents s0) (records s0) (audit s0)
               (LEDGER_FILE s0)
               (delete (f_filename f0)
                  (<[f_filename f0 := FRaw (f_bytes f0)]> (UPLOADS s0)))
               (entropy s0) (drawn s0) (clock s0) (ticks s0)).
  set (s2 := after_mutator true "GRANT_CONSENT" CONSENT_GRANTED pat doc s1).
  set (s3 := after_add_record enc pat doc f1 s2).
  set (s4 := after_decrypt id doc s3).
  set (s5 := after_mutator false "REVOKE_CONSENT" CONSENT_REVOKED pat doc s4).
  assert (E1 : add_record enc pat doc (Some f0) s0
               = (RError 403 "access denied: no active consent", s1)).
  { apply add_record_denied; [reflexivity|reflexivity|apply Hnone]. }
  assert (E2 : consent_grant pat doc s1
               = (RTx (tx_at s1 (drawn s1)) (clock s1 (S (S (S (ticks s1))))),
                  s2)).
  { now apply consent_grant_ok. }
  assert (A2 : isActive s2 pat doc = true).
  { unfold s2. now rewrite isActive_after_mutator. }
  assert (E3 : add_record enc pat doc (Some f1) s2
               = (RRecord (new_record enc pat doc f1 s2)
                          (tx_at s2 (drawn s2 + IV_LENGTH + 8)), s3)).
  { now apply add_record_ok. }
  assert (Hid : r_recordId (new_record enc pat doc f1 s2) = id) by reflexivity.
  assert (F3 : find_record id s3 = Some (new_record enc pat doc f1 s2)).
  { pose proof (find_record_added enc pat doc f1 s2) as F.
    rewrite Hid in F. apply F. exact Hfresh. }
  assert (E4 : get_decrypt dec id doc s3
               = (RFile (replace_first ".enc" "" (name +:+ ".enc")) hello, s4)).
  { pose proof (decrypt_fresh_upload pat doc f1 s2) as D.
    rewrite Hid in D. apply D.
    - exact Hlen.
    - reflexivity.
    - exact A2.
    - exact Hfresh. }
  assert (E5 : consent_revoke pat doc s4
               = (RTx (tx_at s4 (drawn s4)) (clock s4 (S (S (S (ticks s4))))),
                  s5)).
  { now apply consent_revoke_ok. }
  assert (E6 : get_decrypt dec id doc s5
               = (RError 403 "access denied: no active consent", s5)).
  { apply (get_decrypt_denied dec id doc s5 (new_record enc pat doc f1 s2)).
    - reflexivity.
    - exact F3.
    - unfold s5. now rewrite isActive_after_mutator. }
  assert (L1 : ledger_view s1 = []).
  { rewrite ledger_view_eq in *. exact Hledger. }
  assert (E7 : fst (get_ledger s5)
               = RLedger
                   [ mkLedger (CONSENT_GRANTED pat doc (tx_at s1 (drawn s1)))
                              (clock s1 (S (S (ticks s1))));
                     mkLedger (RECORD_ADDED id (tx_at s2 (drawn s2 + IV_LENGTH + 8)))
                              (clock s2 (S (S (ticks s2))));
                     mkLedger (DOWNLOAD_DECRYPT id (tx_at s3 (drawn s3)) doc)
                              (clock s3 (S (ticks s3)));
                     mkLedger (CONSENT_REVOKED pat doc (tx_at s4 (drawn s4)))
                              (clock s4 (S (S (ticks s4)))) ]).
  { unfold get_ledger, bind. rewrite readLedger_eq. cbn [fst ret].
    f_equal. rewrite ledger_view_eq.
    unfold s5, after_mutator. cbn [LEDGER_FILE].
    rewrite (ledger_view_eq s4). unfold s4, after_decrypt. cbn [LEDGER_FILE].
    rewrite (ledger_view_eq s3). unfold s3, after_add_record. cbn [LEDGER_FILE].
    rewrite (ledger_view_eq s2). unfold s2, after_mutator. cbn [LEDGER_FILE].
    rewrite L1. reflexivity. }
  do 12 eexists. split; [exact Hid|]. split.
  - unfold scenario. fold pat doc f1. cbn [responses handle].
    rewrite E1. cbn [fst snd]. rewrite E2. cbn [fst snd].
    rewrite E3. cbn [fst snd]. rewrite E4. cbn [fst snd].
    rewrite E5. cbn [fst snd]. rewrite E6. cbn [fst snd].
    rewrite E7. reflexivity.
  - unfold scenario. fold pat doc. cbn [firstn run handle].
    rewrite E1. cbn [snd]. rewrite E2. cbn [snd]. exact A2.
Qed.

End Cipher.

(** * The reference cipher meets the round-trip law *)

Lemma lxor_byte_bound x y :
  (x <= 255 -> y <= 255 -> N.lxor x y <= 255)%N.
Proof.
  intros Hx Hy.
  destruct (N.eq_dec (N.lxor x y) 0%N) as [E|E]; [rewrite E; lia|].
  apply N.lt_succ_r. change (N.succ 255%N) with (2 ^ 8)%N.
  apply N.log2_lt_pow2; [lia|].
  eapply N.le_lt_trans; [apply N.log2_lxor|].
  apply N.max_lub_lt.
  - destruct (N.eq_dec x 0%N) as [->|Hx0]; [reflexivity|].
    apply N.log2_lt_pow2; [lia|]. change (2 ^ 8)%N with 256%N. lia.
  - destruct (N.eq_dec y 0%N) as [->|Hy0]; [reflexivity|].
    apply N.log2_lt_pow2; [lia|]. change (2 ^ 8)%N with 256%N. lia.
Qed.

Lemma to_N_xor_byte a b :
  Byte.to_N (xor_byte a b) = N.lxor (Byte.to_N a) (Byte.to_N b).
Proof.
  unfold xor_byte.
  destruct (Byte.of_N (N.lxor (Byte.to_N a) (Byte.to_N b))) as [c|] eqn:E.
  - now apply Byte.to_of_N.
  - apply Byte.of_N_None_iff in E.
    pose proof (lxor_byte_bound _ _ (Byte.to_N_bounded a) (Byte.to_N_bounded b)).
    lia.
Qed.

Lemma to_N_inj a b : Byte.to_N a = Byte.to_N b -> a = b.
Proof.
  intros H. apply (f_equal Byte.of_N) in H.
  rewrite !Byte.of_to_N in H. now injection H.
Qed.

Lemma xor_byte_involutive a b : xor_byte (xor_byte a b) b = a.
Proof.
  apply to_N_inj. rewrite !to_N_xor_byte.
  now rewrite N.lxor_assoc, N.lxor_nilpotent, N.lxor_0_r.
Qed.

Lemma xor_bytes_involutive a b : xor_bytes (xor_bytes a b) b = a.
Proof.
  revert b. induction a as [|x a IH]; intros [|y b]; simpl; try reflexivity.
  now rewrite xor_byte_involutive, IH.
Qed.

Lemma xor_bytes_length a b : length (xor_bytes a b) = length a.
Proof.
  revert b. induction a as [|x a IH]; intros [|y b]; simpl; try reflexivity.
  now rewrite IH.
Qed.

Lemma block_roundtrip key b : block_decrypt key (block_encrypt key b) = b.
Proof.
  unfold block_decrypt, block_encrypt.
  now rewrite rev_involutive, xor_bytes_involutive.
Qed.

Lemma block_encrypt_length key b : length (block_encrypt key b) = length b.
Proof. unfold block_encrypt. now rewrite length_rev, xor_bytes_length. Qed.

Lemma cbc_encrypt_blocks_length n key prev data :
  length data = n * BLOCK ->
  length (cbc_encrypt_blocks n key prev data) = n * BLOCK.
Proof.
  revert prev data. induction n as [|n IH]; intros prev data H;
    cbn [cbc_encrypt_blocks]; [reflexivity|].
  rewrite length_app, block_encrypt_length, xor_bytes_length, length_firstn.
  rewrite IH by (rewrite length_skipn; lia).
  lia.
Qed.

Lemma firstn_block (c rest : list Byte.byte) :
  length c = BLOCK -> firstn BLOCK (c ++ rest) = c.
Proof. intros <-. apply take_app_length. Qed.

Lemma skipn_block (c rest : list Byte.byte) :
  length c = BLOCK -> skipn BLOCK (c ++ rest) = rest.
Proof. intros <-. apply drop_app_length. Qed.

Lemma cbc_blocks_roundtrip n key prev data :
  length data = n * BLOCK ->
  cbc_decrypt_blocks n key prev (cbc_encrypt_blocks n key prev data) = data.
Proof.
  revert prev data. induction n as [|n IH]; intros prev data H;
    cbn [cbc_encrypt_blocks cbc_decrypt_blocks].
  - destruct data; [reflexivity|discriminate].
  - set (c := block_encrypt key (xor_bytes (firstn BLOCK data) prev)).
    assert (Hc : length c = BLOCK).
    { unfold c. rewrite block_encrypt_length, xor_bytes_length, length_firstn.
      lia. }
    rewrite firstn_block, skipn_block by assumption.
    unfold c at 1. rewrite block_roundtrip, xor_bytes_involutive.
    rewrite IH by (rewrite length_skipn; lia).
    apply firstn_skipn.
Qed.

Lemma pad_amount (x : list Byte.byte) :
  1 <= BLOCK - length x mod BLOCK <= BLOCK.
Proof.
  pose proof (Nat.mod_upper_bound (length x) BLOCK). unfold BLOCK in *. lia.
Qed.

Lemma pkcs7_pad_length x :
  length (pkcs7_pad x) = (length x / BLOCK + 1) * BLOCK.
Proof.
  unfold pkcs7_pad. rewrite length_app, repeat_length.
  pose proof (Nat.div_mod_eq (length x) BLOCK).
  pose proof (pad_amount x). unfold BLOCK in *. lia.
Qed.

Lemma to_N_byte_of_nat k :
  k <= 255 -> N.to_nat (Byte.to_N (byte_of_nat k)) = k.
Proof.
  intros H. unfold byte_of_nat.
  destruct (Byte.of_N (N.of_nat k)) as [b|] eqn:E.
  - apply Byte.to_of_N in E. rewrite E. apply Nat2N.id.
  - apply Byte.of_N_None_iff in E. lia.
Qed.

Lemma forallb_repeat (b : Byte.byte) k : forallb (Byte.eqb b) (repeat b k) = true.
Proof.
  induction k as [|k IH]; simpl; [reflexivity|].
  rewrite IH, andb_true_r. now apply Byte.byte_dec_lb.
Qed.

Lemma pkcs7_roundtrip x : pkcs7_unpad (pkcs7_pad x) = Some x.
Proof.
  unfold pkcs7_unpad, pkcs7_pad.
  pose proof (pad_amount x) as Hk.
  set (k := BLOCK - length x mod BLOCK) in *.
  rewrite rev_app_distr, rev_repeat.
  destruct k as [|k'] eqn:Ek; [lia|]. cbn [repeat app].
  rewrite to_N_byte_of_nat by (unfold BLOCK in *; lia).
  rewrite length_app. cbn [length]. rewrite repeat_length.
  replace (length x + S k' - S k') with (length x) by lia.
  rewrite skipn_app, skipn_all, Nat.sub_diag. cbn [skipn app].
  rewrite firstn_app, firstn_all, Nat.sub_diag. cbn [firstn].
  rewrite app_nil_r.
  change (byte_of_nat (S k') :: repeat (byte_of_nat (S k')) k')
    with (repeat (byte_of_nat (S k')) (S k')).
  rewrite forallb_repeat.
  replace (1 <=? S k')%nat with true by (symmetry; apply Nat.leb_le; lia).
  replace (S k' <=? BLOCK)%nat with true by (symmetry; apply Nat.leb_le; lia).
  replace (S k' <=? length x + S k')%nat with true
    by (symmetry; apply Nat.leb_le; lia).
  reflexivity.
Qed.

Lemma ref_roundtrip key iv x :
  length key = 32 -> length iv = IV_LENGTH ->
  ref_decrypt key iv (ref_encrypt key iv x) = Some x.
Proof.
  intros Hkey Hiv. unfold ref_decrypt, ref_encrypt.
  pose proof (pkcs7_pad_length x) as Hp.
  assert (Hn : length (pkcs7_pad x) / BLOCK = length x / BLOCK + 1).
  { rewrite Hp. apply Nat.div_mul. discriminate. }
  rewrite Hn in *.
  rewrite cbc_encrypt_blocks_length by assumption.
  rewrite Nat.div_mul by discriminate.
  rewrite cbc_blocks_roundtrip by assumption.
  rewrite Hkey, Hiv, Nat.Div0.mod_mul.
  replace ((length x / BLOCK + 1) * BLOCK =? 0)%nat with false
    by (symmetry; apply Nat.eqb_neq; unfold BLOCK; lia).
  apply pkcs7_roundtrip.
Qed.

(** * AES-256-CBC: deciphering undoes enciphering *)

Lemma xor_byte_comm a b : xor_byte a b = xor_byte b a.
Proof. apply to_N_inj. rewrite !to_N_xor_byte. apply N.lxor_comm. Qed.

Lemma xor_byte_0_r a : xor_byte a Byte.x00 = a.
Proof. apply to_N_inj. rewrite to_N_xor_byte. apply N.lxor_0_r. Qed.

Lemma xor_byte_0_l a : xor_byte Byte.x00 a = a.
Proof. now rewrite xor_byte_comm, xor_byte_0_r. Qed.

(** Sixteen terms summed row by row or column by column. *)
Lemma xor_byte_transpose
    a0 a1 a2 a3 b0 b1 b2 b3 c0 c1 c2 c3 d0 d1 d2 d3 :
  xor_byte
    (xor_byte
       (xor_byte (xor_byte (xor_byte (xor_byte a0 a1) a2) a3)
                 (xor_byte (xor_byte (xor_byte b0 b1) b2) b3))
       (xor_byte (xor_byte (xor_byte c0 c1) c2) c3))
    (xor_byte (xor_byte (xor_byte d0 d1) d2) d3)
  = xor_byte
      (xor_byte
         (xor_byte (xor_byte (xor_byte (xor_byte a0 b0) c0) d0)
                   (xor_byte (xor_byte (xor_byte a1 b1) c1) d1))
         (xor_byte (xor_byte (xor_byte a2 b2) c2) d2))
      (xor_byte (xor_byte (xor_byte a3 b3) c3) d3).
Proof.
  apply to_N_inj. rewrite !to_N_xor_byte.
  apply N.bits_inj. intros n. rewrite !N.lxor_spec. btauto.
Qed.

Lemma all_bytes_complete b : In b all_bytes.
Proof.
  assert (H : existsb (Byte.eqb b) all_bytes = true)
    by (destruct b; vm_compute; reflexivity).
  apply existsb_exists in H as (x & Hin & Heq).
  apply Byte.byte_dec_bl in Heq. now subst.
Qed.

(** A property of bytes holds when it holds of each of the 256. *)
Lemma byte_cases (P : Byte.byte -> bool) :
  forallb P all_bytes = true -> forall b, P b = true.
Proof.
  intros H b. rewrite forallb_forall in H. apply H, all_bytes_complete.
Qed.

Lemma byte_eq_cases (f g : Byte.byte -> Byte.byte) :
  forallb (fun b => Byte.eqb (f b) (g b)) all_bytes = true ->
  forall b, f b = g b.
Proof.
  intros H b. apply Byte.byte_dec_bl.
  exact (byte_cases (fun b => Byte.eqb (f b) (g b)) H b).
Qed.

Lemma xtime_xor a b : xtime (xor_byte a b) = xor_byte (xtime a) (xtime b).
Proof.
  revert a.
  apply (byte_eq_cases (fun a => xtime (xor_byte a b))
                       (fun a => xor_byte (xtime a) (xtime b))).
  revert b.
  apply (byte_cases
           (fun b => forallb
                       (fun a => Byte.eqb (xtime (xor_byte a b))
                                          (xor_byte (xtime a) (xtime b)))
                       all_bytes)).
  vm_compute. reflexivity.
Qed.

(** Multiplication by a constant distributes over the sum. *)
Lemma gmul_bits_xor k c a b :
  gmul_bits k c (xor_byte a b)
  = xor_byte (gmul_bits k c a) (gmul_bits k c b).
Proof.
  revert c a b. induction k as [|k IH]; intros c a b; cbn [gmul_bits].
  - now rewrite xor_byte_0_r.
  - rewrite xtime_xor, IH.
    destruct (N.odd c).
    + apply to_N_inj. rewrite !to_N_xor_byte.
      apply N.bits_inj. intros n. rewrite !N.lxor_spec. btauto.
    + now rewrite !xor_byte_0_l.
Qed.

Lemma gmul_xor c a b : gmul c (xor_byte a b) = xor_byte (gmul c a) (gmul c b).
Proof. apply gmul_bits_xor. Qed.

(** A statement about one byte, settled on each of the 256. *)
Ltac each_byte v :=
  revert v; refine (byte_eq_cases _ _ _); vm_compute; reflexivity.

(** An entry of the product of the two matrices: the byte itself on the
    diagonal, zero elsewhere. *)
Ltac matrix_entry E v :=
  first [ replace E with v by (symmetry; each_byte v)
        | replace E with Byte.x00 by (symmetry; each_byte v) ].

Lemma inv_mix_column_mix s0 s1 s2 s3 :
  inv_mix_column (mix_column [s0; s1; s2; s3]) = [s0; s1; s2; s3].
Proof.
  cbn [mix_column inv_mix_column]. rewrite !gmul_xor.
  repeat (apply f_equal2; [|try reflexivity]);
    rewrite xor_byte_transpose;
    match goal with
    | |- xor_byte (xor_byte (xor_byte ?E0 ?E1) ?E2) ?E3 = _ =>
        matrix_entry E0 s0; matrix_entry E1 s1; matrix_entry E2 s2;
        matrix_entry E3 s3
    end;
    now rewrite ?xor_byte_0_r, ?xor_byte_0_l.
Qed.

Lemma block_of_sixteen (st : list Byte.byte) :
  length st = 16 ->
  exists b0 b1 b2 b3 b4 b5 b6 b7 b8 b9 b10 b11 b12 b13 b14 b15,
    st = [b0; b1; b2; b3; b4; b5; b6; b7; b8; b9; b10; b11; b12; b13; b14; b15].
Proof.
  intros H.
  do 16 (destruct st as [|? st]; [discriminate H|]).
  destruct st; [|discriminate H].
  do 16 eexists. reflexivity.
Qed.

Ltac open_block st H :=
  destruct (block_of_sixteen st H)
    as (?b & ?b & ?b & ?b & ?b & ?b & ?b & ?b & ?b & ?b & ?b & ?b & ?b & ?b
        & ?b & ?b & ->).

Lemma inv_sub_byte_sub_byte b : inv_sub_byte (sub_byte b) = b.
Proof. each_byte b. Qed.

Lemma inv_sub_bytes_sub_bytes st : inv_sub_bytes (sub_bytes st) = st.
Proof.
  unfold inv_sub_bytes, sub_bytes. rewrite List.map_map.
  induction st as [|b st IH]; cbn [List.map]; [reflexivity|].
  now rewrite inv_sub_byte_sub_byte, IH.
Qed.

Lemma sub_bytes_length st : length (sub_bytes st) = length st.
Proof. apply length_map. Qed.

Lemma shift_rows_length st : length (shift_rows st) = 16.
Proof. reflexivity. Qed.

Lemma inv_shift_rows_shift_rows st :
  length st = 16 -> inv_shift_rows (shift_rows st) = st.
Proof. intros H. open_block st H. reflexivity. Qed.

Lemma mix_columns_length st : length st = 16 -> length (mix_columns st) = 16.
Proof. intros H. open_block st H. reflexivity. Qed.

Lemma inv_mix_columns_mix_columns st :
  length st = 16 -> inv_mix_columns (mix_columns st) = st.
Proof.
  intros H. open_block st H.
  pose proof (inv_mix_column_mix b b0 b1 b2) as E0.
  pose proof (inv_mix_column_mix b3 b4 b5 b6) as E1.
  pose proof (inv_mix_column_mix b7 b8 b9 b10) as E2.
  pose proof (inv_mix_column_mix b11 b12 b13 b14) as E3.
  cbn [mix_column] in E0, E1, E2, E3.
  unfold mix_columns.
  cbn [chunks firstn skipn List.map List.concat mix_column app].
  unfold inv_mix_columns.
  cbn [chunks firstn skipn List.map List.concat app].
  now rewrite E0, E1, E2, E3.
Qed.

Lemma add_round_key_length rk st : length (add_round_key rk st) = length st.
Proof. apply xor_bytes_length. Qed.

Lemma add_round_key_involutive rk st :
  add_round_key rk (add_round_key rk st) = st.
Proof. apply xor_bytes_involutive. Qed.

Lemma rounds_length rks st : length st = 16 -> length (rounds rks st) = 16.
Proof.
  revert st. induction rks as [|rk rest IH]; intros st H; [exact H|].
  cbn [rounds]. destruct rest as [|rk' rest].
  - now rewrite add_round_key_length.
  - apply IH. rewrite add_round_key_length. apply mix_columns_length.
    apply shift_rows_length.
Qed.

Lemma inv_rounds_rounds rks st :
  length st = 16 -> inv_rounds rks (rounds rks st) = st.
Proof.
  revert st. induction rks as [|rk rest IH]; intros st H; [reflexivity|].
  cbn [rounds inv_rounds]. destruct rest as [|rk' rest].
  - rewrite add_round_key_involutive, inv_shift_rows_shift_rows
      by now rewrite sub_bytes_length.
    apply inv_sub_bytes_sub_bytes.
  - rewrite IH
      by (rewrite add_round_key_length; apply mix_columns_length,
            shift_rows_length).
    rewrite add_round_key_involutive,
      inv_mix_columns_mix_columns by apply shift_rows_length.
    rewrite inv_shift_rows_shift_rows by now rewrite sub_bytes_length.
    apply inv_sub_bytes_sub_bytes.
Qed.

(** A block deciphered is the block that was enciphered, whatever the round
    keys. *)
Lemma inv_cipher_cipher w b :
  length b = 16 -> inv_cipher w (cipher w b) = b.
Proof.
  intros H. destruct w as [|rk0 rest]; [reflexivity|].
  cbn [cipher inv_cipher].
  rewrite inv_rounds_rounds by now rewrite add_round_key_length.
  apply add_round_key_involutive.
Qed.

Lemma cipher_length w b : length b = 16 -> length (cipher w b) = 16.
Proof.
  intros H. destruct w as [|rk0 rest]; [exact H|].
  cbn [cipher]. apply rounds_length. now rewrite add_round_key_length.
Qed.

Section Chaining.

Variable E D : list Byte.byte -> list Byte.byte.
Hypothesis E_length : forall b, length b = BLOCK -> length (E b) = BLOCK.
Hypothesis D_E : forall b, length b = BLOCK -> D (E b) = b.

Lemma cbc_encrypt_length n prev data :
  length data = n * BLOCK -> length (cbc_encrypt n E prev data) = n * BLOCK.
Proof.
  revert prev data. induction n as [|n IH]; intros prev data H;
    cbn [cbc_encrypt]; [reflexivity|].
  rewrite length_app, IH by (rewrite length_skipn; lia).
  rewrite E_length; [lia|].
  rewrite xor_bytes_length, length_firstn. lia.
Qed.

Lemma cbc_decrypt_encrypt n prev data :
  length data = n * BLOCK ->
  cbc_decrypt n D prev (cbc_encrypt n E prev data) = data.
Proof.
  revert prev data. induction n as [|n IH]; intros prev data H;
    cbn [cbc_encrypt cbc_decrypt].
  - destruct data; [reflexivity|discriminate].
  - assert (Hx : length (xor_bytes (firstn BLOCK data) prev) = BLOCK)
      by (rewrite xor_bytes_length, length_firstn; lia).
    set (c := E (xor_bytes (firstn BLOCK data) prev)).
    assert (Hc : length c = BLOCK) by now apply E_length.
    rewrite firstn_block, skipn_block by assumption.
    unfold c at 1. rewrite D_E, xor_bytes_involutive by assumption.
    rewrite IH by (rewrite length_skipn; lia).
    apply firstn_skipn.
Qed.

End Chaining.

(** Under a 256-bit key and a 16-byte initialization vector, deciphering
    undoes enciphering. *)
Lemma aes_256_cbc_roundtrip key iv x :
  length key = 32 -> length iv = IV_LENGTH ->
  aes_256_cbc_decrypt key iv (aes_256_cbc_encrypt key iv x) = Some x.
Proof.
  intros Hkey Hiv. unfold aes_256_cbc_decrypt, aes_256_cbc_encrypt.
  pose proof (pkcs7_pad_length x) as Hp.
  assert (Hn : length (pkcs7_pad x) / BLOCK = length x / BLOCK + 1).
  { rewrite Hp. apply Nat.div_mul. discriminate. }
  rewrite Hn in *.
  rewrite (cbc_encrypt_length _ (cipher_length _)) by assumption.
  rewrite Nat.div_mul by discriminate.
  rewrite (cbc_decrypt_encrypt _ _ (cipher_length _) (inv_cipher_cipher _))
    by assumption.
  rewrite Hkey, Hiv, Nat.Div0.mod_mul.
  replace ((length x / BLOCK + 1) * BLOCK =? 0)%nat with false
    by (symmetry; apply Nat.eqb_neq; unfold BLOCK; lia).
  apply pkcs7_roundtrip.
Qed.

(** The cipher on the example of FIPS 197 (appendix C.3), on the first two
    blocks of the CBC example of SP 800-38A (F.2.5), and on a short
    message. *)
Example aes_256_known_answer :
  to_hex (cipher (key_expansion
                    (from_hex "000102030405060708090a0b0c0d0e0f101112131415161718191a1b1c1d1e1f"))
                 (from_hex "00112233445566778899aabbccddeeff"))
  = "8ea2b7ca516745bfeafc49904b496089"
  /\ to_hex (inv_cipher (key_expansion
                    (from_hex "000102030405060708090a0b0c0d0e0f101112131415161718191a1b1c1d1e1f"))
                 (from_hex "8ea2b7ca516745bfeafc49904b496089"))
     = "00112233445566778899aabbccddeeff".
Proof. split; vm_compute; reflexivity. Qed.

Example aes_256_cbc_known_answer :
  to_hex (cbc_encrypt 2
            (cipher (key_expansion
                       (from_hex "603deb1015ca71be2b73aef0857d77811f352c073b6108d72d9810a30914dff4")))
            (from_hex "000102030405060708090a0b0c0d0e0f")
            (from_hex "6bc1bee22e409f96e93d7e117393172aae2d8a571e03ac9c9eb76fac45af8e51"))
  = "f58c4c04d6e5f1ba779eabfb5f7bfbd69cfc4e967edb808d679f777bc6702c7d"
  /\ to_hex (aes_256_cbc_encrypt
               (from_hex "000102030405060708090a0b0c0d0e0f101112131415161718191a1b1c1d1e1f")
               (from_hex "000102030405060708090a0b0c0d0e0f") hello)
     = "7fd12dafb7e9599d0b849ad8c2e3c21f".
Proof. split; vm_compute; reflexivity. Qed.

Example sbox_entries :
  sub_byte Byte.x00 = Byte.x63 /\ sub_byte Byte.x53 = Byte.xed
  /\ inv_sub_byte Byte.xed = Byte.x53
  /\ SBOX = List.map sub_byte_spec all_bytes.
Proof. split; [|split; [|split]]; vm_compute; reflexivity. Qed.

(** * The round trip through the handlers *)

(** C3, as the code has it.  Under the process key, which has 32 bytes in
    every state a process reaches, [decryptBuffer] applied to the [data]
    and [iv] that [encryptBuffer] produced for [x] returns [x], the cipher
    being AES-256 in CBC mode.  Consequently [decryptRecord] on a record
    just uploaded with bytes [x], the consent still active, answers exactly
    [x] when no record stored before bears the id the upload drew.  When
    one does, the download resolves the id to the earliest such record: it
    answers AccessDenied if that record's patient has no active consent for
    the provider, and otherwise what that record's blob deciphers to. *)
Theorem C3_decrypt_encrypt_roundtrip (x : list Byte.byte) (s : State) :
  length (ENC_KEY s) = 32 ->
  fst (decryptBuffer aes_256_cbc_decrypt
         (e_data (fst (encryptBuffer aes_256_cbc_encrypt x s)))
         (e_iv (fst (encryptBuffer aes_256_cbc_encrypt x s)))
         (snd (encryptBuffer aes_256_cbc_encrypt x s))) = Some x
  /\ (forall disk up entropy clock rs,
        length (ENC_KEY (run aes_256_cbc_encrypt aes_256_cbc_decrypt rs
                             (boot disk up entropy clock))) = 32)
  /\ forall p q name,
       truthy p = true -> truthy q = true -> isActive s p q = true ->
       let up := add_record aes_256_cbc_encrypt p q (Some (mkUpload name x)) s in
       let answer rec :=
         fst (get_decrypt aes_256_cbc_decrypt (r_recordId rec) q (snd up)) in
       exists rec tx,
         fst up = RRecord rec tx
         /\ isActive (snd up) p q = true
         /\ (find_record (r_recordId rec) s = None ->
             answer rec = RFile (replace_first ".enc" "" (name +:+ ".enc")) x)
         /\ (forall rec0,
               find_record (r_recordId rec) s = Some rec0 ->
               find_record (r_recordId rec) (snd up) = Some rec0
               /\ (isActive s (r_patientId rec0) q = false ->
                   AccessDenied (answer rec))
               /\ (forall e y,
                     isActive s (r_patientId rec0) q = true ->
                     UPLOADS (snd up) !! r_filename rec0 = Some (FJson e) ->
                     aes_256_cbc_decrypt (ENC_KEY s) (from_hex (e_iv e))
                                         (from_hex (e_data e)) = Some y ->
                     answer rec
                     = RFile (replace_first ".enc" "" (r_filename rec0)) y)).
Proof.
  intros Hlen. split; [|split].
  - rewrite encryptBuffer_eq. cbn [fst snd].
    now rewrite (decrypt_encrypted_at _ _ aes_256_cbc_roundtrip).
  - intros disk up entropy clock rs. apply process_key_length.
  - intros p q name Hp Hq Hc. cbv zeta.
    rewrite add_record_ok by assumption. cbn [fst snd].
    set (f := mkUpload name x).
    set (rec := new_record aes_256_cbc_encrypt p q f s).
    set (s1 := after_add_record aes_256_cbc_encrypt p q f s).
    exists rec, (tx_at s (drawn s + IV_LENGTH + 8)).
    split; [reflexivity|]. split; [exact Hc|]. split.
    + intros Hfresh. unfold rec, s1.
      now rewrite (decrypt_fresh_upload _ _ aes_256_cbc_roundtrip).
    + intros rec0 Hold.
      assert (Hfind : find_record (r_recordId rec) s1 = Some rec0).
      { unfold find_record, s1. cbn [after_add_record records].
        now apply find_record_app. }
      split; [exact Hfind|]. split.
      * intros Hc0.
        rewrite (get_decrypt_denied aes_256_cbc_decrypt _ q s1 rec0)
          by assumption.
        eexists; reflexivity.
      * intros e y Hc0 Hu Hd.
        now rewrite (get_decrypt_ok aes_256_cbc_decrypt _ q s1 rec0 e y).
Qed.

(** * The model on concrete data *)

Example truthy_missing : truthy JUndefined = false /\ truthy (JStr "") = false.
Proof. split; reflexivity. Qed.

Example truthy_present : truthy (JStr "pat-1") = true.
Proof. reflexivity. Qed.

Example to_hex_bytes : to_hex [Byte.x00; Byte.x0a; Byte.xff] = "000aff".
Proof. reflexivity. Qed.

Example from_hex_mixed_case : from_hex "0aFf" = [Byte.x0a; Byte.xff].
Proof. reflexivity. Qed.

Example from_hex_stops_at_garbage : from_hex "0azz11" = [Byte.x0a].
Proof. reflexivity. Qed.

Example from_hex_drops_odd_tail : from_hex "0a1" = [Byte.x0a].
Proof. reflexivity. Qed.

Example replace_first_enc : replace_first ".enc" "" "a1b2c3.enc" = "a1b2c3".
Proof. reflexivity. Qed.

Example ref_encrypt_one_block :
  length (ref_encrypt (ENC_KEY fresh_process)
            (random_at fresh_process 32 IV_LENGTH) hello) = 16.
Proof. vm_compute. reflexivity. Qed.

Example ref_decrypt_hello :
  ref_decrypt (ENC_KEY fresh_process) (random_at fresh_process 32 IV_LENGTH)
    (ref_encrypt (ENC_KEY fresh_process)
       (random_at fresh_process 32 IV_LENGTH) hello)
  = Some hello.
Proof. vm_compute. reflexivity. Qed.

Example ref_decrypt_rejects_short_iv :
  ref_decrypt (ENC_KEY fresh_process) [Byte.x00]
    (ref_encrypt (ENC_KEY fresh_process)
       (random_at fresh_process 32 IV_LENGTH) hello)
  = None.
Proof. vm_compute. reflexivity. Qed.

Example demo_record_id : r_recordId demo_record = "0xa7aeb5bcc3cad1d8".
Proof. vm_compute. reflexivity. Qed.

(** The scenario of the specification, run on a freshly started process. *)
Example scenario_on_fresh_process :
  responses ref_encrypt ref_decrypt (scenario demo_upload "a1b2c3" demo_id)
            fresh_process
  = [ RError 403 "access denied: no active consent";
      RTx "0xe3eaf1f8ff060d141b222930" "2025-01-01T00:00:03.000Z";
      RRecord (mkRec "0xa7aeb5bcc3cad1d8" (JStr "pat-1") (JStr "doc-1")
                     "a1b2c3.enc" "2025-01-01T00:00:04.000Z"
                     "373e454c535a61686f767d848b9299a0")
              "0xdfe6edf4fb020910171e252c";
      RFile "a1b2c3" hello;
      RTx "0x878e959ca3aab1b8bfc6cdd4" "2025-01-01T00:00:12.000Z";
      RError 403 "access denied: no active consent";
      RLedger
        [ mkLedger (CONSENT_GRANTED (JStr "pat-1") (JStr "doc-1")
                      "0xe3eaf1f8ff060d141b222930")
                   "2025-01-01T00:00:02.000Z";
          mkLedger (RECORD_ADDED "0xa7aeb5bcc3cad1d8"
                      "0xdfe6edf4fb020910171e252c")
                   "2025-01-01T00:00:06.000Z";
          mkLedger (DOWNLOAD_DECRYPT "0xa7aeb5bcc3cad1d8"
                      "0x333a41484f565d646b727980" (JStr "doc-1"))
                   "2025-01-01T00:00:08.000Z";
          mkLedger (CONSENT_REVOKED (JStr "pat-1") (JStr "doc-1")
                      "0x878e959ca3aab1b8bfc6cdd4")
                   "2025-01-01T00:00:11.000Z" ] ].
Proof. vm_compute. reflexivity. Qed.

(** The blob the upload left in the uploads directory, and nothing else:
    the temporary file is gone. *)
Example uploads_after_upload :
  map_to_list (UPLOADS uploaded_process)
  = [ ("a1b2c3.enc",
       FJson (mkEncrypted "373e454c535a61686f767d848b9299a0"
                          "c7f7c7d7df3f3f5f574777233838515c")) ].
Proof. vm_compute. reflexivity. Qed.

(** * The theorems at concrete inputs *)

Ltac by_computation := vm_compute; reflexivity.

Lemma C1_witness :
  truthy pat1 = true /\ truthy doc1 = true
  /\ isActive (snd (consent_grant pat1 doc1 fresh_process)) pat1 doc1 = true
  /\ isActive (snd (consent_revoke pat1 doc1
                      (snd (consent_grant pat1 doc1 fresh_process))))
              pat1 doc1 = false
  /\ isActive (run ref_encrypt ref_decrypt
                 ([PostRevoke pat1 doc1; PostGrant pat1 doc1; PostRevoke pat1 doc1]
                    ++ PostGrant pat1 doc1 :: [GetStatus; PostRevoke pat1 doc2])
                 fresh_process) pat1 doc1 = true
  /\ isActive (run ref_encrypt ref_decrypt [GetStatus; PostGrant pat1 doc2]
                 fresh_process) pat1 doc1 = false.
Proof.
  destruct (C1_consent_reflects_last_call ref_encrypt ref_decrypt pat1 doc1
              eq_refl eq_refl) as (H1 & H2 & H3 & H4).
  split; [reflexivity|]. split; [reflexivity|].
  split; [apply H1|]. split; [apply H2|]. split.
  - apply (H3 fresh_process
              [PostRevoke pat1 doc1; PostGrant pat1 doc1; PostRevoke pat1 doc1]
              [GetStatus; PostRevoke pat1 doc2]).
    reflexivity.
  - apply (H4 None ∅ demo_entropy demo_clock [GetStatus; PostGrant pat1 doc2]).
    reflexivity.
Defined.

Lemma C9_witness :
  truthy JUndefined = false /\ truthy (JStr "") = false
  /\ truthy (JStr "pat-404") = true /\ truthy (JStr "doc-404") = true
  /\ InvalidArgument (fst (consent_grant JUndefined doc1 fresh_process))
  /\ snd (consent_grant JUndefined doc1 fresh_process) = fresh_process
  /\ InvalidArgument (fst (consent_revoke pat1 (JStr "") fresh_process))
  /\ snd (consent_revoke pat1 (JStr "") fresh_process) = fresh_process
  /\ (exists tx t,
        fst (consent_grant (JStr "pat-404") (JStr "doc-404") fresh_process)
        = RTx tx t)
  /\ (exists tx t,
        fst (consent_revoke (JStr "pat-404") (JStr "doc-404") fresh_process)
        = RTx tx t).
Proof.
  destruct (C9_mutators_validate_ids JUndefined doc1 fresh_process)
    as [Hbad _].
  destruct (C9_mutators_validate_ids pat1 (JStr "") fresh_process)
    as [Hbad' _].
  destruct (C9_mutators_validate_ids (JStr "pat-404") (JStr "doc-404")
              fresh_process) as [_ Hok].
  destruct (Hbad (or_introl eq_refl)) as (G1 & G2 & _ & _).
  destruct (Hbad' (or_intror eq_refl)) as (_ & _ & R1 & R2).
  destruct (Hok eq_refl eq_refl) as [K1 K2].
  repeat split; assumption.
Defined.

Lemma C10_witness :
  length (entries_for pat1 doc1
            (consents (run ref_encrypt ref_decrypt
                         [PostGrant pat1 doc1; PostRevoke pat1 doc1;
                          PostGrant pat1 doc1]
                         fresh_process))) <= 1
  /\ length (entries_for pat1 doc1 (consents doubled_registry)) = 2
  /\ entries_for pat1 doc1
       (consents (snd (consent_grant pat1 doc1 doubled_registry)))
     = [mkConsent pat1 doc1 true
          (clock doubled_registry (ticks doubled_registry))]
  /\ entries_for pat1 doc1
       (consents (snd (consent_revoke pat1 doc1 doubled_registry)))
     = [mkConsent pat1 doc1 false
          (clock doubled_registry (ticks doubled_registry))].
Proof.
  destruct (C10_one_entry_per_pair ref_encrypt ref_decrypt) as [Hinv Hmut].
  split; [apply (Hinv None ∅ demo_entropy demo_clock)|].
  split; [reflexivity|].
  destruct (Hmut doubled_registry pat1 doc1 eq_refl eq_refl) as (G & R & _).
  split; [exact G|exact R].
Defined.

Lemma C4_witness :
  (exists tx,
     logged_once fresh_process
       (snd (handle ref_encrypt ref_decrypt (PostGrant pat1 doc1) fresh_process))
       tx)
  /\ (exists tx,
        logged_once granted_process
          (snd (handle ref_encrypt ref_decrypt (PostRevoke pat1 doc1)
                       granted_process)) tx)
  /\ (exists tx,
        logged_once granted_process
          (snd (handle ref_encrypt ref_decrypt
                       (PostAddRecord pat1 doc1 (Some demo_upload))
                       granted_process)) tx)
  /\ (exists tx,
        logged_once uploaded_process
          (snd (handle ref_encrypt ref_decrypt (GetRecords "pat-1" "doc-1")
                       uploaded_process)) tx)
  /\ (exists tx,
        logged_once uploaded_process
          (snd (handle ref_encrypt ref_decrypt (GetDecrypt demo_id doc1)
                       uploaded_process)) tx).
Proof.
  repeat split.
  - destruct (C4_one_audit_one_ledger ref_encrypt ref_decrypt
                (PostGrant pat1 doc1) fresh_process eq_refl)
      as (tx & H & _); [by_computation|now exists tx].
  - destruct (C4_one_audit_one_ledger ref_encrypt ref_decrypt
                (PostRevoke pat1 doc1) granted_process eq_refl)
      as (tx & H & _); [by_computation|now exists tx].
  - destruct (C4_one_audit_one_ledger ref_encrypt ref_decrypt
                (PostAddRecord pat1 doc1 (Some demo_upload)) granted_process
                eq_refl)
      as (tx & H & _); [by_computation|now exists tx].
  - destruct (C4_one_audit_one_ledger ref_encrypt ref_decrypt
                (GetRecords "pat-1" "doc-1") uploaded_process eq_refl)
      as (tx & H & _); [by_computation|now exists tx].
  - destruct (C4_one_audit_one_ledger ref_encrypt ref_decrypt
                (GetDecrypt demo_id doc1) uploaded_process eq_refl)
      as (tx & H & _); [by_computation|now exists tx].
Defined.

Lemma C5_witness :
  InvalidArgument (fst (get_decrypt ref_decrypt demo_id JUndefined uploaded_process))
  /\ NotFound (fst (get_decrypt ref_decrypt "0xdead" doc1 uploaded_process))
  /\ AccessDenied (fst (get_decrypt ref_decrypt demo_id doc2 uploaded_process))
  /\ StorageMissing (fst (get_decrypt ref_decrypt demo_id doc1 blob_lost_process))
  /\ DecryptionFailed
       (fst (get_decrypt ref_decrypt demo_id doc1 blob_garbled_process))
  /\ DecryptionFailed
       (fst (get_decrypt ref_decrypt demo_id doc1 blob_tampered_process))
  /\ snd (get_decrypt ref_decrypt demo_id doc2 uploaded_process)
     = uploaded_process.
Proof.
  split.
  { pose proof (C5_decrypt_failures ref_decrypt demo_id JUndefined
                  uploaded_process) as H.
    cbv zeta in H. destruct H as (H & _). now apply H. }
  split.
  { pose proof (C5_decrypt_failures ref_decrypt "0xdead" doc1
                  uploaded_process) as H.
    cbv zeta in H. destruct H as (_ & H & _).
    apply H; [reflexivity|by_computation]. }
  split.
  { pose proof (C5_decrypt_failures ref_decrypt demo_id doc2
                  uploaded_process) as H.
    cbv zeta in H. destruct H as (_ & _ & H & _).
    destruct (H demo_record) as (H1 & _);
      [reflexivity|by_computation|]. apply H1. by_computation. }
  split.
  { pose proof (C5_decrypt_failures ref_decrypt demo_id doc1
                  blob_lost_process) as H.
    cbv zeta in H. destruct H as (_ & _ & H & _).
    destruct (H demo_record) as (_ & H2 & _);
      [reflexivity|by_computation|]. apply H2; by_computation. }
  split.
  { pose proof (C5_decrypt_failures ref_decrypt demo_id doc1
                  blob_garbled_process) as H.
    cbv zeta in H. destruct H as (_ & _ & H & _).
    destruct (H demo_record) as (_ & _ & H3 & _);
      [reflexivity|by_computation|].
    apply (H3 ltac:(by_computation) hello). by_computation. }
  split.
  { pose proof (C5_decrypt_failures ref_decrypt demo_id doc1
                  blob_tampered_process) as H.
    cbv zeta in H. destruct H as (_ & _ & H & _).
    destruct (H demo_record) as (_ & _ & _ & H4);
      [reflexivity|by_computation|].
    apply (H4 ltac:(by_computation) (mkEncrypted "00" "00"));
      by_computation. }
  pose proof (C5_decrypt_failures ref_decrypt demo_id doc2
                uploaded_process) as H.
  cbv zeta in H. destruct H as (_ & _ & _ & H).
  apply H. by_computation.
Defined.

Lemma C3_witness :
  let up := add_record aes_256_cbc_encrypt pat1 doc1 (Some demo_upload)
                       granted_process in
  length (ENC_KEY granted_process) = 32
  /\ fst (decryptBuffer aes_256_cbc_decrypt
            (e_data (fst (encryptBuffer aes_256_cbc_encrypt hello
                                        granted_process)))
            (e_iv (fst (encryptBuffer aes_256_cbc_encrypt hello
                                      granted_process)))
            (snd (encryptBuffer aes_256_cbc_encrypt hello granted_process)))
     = Some hello
  /\ exists rec tx,
       fst up = RRecord rec tx
       /\ isActive (snd up) pat1 doc1 = true
       /\ fst (get_decrypt aes_256_cbc_decrypt (r_recordId rec) doc1 (snd up))
          = RFile "a1b2c3" hello.
Proof.
  cbv zeta.
  assert (Hlen : length (ENC_KEY granted_process) = 32) by reflexivity.
  destruct (C3_decrypt_encrypt_roundtrip hello granted_process Hlen)
    as (H1 & _ & H2).
  split; [exact Hlen|]. split; [exact H1|].
  destruct (H2 pat1 doc1 "a1b2c3" eq_refl eq_refl ltac:(by_computation))
    as (rec & tx & E & A & Hfresh & _).
  exists rec, tx. split; [exact E|]. split; [exact A|].
  apply Hfresh. reflexivity.
Defined.

(** The claim C3 as it is worded.  A download of a record just uploaded,
    the consent still active, answers the uploaded bytes: in a process
    whose random source repeats itself the upload draws the id an earlier
    record bears, and the download answers the bytes of that record. *)
Lemma C3_counterexample :
  ~ (forall (s : State) (p q : jsval) (name : string) (x : list Byte.byte)
            (rec : Rec) (tx : string),
       length (ENC_KEY s) = 32 ->
       fst (add_record aes_256_cbc_encrypt p q (Some (mkUpload name x)) s)
       = RRecord rec tx ->
       isActive (snd (add_record aes_256_cbc_encrypt p q
                                 (Some (mkUpload name x)) s)) p q = true ->
       exists attachment,
         fst (get_decrypt aes_256_cbc_decrypt (r_recordId rec) q
                (snd (add_record aes_256_cbc_encrypt p q
                                 (Some (mkUpload name x)) s)))
         = RFile attachment x)
  /\ (let up := add_record aes_256_cbc_encrypt pat1 doc1 (Some demo_upload)
                           colliding_process in
      List.map r_recordId (records colliding_process) = ["0x0000000000000000"]
      /\ (exists rec tx,
            fst up = RRecord rec tx
            /\ r_recordId rec = "0x0000000000000000")
      /\ isActive (snd up) pat1 doc1 = true
      /\ fst (get_decrypt aes_256_cbc_decrypt "0x0000000000000000" doc1
                (snd up))
         = RFile "f0" other).
Proof.
  assert (E : add_record aes_256_cbc_encrypt pat1 doc1 (Some demo_upload)
                colliding_process
              = (RRecord (new_record aes_256_cbc_encrypt pat1 doc1 demo_upload
                                     colliding_process)
                         (tx_at colliding_process
                                (drawn colliding_process + IV_LENGTH + 8)),
                 after_add_record aes_256_cbc_encrypt pat1 doc1 demo_upload
                                  colliding_process)).
  { apply add_record_ok; by_computation. }
  assert (D : fst (get_decrypt aes_256_cbc_decrypt "0x0000000000000000" doc1
                     (after_add_record aes_256_cbc_encrypt pat1 doc1
                                       demo_upload colliding_process))
              = RFile "f0" other) by by_computation.
  split.
  - intros H.
    specialize (H colliding_process pat1 doc1 "a1b2c3" hello).
    change (mkUpload "a1b2c3" hello) with demo_upload in H.
    rewrite E in H. cbn [fst snd] in H.
    destruct (H _ _ ltac:(by_computation) eq_refl ltac:(by_computation))
      as [att K].
    change (r_recordId (new_record aes_256_cbc_encrypt pat1 doc1 demo_upload
                                   colliding_process))
      with "0x0000000000000000" in K.
    rewrite D in K. discriminate K.
  - cbv zeta. rewrite E. cbn [fst snd].
    split; [by_computation|]. split.
    + do 2 eexists. split; [reflexivity|]. by_computation.
    + split; [by_computation|exact D].
Qed.

Lemma C2_witness :
  let up := add_record aes_256_cbc_encrypt pat1 doc1 (Some demo_upload)
                       two_providers_process in
  let s2 := run aes_256_cbc_encrypt aes_256_cbc_decrypt
                ([GetStatus] ++ PostRevoke pat1 doc1 :: [GetAudit]) (snd up) in
  isActive two_providers_process pat1 doc1 = true
  /\ isActive s2 pat1 doc2 = true
  /\ exists rec tx,
       fst up = RRecord rec tx
       /\ AccessDenied
            (fst (get_decrypt aes_256_cbc_decrypt (r_recordId rec) doc1 s2))
       /\ In rec (records s2)
       /\ exists recs tx2,
            fst (get_records "pat-1" "doc-2" s2) = RRecords recs tx2
            /\ exists v, In v recs /\ shows v rec.
Proof.
  cbv zeta.
  assert (Hc : isActive two_providers_process pat1 doc1 = true)
    by by_computation.
  assert (Hc2 : isActive
                  (run aes_256_cbc_encrypt aes_256_cbc_decrypt
                     ([GetStatus] ++ PostRevoke pat1 doc1 :: [GetAudit])
                     (snd (add_record aes_256_cbc_encrypt pat1 doc1
                                      (Some demo_upload)
                                      two_providers_process)))
                  pat1 doc2 = true) by by_computation.
  destruct (C2_revocation_gates_reads aes_256_cbc_encrypt aes_256_cbc_decrypt
              "pat-1" doc1 demo_upload two_providers_process
              [GetStatus] [GetAudit] eq_refl eq_refl Hc eq_refl)
    as (rec & tx & E & _ & _ & _ & Hin & Hlist & Hfresh & _).
  split; [exact Hc|]. split; [exact Hc2|].
  exists rec, tx. split; [exact E|].
  split; [apply Hfresh; reflexivity|]. split; [exact Hin|].
  exact (Hlist "doc-2" Hc2).
Defined.

(** The claim C2 as it is worded.  After the revocation a download of the
    uploaded record by the revoked provider answers AccessDenied: in a
    process whose random source repeats itself the upload draws the id an
    earlier record bears, here one of another patient whose consent the
    provider still holds, and the download answers that record's bytes. *)
Lemma C2_counterexample :
  ~ (forall (s : State) (p : string) (q : jsval) (f : UploadedFile)
            (rec : Rec) (tx : string),
       isActive s (JStr p) q = true ->
       fst (add_record aes_256_cbc_encrypt (JStr p) q (Some f) s)
       = RRecord rec tx ->
       AccessDenied
         (fst (get_decrypt aes_256_cbc_decrypt (r_recordId rec) q
                 (run aes_256_cbc_encrypt aes_256_cbc_decrypt
                      [PostRevoke (JStr p) q]
                      (snd (add_record aes_256_cbc_encrypt (JStr p) q
                                       (Some f) s))))))
  /\ (let up := add_record aes_256_cbc_encrypt pat1 doc1 (Some demo_upload)
                           colliding_process in
      let s2 := run aes_256_cbc_encrypt aes_256_cbc_decrypt
                    [PostRevoke pat1 doc1] (snd up) in
      isActive colliding_process pat1 doc1 = true
      /\ (exists rec tx,
            fst up = RRecord rec tx
            /\ r_recordId rec = "0x0000000000000000"
            /\ r_patientId rec = pat1)
      /\ isActive s2 pat1 doc1 = false
      /\ find_record "0x0000000000000000" s2
         = find_record "0x0000000000000000" colliding_process
      /\ fst (get_decrypt aes_256_cbc_decrypt "0x0000000000000000" doc1 s2)
         = RFile "f0" other).
Proof.
  assert (Hc : isActive colliding_process pat1 doc1 = true) by by_computation.
  assert (E : add_record aes_256_cbc_encrypt pat1 doc1 (Some demo_upload)
                colliding_process
              = (RRecord (new_record aes_256_cbc_encrypt pat1 doc1 demo_upload
                                     colliding_process)
                         (tx_at colliding_process
                                (drawn colliding_process + IV_LENGTH + 8)),
                 after_add_record aes_256_cbc_encrypt pat1 doc1 demo_upload
                                  colliding_process)).
  { apply add_record_ok; by_computation. }
  assert (D : fst (get_decrypt aes_256_cbc_decrypt "0x0000000000000000" doc1
                     (run aes_256_cbc_encrypt aes_256_cbc_decrypt
                          [PostRevoke pat1 doc1]
                          (after_add_record aes_256_cbc_encrypt pat1 doc1
                             demo_upload colliding_process)))
              = RFile "f0" other) by by_computation.
  split.
  - intros H.
    specialize (H colliding_process "pat-1" doc1 demo_upload).
    fold pat1 in H. rewrite E in H. cbn [fst snd] in H.
    destruct (H _ _ Hc eq_refl) as [msg K].
    change (r_recordId (new_record aes_256_cbc_encrypt pat1 doc1 demo_upload
                                   colliding_process))
      with "0x0000000000000000" in K.
    rewrite D in K. discriminate K.
  - cbv zeta. rewrite E. cbn [fst snd].
    split; [exact Hc|]. split.
    + do 2 eexists. split; [reflexivity|]. split; by_computation.
    + split; [by_computation|]. split; [by_computation|exact D].
Qed.

Lemma C6_witness :
  InvalidArgument
    (fst (add_record ref_encrypt (JStr "") doc1 (Some demo_upload)
                     fresh_process))
  /\ InvalidArgument (fst (add_record ref_encrypt pat1 doc1 None granted_process))
  /\ AccessDenied
       (fst (add_record ref_encrypt pat1 doc1 (Some demo_upload) fresh_process))
  /\ records (snd (add_record ref_encrypt pat1 doc1 (Some demo_upload)
                              fresh_process))
     = records fresh_process
  /\ exists rec tx,
       fst (add_record ref_encrypt pat1 doc1 (Some demo_upload) granted_process)
       = RRecord rec tx
       /\ records (snd (add_record ref_encrypt pat1 doc1 (Some demo_upload)
                                   granted_process))
          = records granted_process ++ [rec]
       /\ r_recordId rec = demo_id.
Proof.
  pose proof (C6_add_record_gate ref_encrypt (JStr "") doc1 (Some demo_upload)
                fresh_process) as Hid.
  pose proof (C6_add_record_gate ref_encrypt pat1 doc1 None granted_process)
    as Hfile.
  pose proof (C6_add_record_gate ref_encrypt pat1 doc1 (Some demo_upload)
                fresh_process) as Hdeny.
  pose proof (C6_add_record_gate ref_encrypt pat1 doc1 (Some demo_upload)
                granted_process) as Hok.
  cbv zeta in Hid, Hfile, Hdeny, Hok.
  destruct Hid as (Hid & _). destruct Hfile as (Hfile & _).
  destruct Hdeny as (_ & Hdeny & Hsame & _). destruct Hok as (_ & _ & _ & Hok).
  split; [apply Hid; left; reflexivity|].
  split; [apply Hfile; right; right; reflexivity|].
  split; [apply Hdeny; [reflexivity|reflexivity|discriminate|reflexivity]|].
  split; [apply Hsame; by_computation|].
  destruct Hok as (rec & tx & K1 & K2 & K3 & _);
    [reflexivity|reflexivity|discriminate|by_computation|].
  exists rec, tx. split; [exact K1|]. split; [exact K2|].
  rewrite K3. reflexivity.
Defined.

(** The claim C6 as it is worded.  Two successful uploads never return the
    same record id: with a random source that repeats itself they do.
    Every call succeeds once a grant is active: a call without a file does
    not.  A call for a pair without a grant answers AccessDenied: with an
    empty identifier it answers InvalidArgument. *)
Lemma C6_counterexample :
  ~ (forall (s : State) (p q : jsval) (f1 f2 : UploadedFile)
            (rec1 rec2 : Rec) (tx1 tx2 : string),
       fst (add_record ref_encrypt p q (Some f1) s) = RRecord rec1 tx1 ->
       fst (add_record ref_encrypt p q (Some f2)
              (snd (add_record ref_encrypt p q (Some f1) s)))
       = RRecord rec2 tx2 ->
       r_recordId rec1 <> r_recordId rec2)
  /\ (isActive granted_process pat1 doc1 = true
      /\ fst (add_record ref_encrypt pat1 doc1 None granted_process)
         = RError 400 "file required")
  /\ (isActive fresh_process (JStr "") doc1 = false
      /\ fst (add_record ref_encrypt (JStr "") doc1 (Some demo_upload)
                 fresh_process)
         = RError 400 "patientId & providerId required").
Proof.
  split; [|split; split; by_computation].
  intros H.
  assert (E1 : add_record ref_encrypt pat1 doc1 (Some demo_upload)
                 stuck_entropy_process
               = (RRecord (new_record ref_encrypt pat1 doc1 demo_upload
                                      stuck_entropy_process)
                          (tx_at stuck_entropy_process
                                 (drawn stuck_entropy_process + IV_LENGTH + 8)),
                  after_add_record ref_encrypt pat1 doc1 demo_upload
                                   stuck_entropy_process)).
  { apply add_record_ok; by_computation. }
  assert (E2 : add_record ref_encrypt pat1 doc1 (Some demo_upload)
                 (after_add_record ref_encrypt pat1 doc1 demo_upload
                                   stuck_entropy_process)
               = (RRecord (new_record ref_encrypt pat1 doc1 demo_upload
                             (after_add_record ref_encrypt pat1 doc1
                                demo_upload stuck_entropy_process))
                          (tx_at (after_add_record ref_encrypt pat1 doc1
                                    demo_upload stuck_entropy_process)
                                 (drawn (after_add_record ref_encrypt pat1 doc1
                                           demo_upload stuck_entropy_process)
                                  + IV_LENGTH + 8)),
                  after_add_record ref_encrypt pat1 doc1 demo_upload
                    (after_add_record ref_encrypt pat1 doc1 demo_upload
                                      stuck_entropy_process))).
  { apply add_record_ok; by_computation. }
  eapply (H stuck_entropy_process pat1 doc1 demo_upload demo_upload).
  - rewrite E1. reflexivity.
  - rewrite E1. cbn [snd]. rewrite E2. reflexivity.
  - by_computation.
Qed.

(** With that random source both uploads get the id of eight zero bytes,
    and a download by that id is served from the first record: the bytes
    of the first upload come back, not those of the second. *)
Example repeated_id_resolves_to_first_record :
  let first := mkUpload "f1" (list_byte_of_string "first") in
  let second := mkUpload "f2" (list_byte_of_string "second") in
  let s1 := snd (add_record ref_encrypt pat1 doc1 (Some first)
                            stuck_entropy_process) in
  let s2 := snd (add_record ref_encrypt pat1 doc1 (Some second) s1) in
  List.map r_recordId (records s2)
  = ["0x0000000000000000"; "0x0000000000000000"]
  /\ fst (get_decrypt ref_decrypt "0x0000000000000000" doc1 s2)
     = RFile "f1" (list_byte_of_string "first").
Proof. split; by_computation. Qed.

Lemma C7_witness :
  let pat := JStr "pat-1" in
  let doc := JStr "doc-1" in
  let id := record_id_at fresh_process (drawn fresh_process + 12 + IV_LENGTH) in
  length (ENC_KEY fresh_process) = 32
  /\ ledger_view fresh_process = []
  /\ find_record id fresh_process = None
  /\ exists tx1 ts1 R1 txa att txd tx2 ts2 t1 t2 t3 t4,
       r_recordId R1 = id
       /\ responses ref_encrypt ref_decrypt
            (scenario demo_upload "a1b2c3" id) fresh_process =
          [ RError 403 "access denied: no active consent";
            RTx tx1 ts1;
            RRecord R1 txa;
            RFile att hello;
            RTx tx2 ts2;
            RError 403 "access denied: no active consent";
            RLedger [ mkLedger (CONSENT_GRANTED pat doc tx1) t1;
                      mkLedger (RECORD_ADDED id txa) t2;
                      mkLedger (DOWNLOAD_DECRYPT id txd doc) t3;
                      mkLedger (CONSENT_REVOKED pat doc tx2) t4 ] ]
       /\ isActive (run ref_encrypt ref_decrypt
                      (firstn 2 (scenario demo_upload "a1b2c3" id))
                      fresh_process) pat doc = true.
Proof.
  cbv zeta.
  split; [reflexivity|]. split; [reflexivity|]. split; [reflexivity|].
  apply (C7_scenario ref_encrypt ref_decrypt ref_roundtrip fresh_process
           demo_upload "a1b2c3"); reflexivity.
Defined.

(** * Further properties of the routes *)

(** Every outcome of every route, each rewritten with its equation. *)
Ltac every_outcome enc dec r s :=
  destruct r as [| | |?p ?q|?p ?q|?p ?q ?f|?p ?q|?id ?q| |];
  cbn [handle] in *;
  [ | | | | | | | | | unfold get_ledger, bind in *; rewrite readLedger_eq in * ];
  match goal with
  | |- context [consent_grant ?p ?q s] => split_grant p q s
  | |- context [consent_revoke ?p ?q s] => split_revoke p q s
  | |- context [add_record enc ?p ?q ?f s] => split_add_record enc p q f s
  | |- context [get_records ?p ?q s] => split_records p q s
  | |- context [get_decrypt dec ?id ?q s] => split_decrypt dec id q s
  | _ => idtac
  end;
  cbn [fst snd get_status get_patients get_providers get_audit bind get ret
       nowIso] in *.

Section Routes.

Variable enc : list Byte.byte -> list Byte.byte -> list Byte.byte -> list Byte.byte.
Variable dec :
  list Byte.byte -> list Byte.byte -> list Byte.byte -> option (list Byte.byte).

(** X1. The consent check is the only way to a record.  Whatever the
    request and the state, an answer that carries record metadata of an
    upload, a listing or decrypted bytes was given with the consent check
    true at that moment for the pair concerned: the uploaded record's
    patient and provider, the listing's patient and requesting provider,
    the stored record's patient and the requesting provider. *)
Theorem X1_disclosure_requires_consent (r : Request) (s : State) :
  match fst (handle enc dec r s) with
  | RRecord rec _ =>
      isActive s (r_patientId rec) (r_providerId rec) = true
  | RRecords _ _ =>
      exists p q, r = GetRecords p q /\ isActive s (JStr p) (JStr q) = true
  | RFile _ _ =>
      exists id q rec,
        r = GetDecrypt id q /\ find_record id s = Some rec
        /\ isActive s (r_patientId rec) q = true
  | _ => True
  end.
Proof.
  every_outcome enc dec r s; try exact I.
  - assumption.
  - eauto.
  - destruct (fst (get_decrypt dec id q s)); try discriminate E. exact I.
  - eauto 6.
Qed.

(** X2. A request that is answered with an error has no effect on the
    consent registry, the record store, the audit trail or the ledger, and
    consumes no random bytes; unless it is an upload (whose temporary file
    is removed) it leaves the whole state as it was. *)
Theorem X2_errors_change_nothing (r : Request) (s : State) :
  is_error (fst (handle enc dec r s)) = true ->
  let s' := snd (handle enc dec r s) in
  consents s' = consents s /\ records s' = records s
  /\ audit s' = audit s /\ ledger_view s' = ledger_view s
  /\ ENC_KEY s' = ENC_KEY s /\ drawn s' = drawn s
  /\ (is_upload r = false -> s' = s).
Proof.
  intros Herr. cbv zeta. revert Herr.
  every_outcome enc dec r s; intros Herr; try discriminate Herr;
    try (repeat split; reflexivity);
    try (destruct f; cbn [consents records audit ENC_KEY drawn];
         rewrite ?ledger_view_eq; cbn [LEDGER_FILE];
         repeat split; try reflexivity; discriminate).
  all: cbn [consents records audit ENC_KEY drawn];
    rewrite ?ledger_view_eq; cbn [LEDGER_FILE];
    repeat split; try reflexivity; discriminate.
Qed.

(** One request: what it appends to the audit trail and to the ledger. *)
Lemma log_step r s :
  exists au le,
    audit (snd (handle enc dec r s)) = audit s ++ au
    /\ ledger_view (snd (handle enc dec r s)) = ledger_view s ++ le
    /\ List.map audit_key au = List.map ledger_key le.
Proof.
  every_outcome enc dec r s;
    try (exists [], []; cbn [audit]; rewrite ?ledger_view_eq;
         cbn [LEDGER_FILE]; rewrite ?app_nil_r; repeat split; reflexivity);
    try (destruct f; exists [], []; cbn [audit]; rewrite ?ledger_view_eq;
         cbn [LEDGER_FILE]; rewrite ?app_nil_r; repeat split; reflexivity);
    try (eexists [_], [_]; repeat split; reflexivity).
Qed.

Lemma log_run rs s :
  exists au le,
    audit (run enc dec rs s) = audit s ++ au
    /\ ledger_view (run enc dec rs s) = ledger_view s ++ le
    /\ List.map audit_key au = List.map ledger_key le.
Proof.
  revert s. induction rs as [|r rs IH]; intros s; cbn [run].
  - exists [], []. now rewrite !app_nil_r.
  - destruct (IH (snd (handle enc dec r s))) as (au2 & le2 & A2 & L2 & K2).
    destruct (log_step r s) as (au1 & le1 & A1 & L1 & K1).
    exists (au1 ++ au2), (le1 ++ le2).
    rewrite A2, L2, A1, L1, !app_assoc, !List.map_app, K1, K2.
    repeat split.
Qed.

(** X3. The audit trail is append-only, and it grows in lockstep with the
    ledger: over any run, what is appended to the one and to the other are
    lists of equal length whose entries carry, position by position, the
    same transaction id and the action that goes with the ledger event's
    type.  In a process started without a ledger file the whole audit
    trail and the whole ledger correspond in this way. *)
Theorem X3_audit_ledger_lockstep (rs : list Request) (s : State) :
  (exists au le,
     audit (run enc dec rs s) = audit s ++ au
     /\ ledger_view (run enc dec rs s) = ledger_view s ++ le
     /\ length au = length le
     /\ List.map audit_key au = List.map ledger_key le)
  /\ (forall up entropy clock,
        List.map audit_key (audit (run enc dec rs (boot None up entropy clock)))
        = List.map ledger_key
            (ledger_view (run enc dec rs (boot None up entropy clock)))).
Proof.
  split.
  - destruct (log_run rs s) as (au & le & A & L & K).
    exists au, le. repeat split; try assumption.
    apply (f_equal (@length _)) in K. now rewrite !length_map in K.
  - intros up entropy clock.
    destruct (log_run rs (boot None up entropy clock)) as (au & le & A & L & K).
    rewrite A, L. exact K.
Qed.

Lemma upload_logged_later s s' r :
  (exists le, ledger_view s' = ledger_view s ++ le) ->
  (exists au, audit s' = audit s ++ au) ->
  upload_logged s r -> upload_logged s' r.
Proof.
  intros [le L] [au A] [(l & tx & Hl & El) (a & Ha & Ea)]. split.
  - exists l, tx. rewrite L. split; [apply in_or_app; now left|exact El].
  - exists a. rewrite A. split; [apply in_or_app; now left|exact Ea].
Qed.

Lemma new_record_well_formed p q f s :
  truthy p = true -> truthy q = true ->
  well_formed_record (new_record enc p q f s).
Proof.
  intros Hp Hq. unfold well_formed_record, new_record, encrypted_at.
  cbn [r_patientId r_providerId r_filename r_recordId r_iv e_iv].
  repeat split; try assumption.
  - now exists (f_filename f).
  - exists (random_at s (drawn s + IV_LENGTH) 8).
    split; [apply random_at_length|reflexivity].
  - exists (random_at s (drawn s) IV_LENGTH).
    split; [apply random_at_length|reflexivity].
Qed.

Lemma records_accounted_effect s s' :
  effect enc s s' -> records_accounted s -> records_accounted s'.
Proof.
  intros [s1 Hs|p q Hp Hq|p q Hp Hq|p q f Hp Hq Hc|p q Hc|id q rec Hq Hf Hc] H.
  - intros r Hr. destruct Hs as (_ & _ & Hrec & Hau & Hled & _).
    rewrite Hrec in Hr. destruct (H r Hr) as [W L]. split; [exact W|].
    eapply upload_logged_later; [| |exact L].
    + exists []. now rewrite app_nil_r, !ledger_view_eq, Hled.
    + exists []. now rewrite app_nil_r.
  - intros r Hr. destruct (H r Hr) as [W L]. split; [exact W|].
    eapply upload_logged_later; [| |exact L]; eexists; reflexivity.
  - intros r Hr. destruct (H r Hr) as [W L]. split; [exact W|].
    eapply upload_logged_later; [| |exact L]; eexists; reflexivity.
  - intros r Hr. cbn [after_add_record records] in Hr.
    apply in_app_or in Hr as [Hr|[<-|[]]].
    + destruct (H r Hr) as [W L]. split; [exact W|].
      eapply upload_logged_later; [| |exact L]; eexists; reflexivity.
    + split; [now apply new_record_well_formed|]. split.
      * exists (mkLedger
                  (RECORD_ADDED (r_recordId (new_record enc p q f s))
                     (tx_at s (drawn s + IV_LENGTH + 8)))
                  (clock s (S (S (ticks s))))),
               (tx_at s (drawn s + IV_LENGTH + 8)).
        split; [|reflexivity].
        change (ledger_view (after_add_record enc p q f s))
          with (ledger_view s
                  ++ [mkLedger
                        (RECORD_ADDED (r_recordId (new_record enc p q f s))
                           (tx_at s (drawn s + IV_LENGTH + 8)))
                        (clock s (S (S (ticks s))))]).
        apply in_or_app. right. now left.
      * exists (mkAudit (tx_at s (drawn s + IV_LENGTH + 8)) "ADD_RECORD" q
                        (JStr (r_recordId (new_record enc p q f s)))
                        (clock s (S (ticks s)))).
        split; [|repeat split].
        cbn [after_add_record audit]. apply in_or_app. right. now left.
  - intros r Hr. destruct (H r Hr) as [W L]. split; [exact W|].
    eapply upload_logged_later; [| |exact L]; eexists; reflexivity.
  - intros r Hr. destruct (H r Hr) as [W L]. split; [exact W|].
    eapply upload_logged_later; [| |exact L]; eexists; reflexivity.
Qed.

Lemma records_accounted_run rs s :
  records_accounted s -> records_accounted (run enc dec rs s).
Proof.
  revert s. induction rs as [|r rs IH]; intros s H; cbn [run]; [exact H|].
  apply IH. eapply records_accounted_effect; [apply handle_effect|exact H].
Qed.

(** X4. Record metadata is only ever appended: over any run the earlier
    list of records is a prefix of the later one.  And in a running
    process every stored record is well formed and accounted for: its
    patient and provider identifiers are present, its file name ends in
    ".enc", its id is "0x" with the hex of eight bytes, its iv the hex of
    sixteen, and the ledger holds a RECORD_ADDED entry, the audit trail an
    ADD_RECORD entry by its uploader, for its id. *)
Theorem X4_records_accounted (rs : list Request) :
  (forall s, exists more, records (run enc dec rs s) = records s ++ more)
  /\ (forall disk up entropy clock,
        records_accounted (run enc dec rs (boot disk up entropy clock))).
Proof.
  split.
  - intros s. apply records_run.
  - intros disk up entropy clock. apply records_accounted_run.
    intros r [].
Qed.

Lemma consents_named_effect s s' :
  effect enc s s' -> consents_named (consents s) ->
  consents_named (consents s').
Proof.
  unfold consents_named.
  intros [s1 Hs|p q Hp Hq|p q Hp Hq|p q f Hp Hq Hc|p q Hc|id q rec Hq Hf Hc] H;
    try exact H.
  - destruct Hs as (_ & -> & _). exact H.
  - cbn [after_mutator consents]. apply Forall_app. split.
    + apply List.Forall_forall. intros c Hc.
      apply filter_In in Hc as [Hc _].
      now apply (proj1 (List.Forall_forall _ _) H).
    + constructor; [now split|constructor].
  - cbn [after_mutator consents]. apply Forall_app. split.
    + apply List.Forall_forall. intros c Hc.
      apply filter_In in Hc as [Hc _].
      now apply (proj1 (List.Forall_forall _ _) H).
    + constructor; [now split|constructor].
Qed.

Lemma consents_named_run rs s :
  consents_named (consents s) -> consents_named (consents (run enc dec rs s)).
Proof.
  revert s. induction rs as [|r rs IH]; intros s H; cbn [run]; [exact H|].
  apply IH. eapply consents_named_effect; [apply handle_effect|exact H].
Qed.

(** X5. In a running process every entry of the consent registry names a
    present patient and a present provider, so the consent check is never
    true for a missing or empty identifier. *)
Theorem X5_no_consent_for_missing_ids
    (disk : option (option (list LedgerEntry)))
    (up : gmap string FileContent) (entropy : nat -> Byte.byte)
    (clock : nat -> string) (rs : list Request) :
  consents_named (consents (run enc dec rs (boot disk up entropy clock)))
  /\ (forall p q,
        truthy p = false \/ truthy q = false ->
        isActive (run enc dec rs (boot disk up entropy clock)) p q = false).
Proof.
  assert (H : consents_named
                (consents (run enc dec rs (boot disk up entropy clock)))).
  { apply consents_named_run. constructor. }
  split; [exact H|].
  intros p q Hpq. unfold isActive, hasConsent.
  destruct (existsb _ _) eqn:E; [|reflexivity].
  apply existsb_exists in E as (c & Hc & Hm).
  apply andb_prop in Hm as [Hm _]. apply andb_prop in Hm as [H1 H2].
  apply strict_eq_spec in H1, H2. subst p q.
  destruct (proj1 (List.Forall_forall _ _) H c Hc) as [T1 T2].
  destruct Hpq; congruence.
Qed.

Lemma entries_for_handle_other r s p q :
  targets p q r = false ->
  entries_for p q (consents (snd (handle enc dec r s)))
  = entries_for p q (consents s).
Proof.
  intros Ht. rewrite consents_handle.
  destruct r as [| | |p' q'|p' q'| | | | |]; try reflexivity; cbn [targets] in Ht.
  - destruct (truthy p' && truthy q'); [|reflexivity].
    now rewrite entries_for_after_mutator, Ht.
  - destruct (truthy p' && truthy q'); [|reflexivity].
    now rewrite entries_for_after_mutator, Ht.
Qed.

(** X6. Consent is kept pair by pair: over any run in which no grant or
    revoke names the pair (p, q), whatever is granted to or revoked from
    other pairs, the registry's entries for (p, q), timestamps included,
    and the outcome of the consent check for (p, q) stay what they
    were. *)
Theorem X6_other_pairs_untouched
    (p q : jsval) (rs : list Request) (s : State) :
  forallb (fun r => negb (targets p q r)) rs = true ->
  entries_for p q (consents (run enc dec rs s)) = entries_for p q (consents s)
  /\ isActive (run enc dec rs s) p q = isActive s p q.
Proof.
  intros H. split; [|now apply isActive_run_other].
  revert s. induction rs as [|r rs IH]; intros s; cbn [run]; [reflexivity|].
  cbn [forallb] in H. apply andb_prop in H as [Hr Hrs].
  apply negb_true_iff in Hr.
  rewrite IH by assumption. now apply entries_for_handle_other.
Qed.

Lemma stores_step r s :
  (is_mutator r = false -> consents (snd (handle enc dec r s)) = consents s)
  /\ (is_upload r = false ->
      records (snd (handle enc dec r s)) = records s
      /\ UPLOADS (snd (handle enc dec r s)) = UPLOADS s)
  /\ ENC_KEY (snd (handle enc dec r s)) = ENC_KEY s
  /\ entropy (snd (handle enc dec r s)) = entropy s
  /\ clock (snd (handle enc dec r s)) = clock s
  /\ drawn s <= drawn (snd (handle enc dec r s))
  /\ ticks s <= ticks (snd (handle enc dec r s)).
Proof.
  every_outcome enc dec r s;
    try (destruct f);
    cbn [is_mutator is_upload after_mutator after_add_record after_read
         after_decrypt consents records UPLOADS ENC_KEY entropy clock drawn
         ticks snd];
    repeat split; try reflexivity; try discriminate; try lia.
Qed.

Lemma stores_run (rs : list Request) (s : State) :
  (forallb (fun r => negb (is_mutator r)) rs = true ->
     consents (run enc dec rs s) = consents s)
  /\ (forallb (fun r => negb (is_upload r)) rs = true ->
      records (run enc dec rs s) = records s
      /\ UPLOADS (run enc dec rs s) = UPLOADS s)
  /\ ENC_KEY (run enc dec rs s) = ENC_KEY s
  /\ drawn s <= drawn (run enc dec rs s)
  /\ ticks s <= ticks (run enc dec rs s).
Proof.
  revert s. induction rs as [|r rs IH]; intros s; cbn [run forallb].
  - repeat split; reflexivity.
  - destruct (IH (snd (handle enc dec r s))) as (C2 & U2 & K2 & D2 & T2).
    destruct (stores_step r s) as (C1 & U1 & K1 & _ & _ & D1 & T1).
    split; [|split; [|split; [|split]]].
    + intros H. apply andb_prop in H as [Hr Hrs].
      apply negb_true_iff in Hr. rewrite C2 by assumption. now apply C1.
    + intros H. apply andb_prop in H as [Hr Hrs].
      apply negb_true_iff in Hr.
      destruct (U2 Hrs) as [-> ->]. now apply U1.
    + now rewrite K2.
    + lia.
    + lia.
Qed.

(** X7. Each store has its writers.  Over a run without grant or revoke
    requests the consent registry is unchanged; over a run without upload
    requests the record metadata and the uploads directory are unchanged
    (listings, downloads, grants and revocations delete and overwrite
    nothing); and no request of any kind changes the key.  The positions
    reached in the random source and the clock only move forward. *)
Theorem X7_stores_have_their_writers (rs : list Request) (s : State) :
  (forallb (fun r => negb (is_mutator r)) rs = true ->
     consents (run enc dec rs s) = consents s)
  /\ (forallb (fun r => negb (is_upload r)) rs = true ->
      records (run enc dec rs s) = records s
      /\ UPLOADS (run enc dec rs s) = UPLOADS s)
  /\ ENC_KEY (run enc dec rs s) = ENC_KEY s
  /\ drawn s <= drawn (run enc dec rs s)
  /\ ticks s <= ticks (run enc dec rs s).
Proof. apply stores_run. Qed.

(** X8. An upload never leaves the plaintext behind.  Whatever the
    outcome, the temporary file multer stored is gone afterwards.  When the
    upload fails no other file is touched.  When it succeeds the only file
    written is the blob named after the temporary file with ".enc"
    appended: it holds the hex of the sixteen random bytes drawn as iv,
    which is also the record's iv, and the hex of the cipher's output for
    the uploaded bytes under the key and that iv. *)
Theorem X8_upload_leaves_no_plaintext
    (p q : jsval) (f : UploadedFile) (s : State) :
  let resp := fst (add_record enc p q (Some f) s) in
  let s' := snd (add_record enc p q (Some f) s) in
  UPLOADS s' !! f_filename f = None
  /\ (is_error resp = true ->
      forall name, name <> f_filename f ->
                   UPLOADS s' !! name = UPLOADS s !! name)
  /\ (forall rec tx,
        resp = RRecord rec tx ->
        exists blob,
          UPLOADS s' !! r_filename rec = Some (FJson blob)
          /\ r_filename rec = f_filename f +:+ ".enc"
          /\ r_iv rec = e_iv blob
          /\ from_hex (e_iv blob) = random_at s (drawn s) IV_LENGTH
          /\ from_hex (e_data blob)
             = enc (ENC_KEY s) (random_at s (drawn s) IV_LENGTH) (f_bytes f)
          /\ forall name,
               name <> f_filename f -> name <> f_filename f +:+ ".enc" ->
               UPLOADS s' !! name = UPLOADS s !! name).
Proof.
  cbv zeta.
  assert (Hne : f_filename f +:+ ".enc" <> f_filename f)
    by apply enc_name_fresh.
  destruct (truthy p) eqn:Hp; [destruct (truthy q) eqn:Hq|];
    [destruct (isActive s p q) eqn:Hc| |].
  - rewrite add_record_ok by assumption. cbn [fst snd after_add_record UPLOADS].
    split; [apply lookup_delete_eq|]. split; [discriminate|].
    intros rec tx H. injection H as <- _.
    exists (encrypted_at enc s (f_bytes f)).
    cbn [new_record r_filename r_iv].
    split.
    { rewrite lookup_delete_ne by congruence. apply lookup_insert_eq. }
    do 2 (split; [reflexivity|]).
    do 2 (split; [unfold encrypted_at; cbn [e_iv e_data];
                  apply from_hex_to_hex|]).
    intros name N1 N2.
    now rewrite lookup_delete_ne, !lookup_insert_ne by congruence.
  - rewrite add_record_denied by assumption. cbn [fst snd UPLOADS].
    split; [apply lookup_delete_eq|]. split; [|discriminate].
    intros _ name N. now rewrite lookup_delete_ne, lookup_insert_ne by congruence.
  - rewrite add_record_missing by auto. cbn [fst snd UPLOADS].
    split; [apply lookup_delete_eq|]. split; [|discriminate].
    intros _ name N. now rewrite lookup_delete_ne, lookup_insert_ne by congruence.
  - rewrite add_record_missing by auto. cbn [fst snd UPLOADS].
    split; [apply lookup_delete_eq|]. split; [|discriminate].
    intros _ name N. now rewrite lookup_delete_ne, lookup_insert_ne by congruence.
Qed.

(** One request: what it appends to the record store. *)
Lemma records_step r s :
  records (snd (handle enc dec r s))
  = records s ++ uploaded [fst (handle enc dec r s)].
Proof.
  every_outcome enc dec r s;
    try (destruct f);
    cbn [uploaded flat_map app records after_mutator after_add_record
         after_read after_decrypt];
    rewrite ?app_nil_r; try reflexivity.
  destruct (fst (get_decrypt dec id q s)); try discriminate E.
  cbn [flat_map app]. now rewrite app_nil_r.
Qed.

Lemma uploaded_cons resp resps :
  uploaded (resp :: resps) = uploaded [resp] ++ uploaded resps.
Proof. unfold uploaded. cbn [flat_map]. now rewrite app_nil_r. Qed.

(** The record store holds what it held and what the uploads returned. *)
Lemma records_responses rs s :
  records (run enc dec rs s)
  = records s ++ uploaded (responses enc dec rs s).
Proof.
  revert s. induction rs as [|r rs IH]; intros s; cbn [run responses].
  - cbn [uploaded flat_map]. now rewrite app_nil_r.
  - rewrite IH, uploaded_cons, records_step. now rewrite app_assoc.
Qed.

Lemma listing_shows p rs :
  Forall2 shows
    (List.map view
       (List.filter (fun r => strict_eq (r_patientId r) (JStr p)) rs))
    (records_of (JStr p) rs).
Proof.
  unfold records_of. induction rs as [|r rs IH]; cbn [List.filter List.map].
  - constructor.
  - destruct (strict_eq (r_patientId r) (JStr p)) eqn:E.
    + apply strict_eq_spec in E. rewrite bool_decide_eq_true_2 by exact E.
      cbn [List.map]. constructor; [apply shows_view|exact IH].
    + rewrite bool_decide_eq_false_2; [exact IH|].
      intros H. apply strict_eq_spec in H. congruence.
Qed.

(** X9. A listing discloses the uploads made for the patient, and those
    only.  After any requests, a listing for patient [p] by a provider
    whose consent is active has one entry for each record of [p] that was
    stored at the start or returned by a successful upload since, in that
    order and whoever uploaded it; each entry shows the record's id,
    patient, uploader, file name and date.  The listing changes neither the
    registry, the record store nor the uploads directory. *)
Theorem X9_listing_is_the_patients_records
    (rs : list Request) (s : State) (p q : string) :
  let s' := run enc dec rs s in
  isActive s' (JStr p) (JStr q) = true ->
  exists recs tx,
    fst (get_records p q s') = RRecords recs tx
    /\ Forall2 shows recs
         (records_of (JStr p)
            (records s ++ uploaded (responses enc dec rs s)))
    /\ consents (snd (get_records p q s')) = consents s'
    /\ records (snd (get_records p q s')) = records s'
    /\ UPLOADS (snd (get_records p q s')) = UPLOADS s'.
Proof.
  cbv zeta. intros Hc. rewrite get_records_ok by assumption.
  cbn [fst snd]. do 2 eexists. split; [reflexivity|]. split.
  - rewrite <- records_responses. apply listing_shows.
  - repeat split.
Qed.

(** X10. The ledger persists between runs and nothing else does.  A process
    started again on the disk a previous one left reads the same ledger,
    and whatever it then serves extends that ledger; the blobs are still in
    the uploads directory; but the consent registry, the record metadata
    and the audit trail start empty, so no consent is active and every
    download, for whatever id, answers "record not found". *)
Theorem X10_ledger_persists_between_runs
    (s : State) (entropy : nat -> Byte.byte) (clock : nat -> string)
    (rs : list Request) :
  let s0 := restart s entropy clock in
  ledger_view s0 = ledger_view s
  /\ (exists added, ledger_view (run enc dec rs s0) = ledger_view s ++ added)
  /\ UPLOADS s0 = UPLOADS s
  /\ consents s0 = [] /\ records s0 = [] /\ audit s0 = []
  /\ (forall p q, isActive s0 p q = false)
  /\ (forall id q, truthy q = true ->
                   fst (get_decrypt dec id q s0)
                   = RError 404 "record not found").
Proof.
  cbv zeta.
  assert (L : ledger_view (restart s entropy clock) = ledger_view s).
  { now rewrite !ledger_view_eq. }
  split; [exact L|]. split.
  { destruct (ledger_run enc dec rs (restart s entropy clock)) as [added E].
    exists added. now rewrite E, L. }
  repeat split.
  intros id q Hq. now rewrite get_decrypt_not_found.
Qed.

End Routes.

(** * Identifiers and names *)

Lemma to_hex_length bs : String.length (to_hex bs) = 2 * length bs.
Proof.
  induction bs as [|b bs IH]; [reflexivity|].
  cbn [to_hex String.length length]. rewrite IH. lia.
Qed.

Lemma hex_digits_of_byte b :
  is_hex_digit (hex_digit (Byte.to_N b / 16)) = true
  /\ is_hex_digit (hex_digit (Byte.to_N b mod 16)) = true.
Proof. destruct b; split; reflexivity. Qed.

Lemma to_hex_all_hex bs : all_hex (to_hex bs) = true.
Proof.
  induction bs as [|b bs IH]; [reflexivity|].
  cbn [to_hex all_hex]. destruct (hex_digits_of_byte b) as [-> ->].
  now rewrite IH.
Qed.

Lemma newTxId_eq s :
  newTxId s =
    (tx_at s (drawn s),
     mkState (ENC_KEY s) (consents s) (records s) (audit s) (LEDGER_FILE s)
             (UPLOADS s) (entropy s) (drawn s + 12) (clock s) (ticks s)).
Proof. open_state s; reflexivity. Qed.

Lemma all_hex_no_dot name : all_hex name = true -> has_dot name = false.
Proof.
  induction name as [|c name IH]; [reflexivity|].
  cbn [all_hex has_dot]. intros H. apply andb_prop in H as [Hc Hn].
  rewrite (IH Hn), orb_false_r.
  destruct (Ascii.eqb_spec c "."%char) as [->|]; [discriminate Hc|reflexivity].
Qed.

Lemma replace_first_enc_suffix name :
  has_dot name = false -> replace_first ".enc" "" (name +:+ ".enc") = name.
Proof.
  induction name as [|c name IH]; [reflexivity|].
  cbn [has_dot]. intros H. apply orb_false_elim in H as [Hc Hn].
  change (String c name +:+ ".enc") with (String c (name +:+ ".enc")).
  cbn [replace_first String.prefix].
  destruct (ascii_dec "."%char c) as [E|_].
  - subst c. discriminate Hc.
  - now rewrite IH.
Qed.

Section Names.

Variable enc : list Byte.byte -> list Byte.byte -> list Byte.byte -> list Byte.byte.
Variable dec :
  list Byte.byte -> list Byte.byte -> list Byte.byte -> option (list Byte.byte).

(** X11. The identifiers the program hands out are lower-case hex behind
    "0x".  [newTxId] returns "0x" and 24 hex digits that decode to the
    twelve random bytes it consumed.  A successful upload returns a record
    id of "0x" and 16 hex digits decoding to its eight random bytes, an iv
    of 32 hex digits, and a transaction id of the same shape as
    [newTxId]'s. *)
Theorem X11_identifiers_are_hex (s : State) :
  (exists h,
     fst (newTxId s) = "0x" +:+ h /\ String.length h = 24
     /\ all_hex h = true /\ from_hex h = random_at s (drawn s) 12)
  /\ drawn (snd (newTxId s)) = drawn s + 12
  /\ (forall p q f rec tx,
        fst (add_record enc p q (Some f) s) = RRecord rec tx ->
        (exists h,
           r_recordId rec = "0x" +:+ h /\ String.length h = 16
           /\ all_hex h = true
           /\ from_hex h = random_at s (drawn s + IV_LENGTH) 8)
        /\ String.length (r_iv rec) = 32 /\ all_hex (r_iv rec) = true
        /\ (exists h,
              tx = "0x" +:+ h /\ String.length h = 24 /\ all_hex h = true)).
Proof.
  rewrite newTxId_eq. cbn [fst snd drawn]. split; [|split; [reflexivity|]].
  - exists (to_hex (random_at s (drawn s) 12)).
    rewrite to_hex_length, random_at_length, to_hex_all_hex, from_hex_to_hex.
    repeat split.
  - intros p q f rec tx H.
    destruct (truthy p) eqn:Hp; [destruct (truthy q) eqn:Hq|];
      try (rewrite add_record_missing in H by auto; discriminate H).
    destruct (isActive s p q) eqn:Hc;
      [|rewrite add_record_denied in H by assumption; discriminate H].
    rewrite add_record_ok in H by assumption. cbn [fst] in H.
    injection H as <- <-. cbn [new_record r_recordId r_iv].
    unfold encrypted_at. cbn [e_iv].
    rewrite to_hex_length, random_at_length, to_hex_all_hex.
    split; [|split; [reflexivity|split; [reflexivity|]]].
    + exists (to_hex (random_at s (drawn s + IV_LENGTH) 8)).
      rewrite to_hex_length, random_at_length, to_hex_all_hex, from_hex_to_hex.
      repeat split.
    + exists (to_hex (random_at s (drawn s + IV_LENGTH + 8) 12)).
      rewrite to_hex_length, random_at_length, to_hex_all_hex.
      repeat split.
Qed.

(** X12. A download is offered under the name of the upload: when the
    stored record's file name is [name] with ".enc" appended and [name]
    holds no dot (as a name made of hex digits does not), the attachment
    name of a successful download is [name]. *)
Theorem X12_attachment_is_the_upload_name
    (id : string) (q : jsval) (s : State) (rec : Rec) (name att : string)
    (bytes : list Byte.byte) :
  find_record id s = Some rec ->
  r_filename rec = name +:+ ".enc" ->
  has_dot name = false \/ all_hex name = true ->
  fst (get_decrypt dec id q s) = RFile att bytes ->
  att = name.
Proof.
  intros Hf Hn Hdot H.
  assert (Hd : has_dot name = false).
  { destruct Hdot as [Hd|Hh]; [exact Hd|now apply all_hex_no_dot]. }
  split_decrypt dec id q s.
  - rewrite H in E. discriminate E.
  - cbn [fst] in H. injection H as <- _.
    rewrite Hf in Hf0. injection Hf0 as <-.
    rewrite Hn. now apply replace_first_enc_suffix.
Qed.

End Names.

Example replace_first_takes_the_first_occurrence :
  replace_first ".enc" "" ("a.encb" +:+ ".enc") = "ab.enc".
Proof. reflexivity. Qed.

(** * Reading back over time *)

Section Durable.

Variable enc : list Byte.byte -> list Byte.byte -> list Byte.byte -> list Byte.byte.
Variable dec :
  list Byte.byte -> list Byte.byte -> list Byte.byte -> option (list Byte.byte).

Hypothesis cipher_roundtrip :
  forall key iv x,
    length key = 32 -> length iv = IV_LENGTH ->
    dec key iv (enc key iv x) = Some x.

(** X13. Access follows the consent of the moment, and the bytes stay
    readable.  After an upload (its id borne by no earlier record) and any
    run without further uploads, [decryptRecord] by the uploader answers
    the uploaded bytes if the consent check is true at that moment and
    AccessDenied if it is false: a revocation closes the record, a later
    grant opens it again with the same bytes. *)
Theorem X13_access_follows_current_consent
    (p q : jsval) (f : UploadedFile) (s : State) (rs : list Request) :
  length (ENC_KEY s) = 32 ->
  truthy p = true -> truthy q = true ->
  isActive s p q = true ->
  find_record (r_recordId (new_record enc p q f s)) s = None ->
  forallb (fun r => negb (is_upload r)) rs = true ->
  let id := r_recordId (new_record enc p q f s) in
  let s2 := run enc dec rs (snd (add_record enc p q (Some f) s)) in
  fst (get_decrypt dec id q s2)
  = if isActive s2 p q
    then RFile (replace_first ".enc" "" (f_filename f +:+ ".enc")) (f_bytes f)
    else RError 403 "access denied: no active consent".
Proof.
  intros Hlen Hp Hq Hc Hfresh Hrs. cbv zeta.
  rewrite add_record_ok by assumption. cbn [snd].
  set (rec := new_record enc p q f s).
  set (s1 := after_add_record enc p q f s).
  set (s2 := run enc dec rs s1).
  assert (Hfind : find_record (r_recordId rec) s2 = Some rec).
  { apply find_record_run. now apply find_record_added. }
  destruct (isActive s2 p q) eqn:Hc2.
  - destruct (stores_run enc dec rs s1) as (_ & Hup & Hkey & _).
    destruct (Hup Hrs) as [_ Hup'].
    assert (Hblob : UPLOADS s2 !! r_filename rec
                    = Some (FJson (encrypted_at enc s (f_bytes f)))).
    { fold s2 in Hup'. rewrite Hup'. unfold s1, rec.
      cbn [after_add_record UPLOADS new_record r_filename].
      rewrite lookup_delete_ne
        by (intros E; now apply (enc_name_fresh (f_filename f))).
      apply lookup_insert_eq. }
    assert (Hdec : dec (ENC_KEY s2)
                     (from_hex (e_iv (encrypted_at enc s (f_bytes f))))
                     (from_hex (e_data (encrypted_at enc s (f_bytes f))))
                   = Some (f_bytes f)).
    { pose proof (decrypt_encrypted_at enc dec cipher_roundtrip (f_bytes f)
                    s s2 Hlen Hkey) as D.
      unfold decryptBuffer, bind, get, ret in D. now injection D. }
    rewrite (get_decrypt_ok dec _ q s2 rec _ (f_bytes f) Hq Hfind Hc2 Hblob Hdec).
    reflexivity.
  - now rewrite (get_decrypt_denied dec _ q s2 rec).
Qed.

End Durable.

(** * The ledger as the record of truth *)

Section Replay.

Variable enc : list Byte.byte -> list Byte.byte -> list Byte.byte -> list Byte.byte.
Variable dec :
  list Byte.byte -> list Byte.byte -> list Byte.byte -> option (list Byte.byte).

Lemma replay_consent_snoc p q ledger l :
  replay_consent p q (ledger ++ [l])
  = replay_step p q (replay_consent p q ledger) l.
Proof. unfold replay_consent. now rewrite fold_left_app. Qed.

Lemma added_ids_snoc ledger l :
  added_ids (ledger ++ [l])
  = added_ids ledger ++ match l_event l with
                        | RECORD_ADDED id _ => [id]
                        | _ => []
                        end.
Proof.
  unfold added_ids. rewrite flat_map_app. cbn [flat_map].
  now rewrite app_nil_r.
Qed.

Lemma ledger_view_after_mutator g action ev p q s :
  ledger_view (after_mutator g action ev p q s)
  = ledger_view s
      ++ [mkLedger (ev p q (tx_at s (drawn s))) (clock s (S (S (ticks s))))].
Proof. reflexivity. Qed.

Lemma ledger_view_after_add_record p q f s :
  ledger_view (after_add_record enc p q f s)
  = ledger_view s
      ++ [mkLedger (RECORD_ADDED (r_recordId (new_record enc p q f s))
                      (tx_at s (drawn s + IV_LENGTH + 8)))
                   (clock s (S (S (ticks s))))].
Proof. reflexivity. Qed.

Lemma ledger_view_after_read p q s :
  ledger_view (after_read p q s)
  = ledger_view s
      ++ [mkLedger (READ_RECORDS (JStr p) (JStr q) (tx_at s (drawn s)))
                   (clock s (S (ticks s)))].
Proof. reflexivity. Qed.

Lemma ledger_view_after_decrypt id q s :
  ledger_view (after_decrypt id q s)
  = ledger_view s
      ++ [mkLedger (DOWNLOAD_DECRYPT id (tx_at s (drawn s)) q)
                   (clock s (S (ticks s)))].
Proof. reflexivity. Qed.

Lemma ledger_replays_effect s s' :
  effect enc s s' -> ledger_replays s -> ledger_replays s'.
Proof.
  unfold ledger_replays.
  intros [s1 Hs|p q Hp Hq|p q Hp Hq|p q f Hp Hq Hc|p q Hc|id q rec Hq Hf Hc]
         [Hcons Hrecs].
  - destruct Hs as (_ & Ec & Er & _ & El & _). split.
    + intros p q. unfold isActive. rewrite Ec, !ledger_view_eq, El.
      rewrite <- ledger_view_eq. apply Hcons.
    + rewrite Er, !ledger_view_eq, El, <- ledger_view_eq. exact Hrecs.
  - rewrite ledger_view_after_mutator. split.
    + intros p' q'. rewrite isActive_after_mutator, replay_consent_snoc.
      unfold replay_step. cbn [l_event]. now rewrite <- Hcons.
    + rewrite added_ids_snoc. cbn [l_event after_mutator records].
      now rewrite app_nil_r.
  - rewrite ledger_view_after_mutator. split.
    + intros p' q'. rewrite isActive_after_mutator, replay_consent_snoc.
      unfold replay_step. cbn [l_event]. now rewrite <- Hcons.
    + rewrite added_ids_snoc. cbn [l_event after_mutator records].
      now rewrite app_nil_r.
  - rewrite ledger_view_after_add_record. split.
    + intros p' q'. rewrite replay_consent_snoc. unfold replay_step.
      cbn [l_event]. apply Hcons.
    + rewrite added_ids_snoc. cbn [l_event after_add_record records].
      now rewrite List.map_app, Hrecs.
  - rewrite ledger_view_after_read. split.
    + intros p' q'. rewrite replay_consent_snoc. unfold replay_step.
      cbn [l_event]. apply Hcons.
    + rewrite added_ids_snoc. cbn [l_event after_read records].
      now rewrite app_nil_r.
  - rewrite ledger_view_after_decrypt. split.
    + intros p' q'. rewrite replay_consent_snoc. unfold replay_step.
      cbn [l_event]. apply Hcons.
    + rewrite added_ids_snoc. cbn [l_event after_decrypt records].
      now rewrite app_nil_r.
Qed.

Lemma ledger_replays_run rs s :
  ledger_replays s -> ledger_replays (run enc dec rs s).
Proof.
  revert s. induction rs as [|r rs IH]; intros s H; cbn [run]; [exact H|].
  apply IH. eapply ledger_replays_effect; [apply handle_effect|exact H].
Qed.

(** X14. In a process started without a ledger file, the ledger alone
    tells the live state: after any run, the consent check for a pair
    equals what replaying the ledger's CONSENT_GRANTED and CONSENT_REVOKED
    entries for that pair gives (false when there is none), and the ids of
    the stored records, in order, are the ids of the ledger's RECORD_ADDED
    entries, in order. *)
Theorem X14_ledger_replays_to_live_state
    (up : gmap string FileContent) (entropy : nat -> Byte.byte)
    (clock : nat -> string) (rs : list Request) :
  let s := run enc dec rs (boot None up entropy clock) in
  (forall p q, isActive s p q = replay_consent p q (ledger_view s))
  /\ List.map r_recordId (records s) = added_ids (ledger_view s).
Proof.
  cbv zeta. apply ledger_replays_run. split; [intros p q|]; reflexivity.
Qed.

End Replay.

(** * The audit entries *)

Section AuditEntries.

Variable enc : list Byte.byte -> list Byte.byte -> list Byte.byte -> list Byte.byte.
Variable dec :
  list Byte.byte -> list Byte.byte -> list Byte.byte -> option (list Byte.byte).

(** X16. Who did what.  A successful grant or revoke is audited with the
    patient as actor and the provider as target; a successful upload with
    the provider as actor and the new record's id as target; a successful
    listing with the requesting provider as actor and the patient as
    target; a successful download with the requesting provider as actor
    and the record id as target.  The entry is the last one of the audit
    trail. *)
Theorem X16_audit_names_actor_and_target (r : Request) (s : State) :
  privileged r = true ->
  is_error (fst (handle enc dec r s)) = false ->
  exists tx t,
    audit (snd (handle enc dec r s))
    = audit s ++ [mkAudit tx (audit_action r) (audit_actor r)
                          (audit_target r (fst (handle enc dec r s))) t].
Proof.
  intros Hpriv Hok. revert Hpriv Hok.
  every_outcome enc dec r s; intros Hpriv Hok;
    try discriminate Hpriv; try discriminate Hok;
    try (do 2 eexists; reflexivity).
  rewrite Hok in E. discriminate E.
Qed.

End AuditEntries.

(** * The further properties at concrete inputs *)

Lemma X2_witness :
  is_error (fst (handle ref_encrypt ref_decrypt (GetRecords "pat-1" "doc-2")
                        uploaded_process)) = true
  /\ snd (handle ref_encrypt ref_decrypt (GetRecords "pat-1" "doc-2")
                 uploaded_process) = uploaded_process
  /\ is_error (fst (handle ref_encrypt ref_decrypt
                           (PostAddRecord pat1 doc2 (Some demo_upload))
                           uploaded_process)) = true
  /\ records (snd (handle ref_encrypt ref_decrypt
                          (PostAddRecord pat1 doc2 (Some demo_upload))
                          uploaded_process))
     = records uploaded_process.
Proof.
  assert (E1 : is_error (fst (handle ref_encrypt ref_decrypt
                                (GetRecords "pat-1" "doc-2")
                                uploaded_process)) = true)
    by by_computation.
  assert (E2 : is_error (fst (handle ref_encrypt ref_decrypt
                                (PostAddRecord pat1 doc2 (Some demo_upload))
                                uploaded_process)) = true)
    by by_computation.
  pose proof (X2_errors_change_nothing ref_encrypt ref_decrypt _ _ E1) as H1.
  pose proof (X2_errors_change_nothing ref_encrypt ref_decrypt _ _ E2) as H2.
  cbv zeta in H1, H2.
  destruct H1 as (_ & _ & _ & _ & _ & _ & H1).
  destruct H2 as (_ & H2 & _).
  split; [exact E1|]. split; [apply H1; reflexivity|].
  split; [exact E2|exact H2].
Defined.

Lemma X6_witness :
  let rs := [PostGrant pat1 doc2; PostRevoke (JStr "pat-2") doc1; GetStatus;
             PostRevoke pat1 doc2] in
  forallb (fun r => negb (targets pat1 doc1 r)) rs = true
  /\ entries_for pat1 doc1
       (consents (run ref_encrypt ref_decrypt rs granted_process))
     = entries_for pat1 doc1 (consents granted_process)
  /\ isActive (run ref_encrypt ref_decrypt rs granted_process) pat1 doc1
     = isActive granted_process pat1 doc1.
Proof.
  cbv zeta. split; [reflexivity|].
  apply (X6_other_pairs_untouched ref_encrypt ref_decrypt pat1 doc1).
  reflexivity.
Defined.

Lemma X9_witness :
  let rs := [ PostGrant pat1 doc1; PostGrant pat2 doc1; PostGrant pat1 doc2;
              PostAddRecord pat1 doc1 (Some demo_upload);
              PostAddRecord pat2 doc1 (Some (mkUpload "f0" other));
              PostAddRecord pat1 doc2 (Some (mkUpload "f1" hello));
              PostAddRecord pat1 (JStr "doc-3") (Some (mkUpload "f2" hello)) ] in
  let s := run aes_256_cbc_encrypt aes_256_cbc_decrypt rs fresh_process in
  isActive s pat1 doc2 = true
  /\ exists recs tx,
       fst (get_records "pat-1" "doc-2" s) = RRecords recs tx
       /\ List.map v_recordId recs
          = ["0x4f565d646b727980"; "0x474e555c636a7178"]
       /\ List.map v_providerId recs = [doc1; doc2]
       /\ List.map v_filename recs = ["a1b2c3.enc"; "f1.enc"]
       /\ records (snd (get_records "pat-1" "doc-2" s)) = records s.
Proof.
  cbv zeta.
  set (rs := [ PostGrant pat1 doc1; PostGrant pat2 doc1; PostGrant pat1 doc2;
               PostAddRecord pat1 doc1 (Some demo_upload);
               PostAddRecord pat2 doc1 (Some (mkUpload "f0" other));
               PostAddRecord pat1 doc2 (Some (mkUpload "f1" hello));
               PostAddRecord pat1 (JStr "doc-3") (Some (mkUpload "f2" hello)) ]).
  assert (Hc : isActive (run aes_256_cbc_encrypt aes_256_cbc_decrypt rs
                             fresh_process) pat1 doc2 = true)
    by by_computation.
  destruct (X9_listing_is_the_patients_records aes_256_cbc_encrypt
              aes_256_cbc_decrypt rs fresh_process "pat-1" "doc-2" Hc)
    as (recs & tx & E & Hshow & _ & Hrec & _).
  split; [exact Hc|]. exists recs, tx. split; [exact E|].
  assert (K : records_of (JStr "pat-1")
                (records fresh_process
                 ++ uploaded (responses aes_256_cbc_encrypt aes_256_cbc_decrypt
                                        rs fresh_process))
              = [ mkRec "0x4f565d646b727980" pat1 doc1 "a1b2c3.enc"
                        (demo_clock 12) "dfe6edf4fb020910171e252c333a4148";
                  mkRec "0x474e555c636a7178" pat1 doc2 "f1.enc"
                        (demo_clock 18) "d7dee5ecf3fa01080f161d242b323940" ])
    by by_computation.
  rewrite K in Hshow.
  inversion Hshow as [|v1 r1 l1 l1' S1 T1]; subst.
  inversion T1 as [|v2 r2 l2 l2' S2 T2]; subst.
  inversion T2; subst.
  destruct S1 as (I1 & _ & Q1 & F1 & _). destruct S2 as (I2 & _ & Q2 & F2 & _).
  cbn [List.map]. rewrite I1, I2, Q1, Q2, F1, F2.
  split; [reflexivity|]. split; [reflexivity|]. split; [reflexivity|].
  exact Hrec.
Defined.

Lemma X12_witness :
  find_record demo_id uploaded_process = Some demo_record
  /\ r_filename demo_record = "a1b2c3" +:+ ".enc"
  /\ all_hex "a1b2c3" = true
  /\ fst (get_decrypt ref_decrypt demo_id doc1 uploaded_process)
     = RFile "a1b2c3" hello
  /\ "a1b2c3" = "a1b2c3".
Proof.
  assert (H1 : find_record demo_id uploaded_process = Some demo_record)
    by by_computation.
  assert (H2 : r_filename demo_record = "a1b2c3" +:+ ".enc") by reflexivity.
  assert (H3 : all_hex "a1b2c3" = true) by reflexivity.
  assert (H4 : fst (get_decrypt ref_decrypt demo_id doc1 uploaded_process)
               = RFile "a1b2c3" hello) by by_computation.
  split; [exact H1|]. split; [exact H2|]. split; [exact H3|].
  split; [exact H4|].
  exact (X12_attachment_is_the_upload_name ref_decrypt demo_id doc1
           uploaded_process demo_record "a1b2c3" "a1b2c3" hello
           H1 H2 (or_intror H3) H4).
Defined.

Lemma X13_witness :
  let rs := [PostRevoke pat1 doc1; GetRecords "pat-1" "doc-1"; GetStatus;
             PostGrant pat1 doc1] in
  let s1 := snd (add_record ref_encrypt pat1 doc1 (Some demo_upload)
                            granted_process) in
  length (ENC_KEY granted_process) = 32
  /\ isActive (run ref_encrypt ref_decrypt [PostRevoke pat1 doc1] s1)
              pat1 doc1 = false
  /\ fst (get_decrypt ref_decrypt demo_id doc1
            (run ref_encrypt ref_decrypt [PostRevoke pat1 doc1] s1))
     = RError 403 "access denied: no active consent"
  /\ isActive (run ref_encrypt ref_decrypt rs s1) pat1 doc1 = true
  /\ fst (get_decrypt ref_decrypt demo_id doc1
            (run ref_encrypt ref_decrypt rs s1))
     = RFile "a1b2c3" hello.
Proof.
  cbv zeta.
  assert (Hlen : length (ENC_KEY granted_process) = 32) by reflexivity.
  assert (Hc : isActive granted_process pat1 doc1 = true) by by_computation.
  assert (Hfresh : find_record
                     (r_recordId (new_record ref_encrypt pat1 doc1 demo_upload
                                             granted_process))
                     granted_process = None) by by_computation.
  pose proof (X13_access_follows_current_consent ref_encrypt ref_decrypt
                ref_roundtrip pat1 doc1 demo_upload granted_process
                [PostRevoke pat1 doc1] Hlen eq_refl eq_refl Hc Hfresh eq_refl)
    as Hoff.
  pose proof (X13_access_follows_current_consent ref_encrypt ref_decrypt
                ref_roundtrip pat1 doc1 demo_upload granted_process
                [PostRevoke pat1 doc1; GetRecords "pat-1" "doc-1"; GetStatus;
                 PostGrant pat1 doc1]
                Hlen eq_refl eq_refl Hc Hfresh eq_refl)
    as Hon.
  cbv zeta in Hoff, Hon.
  assert (A1 : isActive
                 (run ref_encrypt ref_decrypt [PostRevoke pat1 doc1]
                    (snd (add_record ref_encrypt pat1 doc1 (Some demo_upload)
                                     granted_process)))
                 pat1 doc1 = false) by by_computation.
  assert (A2 : isActive
                 (run ref_encrypt ref_decrypt
                    [PostRevoke pat1 doc1; GetRecords "pat-1" "doc-1";
                     GetStatus; PostGrant pat1 doc1]
                    (snd (add_record ref_encrypt pat1 doc1 (Some demo_upload)
                                     granted_process)))
                 pat1 doc1 = true) by by_computation.
  rewrite A1 in Hoff. rewrite A2 in Hon.
  split; [exact Hlen|]. split; [exact A1|]. split; [exact Hoff|].
  split; [exact A2|exact Hon].
Defined.

Lemma X16_witness :
  privileged (PostAddRecord pat1 doc1 (Some demo_upload)) = true
  /\ exists tx t,
       audit (snd (handle ref_encrypt ref_decrypt
                          (PostAddRecord pat1 doc1 (Some demo_upload))
                          granted_process))
       = audit granted_process
           ++ [mkAudit tx "ADD_RECORD" doc1 (JStr demo_id) t].
Proof.
  split; [reflexivity|].
  destruct (X16_audit_names_actor_and_target ref_encrypt ref_decrypt
              (PostAddRecord pat1 doc1 (Some demo_upload)) granted_process
              eq_refl ltac:(by_computation)) as (tx & t & H).
  exists tx, t. rewrite H. by_computation.
Defined.
